(** * QuickBite food ordering: the storage layer

    A shallow embedding of the storage contract [IStorage] and of its three
    backends, [MemStorage] (server/storage.ts), [DatabaseStorage]
    (server/db-storage.ts) and [MongoStorage] (server/mongo-storage.ts, the
    revision that has [objectIdToNumericId]), with the properties the
    specification states about them.

    Conventions of the embedding.
    - Application ids (JS [number]) are integers, [Z].  Prices, totals and
      ratings are IEEE doubles, [float]; the storage layer only copies them.
    - A JS [Map] is an association list in insertion order; an SQL table and
      a document collection are lists of rows in insertion order.
    - [new Date()] and the driver's [new ObjectId()] are inputs of the
      operation that performs them.
    - An [async] method is its synchronous body: handlers run one request at
      a time and no method interleaves with another. *)

From Stdlib Require Import ZArith NArith List String Ascii Bool Lia PrimFloat.
Import ListNotations.

Set Implicit Arguments.

(** ** JavaScript built-ins used by the storage code *)

Module Js.

Local Open Scope string_scope.

(** A property that may be missing ([undefined]), [null], or hold a value. *)
Inductive nullable (A : Type) : Type :=
| undefined : nullable A
| null : nullable A
| val (a : A) : nullable A.
Arguments undefined {A}.
Arguments null {A}.

(** [{...old, ...new}] on one property: a key that is present wins. *)
Definition spread {A} (old new : nullable A) : nullable A :=
  match new with
  | undefined => old
  | _ => new
  end.

(** [String.prototype.toLowerCase], on the ASCII letters. *)
Definition lower_ascii (c : ascii) : ascii :=
  let n := nat_of_ascii c in
  if (65 <=? n)%nat && (n <=? 90)%nat then ascii_of_nat (n + 32) else c.

Fixpoint toLowerCase (s : string) : string :=
  match s with
  | EmptyString => EmptyString
  | String c r => String (lower_ascii c) (toLowerCase r)
  end.

Fixpoint drop (n : nat) (s : string) : string :=
  match n, s with
  | O, _ => s
  | S _, EmptyString => EmptyString
  | S k, String _ r => drop k r
  end.

(** [s.substring(start)]: a negative [start] counts as 0. *)
Definition substring (start : Z) (s : string) : string :=
  drop (Z.to_nat start) s.

Fixpoint replicate (n : nat) (c : ascii) : string :=
  match n with
  | O => EmptyString
  | S k => String c (replicate k c)
  end.

(** [s.padStart(target, c)] for a one-character filler. *)
Definition padStart (target : nat) (c : ascii) (s : string) : string :=
  replicate (target - String.length s) c ++ s.

Definition hex_char (d : N) : ascii :=
  match d with
  | 0%N => "0" | 1%N => "1" | 2%N => "2" | 3%N => "3"
  | 4%N => "4" | 5%N => "5" | 6%N => "6" | 7%N => "7"
  | 8%N => "8" | 9%N => "9" | 10%N => "a" | 11%N => "b"
  | 12%N => "c" | 13%N => "d" | 14%N => "e" | _ => "f"
  end%char.

Definition hex_value (c : ascii) : option N :=
  let n := N_of_ascii c in
  if (48 <=? n)%N && (n <=? 57)%N then Some (n - 48)%N
  else if (97 <=? n)%N && (n <=? 102)%N then Some (n - 87)%N
  else if (65 <=? n)%N && (n <=? 70)%N then Some (n - 55)%N
  else None.

(** The [k] least significant hexadecimal digits of [n], most significant
    first. *)
Fixpoint hex_digits (k : nat) (n : N) : string :=
  match k with
  | O => EmptyString
  | S k' => hex_digits k' (n / 16) ++ String (hex_char (n mod 16)) EmptyString
  end.

Definition ndigits (n : N) : nat :=
  match n with
  | 0%N => 1
  | _ => S (N.to_nat (N.log2 n / 4))
  end.

(** [n.toString(16)] for an integer [n]. *)
Definition toString16 (z : Z) : string :=
  (if (z <? 0)%Z then "-" else "")
    ++ hex_digits (ndigits (Z.abs_N z)) (Z.abs_N z).

Fixpoint parse_hex (acc : N) (s : string) : N :=
  match s with
  | EmptyString => acc
  | String c r =>
      match hex_value c with
      | Some d => parse_hex (acc * 16 + d) r
      | None => acc
      end
  end.

Definition is_space (c : ascii) : bool :=
  let n := nat_of_ascii c in
  (n =? 32)%nat || ((9 <=? n)%nat && (n <=? 13)%nat).

Fixpoint skip_space (s : string) : string :=
  match s with
  | String c r => if is_space c then skip_space r else s
  | EmptyString => s
  end.

Definition strip_0x (s : string) : string :=
  match s with
  | String "0" (String "x" r) => r
  | String "0" (String "X" r) => r
  | _ => s
  end.

(** [parseInt(s, 16)]: leading blanks, a sign, an optional [0x], then the
    longest run of hexadecimal digits; [None] is [NaN]. *)
Definition parseInt16 (s : string) : option Z :=
  let s1 := skip_space s in
  let '(neg, s2) :=
    match s1 with
    | String "-" r => (true, r)
    | String "+" r => (false, r)
    | _ => (false, s1)
    end in
  let s3 := strip_0x s2 in
  match s3 with
  | EmptyString => None
  | String c _ =>
      match hex_value c with
      | None => None
      | Some _ =>
          let v := Z.of_N (parse_hex 0 s3) in
          Some (if neg then (- v)%Z else v)
      end
  end.

(** [!!x] for [x] an object: every object is truthy. *)
Definition truthy_object {A} (_ : A) : bool := true.

(** How an awaited call completes: with a value, or by throwing. *)
Inductive result (A : Type) : Type :=
| Ok (a : A)
| Throw.
Arguments Throw {A}.

End Js.

(** ** Document-store object identifiers *)

Module ObjectId.

(** An ObjectId is 12 bytes, read here as a 96-bit unsigned integer. *)
Definition t := N.

Definition valid (o : t) : Prop := (o < 2 ^ 96)%N.

(** [ObjectId.prototype.toString]: 24 lowercase hexadecimal digits. *)
Definition toString (o : t) : string := Js.hex_digits 24 o.

Fixpoint all_hex (s : string) : bool :=
  match s with
  | EmptyString => true
  | String c r =>
      match Js.hex_value c with
      | Some _ => all_hex r
      | None => false
      end
  end.

(** Mongoose's cast of a string to an ObjectId: 24 hexadecimal digits, or
    a [CastError] ([None]). *)
Definition cast (s : string) : option t :=
  if (String.length s =? 24)%nat && all_hex s
  then Some (Js.parse_hex 0 s) else None.

End ObjectId.

(** ** The shared schema (shared/schema.ts)

    A column that is nullable or has a default is optional in the insert
    type; a nullable column is [Js.nullable] in the select type, and
    [Js.undefined] there is a key that [MemStorage] never set. *)

Module User.
Record t := mk {
  id : Z;
  username : string;
  password : string;
  name : Js.nullable string;
  email : Js.nullable string;
  isAdmin : Js.nullable bool }.
End User.

Module InsertUser.
Record t := mk {
  username : string;
  password : string;
  name : Js.nullable string;
  email : Js.nullable string;
  isAdmin : Js.nullable bool }.
End InsertUser.

Module MenuItem.
Record t := mk {
  id : Z;
  name : string;
  description : string;
  price : float;
  imageUrl : Js.nullable string;
  category : string;
  rating : Js.nullable float;
  isPopular : Js.nullable bool }.
End MenuItem.

Module InsertMenuItem.
Record t := mk {
  name : string;
  description : string;
  price : float;
  imageUrl : Js.nullable string;
  category : string;
  isPopular : Js.nullable bool }.
End InsertMenuItem.

(** A cart quantity is an integer; [None] is a value that is not a number
    ([undefined] or [NaN]), which arises when the insert value omits the
    optional [quantity]. *)
Module CartItem.
Record t := mk {
  id : Z;
  userId : Z;
  menuItemId : Z;
  quantity : option Z }.
End CartItem.

Module InsertCartItem.
Record t := mk {
  userId : Z;
  menuItemId : Z;
  quantity : option Z }.
End InsertCartItem.

(** One element of the JSON array [orders.items]; the storage code reads
    these two keys and no other. *)
Module OrderItem.
Record t := mk {
  menuItemId : Z;
  quantity : Z }.
End OrderItem.

Module Order.
Record t := mk {
  id : Z;
  userId : Z;
  items : list OrderItem.t;
  status : string;
  total : float;
  createdAt : Js.nullable Z;
  address : Js.nullable string;
  paymentId : Js.nullable string }.
End Order.

Module InsertOrder.
Record t := mk {
  userId : Z;
  items : list OrderItem.t;
  total : float;
  address : Js.nullable string;
  paymentId : Js.nullable string }.
End InsertOrder.

Module OrderStatus.
Inductive t := pending | processing | delivering | delivered | cancelled.
Definition text (s : t) : string :=
  match s with
  | pending => "pending"
  | processing => "processing"
  | delivering => "delivering"
  | delivered => "delivered"
  | cancelled => "cancelled"
  end.
End OrderStatus.

(** [CartItem & { menuItem }]; [None] is the [undefined] that [menuItem!]
    lets through. *)
Module CartItemWithDetails.
Record t := mk {
  item : CartItem.t;
  menuItem : option MenuItem.t }.
End CartItemWithDetails.

Module OrderItemWithDetails.
Record t := mk {
  menuItem : option MenuItem.t;
  quantity : Z }.
End OrderItemWithDetails.

(** [{ ...order, items: itemsWithDetails }]. *)
Module OrderWithItems.
Record t := mk {
  order : Order.t;
  items : list OrderItemWithDetails.t }.
End OrderWithItems.

(** [a + b] on quantities: anything added to a non-number is [NaN]. *)
Definition js_add (a b : option Z) : option Z :=
  match a, b with
  | Some x, Some y => Some (x + y)%Z
  | _, _ => None
  end.

(** The operations of [IStorage], as requests.  [CreateOrder] carries the
    clock reading of its [new Date()]. *)
Inductive op : Type :=
| GetUser (id : Z)
| GetUserByUsername (username : string)
| CreateUser (user : InsertUser.t)
| GetAllMenuItems
| GetMenuItemById (id : Z)
| GetMenuItemsByCategory (category : string)
| CreateMenuItem (menuItem : InsertMenuItem.t)
| UpdateMenuItem (id : Z) (menuItem : InsertMenuItem.t)
| DeleteMenuItem (id : Z)
| GetCartItems (userId : Z)
| GetCartItemsWithDetails (userId : Z)
| AddToCart (cartItem : InsertCartItem.t)
| RemoveFromCart (id userId : Z)
| UpdateCartItemQuantity (id userId : Z) (quantity : option Z)
| ClearCart (userId : Z)
| CreateOrder (now : Z) (order : InsertOrder.t)
| GetOrderById (id : Z)
| GetOrdersByUserId (userId : Z)
| GetAllOrders
| UpdateOrderStatus (id : Z) (status : OrderStatus.t).

(** What a request returns, by return type; [RThrow] is a rejected
    promise. *)
Inductive response : Type :=
| RUser (r : User.t)
| ROptUser (r : option User.t)
| RMenuItem (r : MenuItem.t)
| ROptMenuItem (r : option MenuItem.t)
| RMenuItems (r : list MenuItem.t)
| RBool (r : bool)
| RCartItems (r : list CartItem.t)
| RCartItemsWithDetails (r : list CartItemWithDetails.t)
| ROptCartItem (r : option CartItem.t)
| ROrder (r : Order.t)
| ROptOrder (r : option Order.t)
| ROrders (r : list Order.t)
| ROrdersWithItems (r : list OrderWithItems.t)
| RThrow.

(** ** JavaScript [Map<number, V>]: entries in insertion order *)

Module JsMap.
Section Ops.
Variable V : Type.

Definition t := list (Z * V).

Fixpoint get (k : Z) (m : t) : option V :=
  match m with
  | [] => None
  | (k', v) :: r => if (k' =? k)%Z then Some v else get k r
  end.

Definition has (k : Z) (m : t) : bool :=
  match get k m with Some _ => true | None => false end.

(** [set] keeps the position of a key that is present and appends a new
    one. *)
Fixpoint set (k : Z) (v : V) (m : t) : t :=
  match m with
  | [] => [(k, v)]
  | (k', v') :: r =>
      if (k' =? k)%Z then (k, v) :: r else (k', v') :: set k v r
  end.

Fixpoint delete (k : Z) (m : t) : t :=
  match m with
  | [] => []
  | (k', v') :: r =>
      if (k' =? k)%Z then r else (k', v') :: delete k r
  end.

Definition values (m : t) : list V := map snd m.
Definition keys (m : t) : list Z := map fst m.
End Ops.
End JsMap.

(** The seed data of [seedMenuItems] / [seedInitialData]. *)
Module Seed.
Local Open Scope string_scope.
Local Open Scope float_scope.
Local Set Warnings "-inexact-float".

Definition admin : InsertUser.t :=
  InsertUser.mk "admin" "admin_password"
    (Js.val "Admin User") (Js.val "admin@quickbite.com") (Js.val true).

Definition item name description price imageUrl category isPopular :=
  InsertMenuItem.mk name description price (Js.val imageUrl) category
    (Js.val isPopular).

Definition menuItemsData : list InsertMenuItem.t :=
  [ item "Pepperoni Pizza"
      "Classic pepperoni pizza with mozzarella and our special sauce" 12.99
      "https://images.unsplash.com/photo-1513104890138-7c749659a591?ixlib=rb-1.2.1&auto=format&fit=crop&w=500&q=80"
      "Pizza" true;
    item "Deluxe Burger"
      "Juicy beef patty with cheese, lettuce, tomato and special sauce" 10.99
      "https://images.unsplash.com/photo-1568901346375-23c9450c58cd?ixlib=rb-1.2.1&auto=format&fit=crop&w=500&q=80"
      "Burgers" true;
    item "Salmon Sushi Roll"
      "Fresh salmon, avocado, cucumber wrapped in seaweed and rice" 14.99
      "https://images.unsplash.com/photo-1579871494447-9811cf80d66c?ixlib=rb-1.2.1&auto=format&fit=crop&w=500&q=80"
      "Sushi" true;
    item "Pasta Carbonara"
      "Creamy pasta with bacon, egg, parmesan cheese and black pepper" 13.99
      "https://images.unsplash.com/photo-1473093295043-cdd812d0e601?ixlib=rb-1.2.1&auto=format&fit=crop&w=500&q=80"
      "Pasta" true;
    item "Margherita Pizza"
      "Classic pizza with tomato sauce, mozzarella cheese, and fresh basil" 11.99
      "https://images.unsplash.com/photo-1565299624946-b28f40a0ae38?ixlib=rb-1.2.1&auto=format&fit=crop&w=500&q=80"
      "Pizza" false;
    item "Chicken Salad"
      "Fresh vegetables with grilled chicken, avocado and vinaigrette" 9.99
      "https://images.unsplash.com/photo-1532465614-6cc8d45f647f?ixlib=rb-1.2.1&auto=format&fit=crop&w=500&q=80"
      "Salads" false;
    item "Spicy Wings"
      "Crispy chicken wings tossed in our special hot sauce" 8.99
      "https://images.unsplash.com/photo-1563729784474-d77dbb933a9e?ixlib=rb-1.2.1&auto=format&fit=crop&w=500&q=80"
      "Chicken" false;
    item "Chocolate Cake"
      "Rich chocolate cake with ganache frosting and berries" 6.99
      "https://images.unsplash.com/photo-1529042410759-befb1204b468?ixlib=rb-1.2.1&auto=format&fit=crop&w=500&q=80"
      "Desserts" false ].

(** The list of [DatabaseStorage.seedInitialData]. *)
Definition dbMenuItemsData : list InsertMenuItem.t :=
  [ item "Pepperoni Pizza"
      "Classic pepperoni pizza with mozzarella and our special sauce" 12.99
      "https://images.unsplash.com/photo-1513104890138-7c749659a591?ixlib=rb-1.2.1&auto=format&fit=crop&w=500&q=80"
      "Pizza" true;
    item "Deluxe Burger"
      "Juicy beef patty with cheese, lettuce, tomato and special sauce" 10.99
      "https://images.unsplash.com/photo-1568901346375-23c9450c58cd?ixlib=rb-1.2.1&auto=format&fit=crop&w=500&q=80"
      "Burgers" true;
    item "Salmon Sushi Roll"
      "Fresh salmon, avocado, cucumber wrapped in seaweed and rice" 14.99
      "https://images.unsplash.com/photo-1579871494447-9811cf80d66c?ixlib=rb-1.2.1&auto=format&fit=crop&w=500&q=80"
      "Sushi" true;
    item "Pasta Carbonara"
      "Creamy pasta with bacon, egg, parmesan cheese and black pepper" 13.99
      "https://images.unsplash.com/photo-1473093295043-cdd812d0e601?ixlib=rb-1.2.1&auto=format&fit=crop&w=500&q=80"
      "Pasta" true;
    item "Margherita Pizza"
      "Classic pizza with tomato sauce, mozzarella cheese, and fresh basil" 11.99
      "https://images.unsplash.com/photo-1565299624946-b28f40a0ae38?ixlib=rb-1.2.1&auto=format&fit=crop&w=500&q=80"
      "Pizza" false;
    item "Chicken Salad"
      "Fresh vegetables with grilled chicken, avocado and vinaigrette" 9.99
      "https://encrypted-tbn1.gstatic.com/shopping?q=tbn:ANd9GcRvRGyIDdiPeQlWwTGJam3ZFtshlf_BxAXuMD8Oz_XXNjFl82_AZoFHLwLBrxWX7eatbznQKgDwKeWgX8P1TKfthIV8Jfeun4ov_sRigP9Jfno57fIIgWVa"
      "Salads" false;
    item "Spicy Wings"
      "Crispy chicken wings tossed in our special hot sauce" 8.99
      "https://images.unsplash.com/photo-1563729784474-d77dbb933a9e?ixlib=rb-1.2.1&auto=format&fit=crop&w=500&q=80"
      "Chicken" false;
    item "Chocolate Cake"
      "Rich chocolate cake with ganache frosting and berries" 6.99
      "https://images.unsplash.com/photo-1529042410759-befb1204b468?ixlib=rb-1.2.1&auto=format&fit=crop&w=500&q=80"
      "Desserts" false ].
End Seed.

(** ** The in-memory backend (class [MemStorage], server/storage.ts)

    Every method takes the object's fields as a [state] and returns its
    result with the new state. *)

Module MemStorage.

Record state := mkState {
  users : JsMap.t User.t;
  menuItems : JsMap.t MenuItem.t;
  cartItems : JsMap.t CartItem.t;
  orders : JsMap.t Order.t;
  userIdCounter : Z;
  menuItemIdCounter : Z;
  cartItemIdCounter : Z;
  orderIdCounter : Z }.

Definition getUser (id : Z) (s : state) : option User.t :=
  JsMap.get id (users s).

Definition getUserByUsername (username : string) (s : state)
  : option User.t :=
  find (fun user =>
          String.eqb (Js.toLowerCase (User.username user))
                     (Js.toLowerCase username))
       (JsMap.values (users s)).

Definition createUser (insertUser : InsertUser.t) (s : state)
  : User.t * state :=
  let id := userIdCounter s in
  let user :=
    User.mk id (InsertUser.username insertUser)
      (InsertUser.password insertUser) (InsertUser.name insertUser)
      (InsertUser.email insertUser) (InsertUser.isAdmin insertUser) in
  (user,
   mkState (JsMap.set id user (users s)) (menuItems s) (cartItems s)
     (orders s) (id + 1) (menuItemIdCounter s) (cartItemIdCounter s)
     (orderIdCounter s)).

Definition getAllMenuItems (s : state) : list MenuItem.t :=
  JsMap.values (menuItems s).

Definition getMenuItemById (id : Z) (s : state) : option MenuItem.t :=
  JsMap.get id (menuItems s).

Definition getMenuItemsByCategory (category : string) (s : state)
  : list MenuItem.t :=
  filter (fun item =>
            String.eqb (Js.toLowerCase (MenuItem.category item))
                       (Js.toLowerCase category))
         (JsMap.values (menuItems s)).

Definition with_menuItems (m : JsMap.t MenuItem.t) (s : state) : state :=
  mkState (users s) m (cartItems s) (orders s) (userIdCounter s)
    (menuItemIdCounter s) (cartItemIdCounter s) (orderIdCounter s).

Definition with_cartItems (m : JsMap.t CartItem.t) (s : state) : state :=
  mkState (users s) (menuItems s) m (orders s) (userIdCounter s)
    (menuItemIdCounter s) (cartItemIdCounter s) (orderIdCounter s).

Definition with_orders (m : JsMap.t Order.t) (s : state) : state :=
  mkState (users s) (menuItems s) (cartItems s) m (userIdCounter s)
    (menuItemIdCounter s) (cartItemIdCounter s) (orderIdCounter s).

(** [{ id, ...insertMenuItem, rating: 0 }] *)
Definition createMenuItem (insertMenuItem : InsertMenuItem.t) (s : state)
  : MenuItem.t * state :=
  let id := menuItemIdCounter s in
  let menuItem :=
    MenuItem.mk id (InsertMenuItem.name insertMenuItem)
      (InsertMenuItem.description insertMenuItem)
      (InsertMenuItem.price insertMenuItem)
      (InsertMenuItem.imageUrl insertMenuItem)
      (InsertMenuItem.category insertMenuItem)
      (Js.val 0%float)
      (InsertMenuItem.isPopular insertMenuItem) in
  (menuItem,
   mkState (users s) (JsMap.set id menuItem (menuItems s)) (cartItems s)
     (orders s) (userIdCounter s) (id + 1) (cartItemIdCounter s)
     (orderIdCounter s)).

(** [{ ...existingMenuItem, ...insertMenuItem }] *)
Definition merge (existingMenuItem : MenuItem.t)
    (insertMenuItem : InsertMenuItem.t) : MenuItem.t :=
  MenuItem.mk (MenuItem.id existingMenuItem)
    (InsertMenuItem.name insertMenuItem)
    (InsertMenuItem.description insertMenuItem)
    (InsertMenuItem.price insertMenuItem)
    (Js.spread (MenuItem.imageUrl existingMenuItem)
               (InsertMenuItem.imageUrl insertMenuItem))
    (InsertMenuItem.category insertMenuItem)
    (MenuItem.rating existingMenuItem)
    (Js.spread (MenuItem.isPopular existingMenuItem)
               (InsertMenuItem.isPopular insertMenuItem)).

Definition updateMenuItem (id : Z) (insertMenuItem : InsertMenuItem.t)
    (s : state) : option MenuItem.t * state :=
  match JsMap.get id (menuItems s) with
  | None => (None, s)
  | Some existingMenuItem =>
      let updatedMenuItem := merge existingMenuItem insertMenuItem in
      (Some updatedMenuItem,
       with_menuItems (JsMap.set id updatedMenuItem (menuItems s)) s)
  end.

Definition deleteMenuItem (id : Z) (s : state) : bool * state :=
  (JsMap.has id (menuItems s),
   with_menuItems (JsMap.delete id (menuItems s)) s).

Definition getCartItems (userId : Z) (s : state) : list CartItem.t :=
  filter (fun item => (CartItem.userId item =? userId)%Z)
         (JsMap.values (cartItems s)).

Definition getCartItemsWithDetails (userId : Z) (s : state)
  : list CartItemWithDetails.t :=
  map (fun item =>
         CartItemWithDetails.mk item
           (getMenuItemById (CartItem.menuItemId item) s))
      (getCartItems userId s).

Definition updateCartItemQuantity (id userId : Z) (quantity : option Z)
    (s : state) : option CartItem.t * state :=
  match JsMap.get id (cartItems s) with
  | None => (None, s)
  | Some cartItem =>
      if negb (CartItem.userId cartItem =? userId)%Z then (None, s)
      else
        let updatedCartItem :=
          CartItem.mk (CartItem.id cartItem) (CartItem.userId cartItem)
            (CartItem.menuItemId cartItem) quantity in
        (Some updatedCartItem,
         with_cartItems (JsMap.set id updatedCartItem (cartItems s)) s)
  end.

(** The result is an [option] because the merging branch returns
    [updateCartItemQuantity(...) as Promise<CartItem>]. *)
Definition addToCart (insertCartItem : InsertCartItem.t) (s : state)
  : option CartItem.t * state :=
  match find (fun item =>
                (CartItem.userId item =? InsertCartItem.userId insertCartItem)%Z
                && (CartItem.menuItemId item
                    =? InsertCartItem.menuItemId insertCartItem)%Z)
             (JsMap.values (cartItems s)) with
  | Some existingCartItem =>
      updateCartItemQuantity (CartItem.id existingCartItem)
        (InsertCartItem.userId insertCartItem)
        (js_add (CartItem.quantity existingCartItem)
                (InsertCartItem.quantity insertCartItem))
        s
  | None =>
      let id := cartItemIdCounter s in
      let cartItem :=
        CartItem.mk id (InsertCartItem.userId insertCartItem)
          (InsertCartItem.menuItemId insertCartItem)
          (InsertCartItem.quantity insertCartItem) in
      (Some cartItem,
       mkState (users s) (menuItems s)
         (JsMap.set id cartItem (cartItems s)) (orders s)
         (userIdCounter s) (menuItemIdCounter s) (id + 1)
         (orderIdCounter s))
  end.

Definition removeFromCart (id userId : Z) (s : state) : bool * state :=
  match JsMap.get id (cartItems s) with
  | None => (false, s)
  | Some cartItem =>
      if negb (CartItem.userId cartItem =? userId)%Z then (false, s)
      else (JsMap.has id (cartItems s),
            with_cartItems (JsMap.delete id (cartItems s)) s)
  end.

(** [for (const item of cartItems) this.cartItems.delete(item.id)] *)
Definition clearCart (userId : Z) (s : state) : bool * state :=
  let cartItems := getCartItems userId s in
  (true,
   fold_left (fun s' item =>
                with_cartItems
                  (JsMap.delete (CartItem.id item) (MemStorage.cartItems s'))
                  s')
             cartItems s).

(** [{ id, ...insertOrder, createdAt: now, status: 'pending' }] *)
Definition createOrder (now : Z) (insertOrder : InsertOrder.t) (s : state)
  : Order.t * state :=
  let id := orderIdCounter s in
  let order :=
    Order.mk id (InsertOrder.userId insertOrder)
      (InsertOrder.items insertOrder) "pending"
      (InsertOrder.total insertOrder) (Js.val now)
      (InsertOrder.address insertOrder)
      (InsertOrder.paymentId insertOrder) in
  (order,
   mkState (users s) (menuItems s) (cartItems s)
     (JsMap.set id order (orders s)) (userIdCounter s)
     (menuItemIdCounter s) (cartItemIdCounter s) (id + 1)).

Definition getOrderById (id : Z) (s : state) : option Order.t :=
  JsMap.get id (orders s).

Definition getOrdersByUserId (userId : Z) (s : state)
  : list OrderWithItems.t :=
  let userOrders :=
    filter (fun order => (Order.userId order =? userId)%Z)
           (JsMap.values (orders s)) in
  map (fun order =>
         OrderWithItems.mk order
           (map (fun item =>
                   OrderItemWithDetails.mk
                     (getMenuItemById (OrderItem.menuItemId item) s)
                     (OrderItem.quantity item))
                (Order.items order)))
      userOrders.

Definition getAllOrders (s : state) : list Order.t :=
  JsMap.values (orders s).

Definition updateOrderStatus (id : Z) (status : OrderStatus.t) (s : state)
  : option Order.t * state :=
  match JsMap.get id (orders s) with
  | None => (None, s)
  | Some order =>
      let updatedOrder :=
        Order.mk (Order.id order) (Order.userId order) (Order.items order)
          (OrderStatus.text status) (Order.total order)
          (Order.createdAt order) (Order.address order)
          (Order.paymentId order) in
      (Some updatedOrder,
       with_orders (JsMap.set id updatedOrder (orders s)) s)
  end.

Definition seedMenuItems (s : state) : state :=
  fold_left (fun s' item => snd (createMenuItem item s'))
            Seed.menuItemsData s.

(** The constructor: empty maps and counters at 1, then the admin user and
    the seeded menu. *)
Definition blank : state := mkState [] [] [] [] 1 1 1 1.

Definition init : state :=
  seedMenuItems (snd (createUser Seed.admin blank)).

(** The effect of one request on the state. *)
Definition step (o : op) (s : state) : state :=
  match o with
  | CreateUser u => snd (createUser u s)
  | CreateMenuItem m => snd (createMenuItem m s)
  | UpdateMenuItem id m => snd (updateMenuItem id m s)
  | DeleteMenuItem id => snd (deleteMenuItem id s)
  | AddToCart c => snd (addToCart c s)
  | RemoveFromCart id u => snd (removeFromCart id u s)
  | UpdateCartItemQuantity id u q => snd (updateCartItemQuantity id u q s)
  | ClearCart u => snd (clearCart u s)
  | CreateOrder now o' => snd (createOrder now o' s)
  | UpdateOrderStatus id st => snd (updateOrderStatus id st s)
  | GetUser _ | GetUserByUsername _ | GetAllMenuItems | GetMenuItemById _
  | GetMenuItemsByCategory _ | GetCartItems _ | GetCartItemsWithDetails _
  | GetOrderById _ | GetOrdersByUserId _ | GetAllOrders => s
  end.

Definition run (ops : list op) (s : state) : state :=
  fold_left (fun s' o => step o s') ops s.

(** One request with its answer. *)
Definition exec (o : op) (s : state) : response * state :=
  match o with
  | GetUser id => (ROptUser (getUser id s), s)
  | GetUserByUsername u => (ROptUser (getUserByUsername u s), s)
  | CreateUser u => let (r, s') := createUser u s in (RUser r, s')
  | GetAllMenuItems => (RMenuItems (getAllMenuItems s), s)
  | GetMenuItemById id => (ROptMenuItem (getMenuItemById id s), s)
  | GetMenuItemsByCategory c => (RMenuItems (getMenuItemsByCategory c s), s)
  | CreateMenuItem m => let (r, s') := createMenuItem m s in (RMenuItem r, s')
  | UpdateMenuItem id m =>
      let (r, s') := updateMenuItem id m s in (ROptMenuItem r, s')
  | DeleteMenuItem id => let (r, s') := deleteMenuItem id s in (RBool r, s')
  | GetCartItems u => (RCartItems (getCartItems u s), s)
  | GetCartItemsWithDetails u =>
      (RCartItemsWithDetails (getCartItemsWithDetails u s), s)
  | AddToCart c => let (r, s') := addToCart c s in (ROptCartItem r, s')
  | RemoveFromCart id u =>
      let (r, s') := removeFromCart id u s in (RBool r, s')
  | UpdateCartItemQuantity id u q =>
      let (r, s') := updateCartItemQuantity id u q s in (ROptCartItem r, s')
  | ClearCart u => let (r, s') := clearCart u s in (RBool r, s')
  | CreateOrder now o' => let (r, s') := createOrder now o' s in (ROrder r, s')
  | GetOrderById id => (ROptOrder (getOrderById id s), s)
  | GetOrdersByUserId u => (ROrdersWithItems (getOrdersByUserId u s), s)
  | GetAllOrders => (ROrders (getAllOrders s), s)
  | UpdateOrderStatus id st =>
      let (r, s') := updateOrderStatus id st s in (ROptOrder r, s')
  end.

(** The answers to a sequence of requests, in order. *)
Fixpoint answers (ops : list op) (s : state) : list response :=
  match ops with
  | [] => []
  | o :: rest => fst (exec o s) :: answers rest (snd (exec o s))
  end.

End MemStorage.

(** ** The relational backend (class [DatabaseStorage], server/db-storage.ts)

    The tables of shared/schema.ts are lists of rows, each [serial] column
    has its sequence, and a statement either returns or throws.  A query
    without [ORDER BY] returns the rows in table order here; SQL leaves that
    order open. *)

Module Sql.

(** What the driver returns for a statement without [returning()]. *)
Record QueryResult := mkResult { rowCount : nat }.

Section Table.
Variable row : Type.

(** [select().from(t).where(p)] *)
Definition select (p : row -> bool) (t : list row) : list row :=
  filter p t.

(** [update(t).set(f).where(p)], and the rows its [returning()] gives. *)
Definition update (p : row -> bool) (f : row -> row) (t : list row)
  : list row :=
  map (fun r => if p r then f r else r) t.

Definition returning (p : row -> bool) (f : row -> row) (t : list row)
  : list row :=
  map f (filter p t).

(** [delete(t).where(p)] *)
Definition delete (p : row -> bool) (t : list row) : list row :=
  filter (fun r => negb (p r)) t.

Definition delete_result (p : row -> bool) (t : list row)
  : QueryResult :=
  mkResult (List.length (filter p t)).

(** [const [x] = rows] *)
Definition first (rows : list row) : option row := hd_error rows.
End Table.

(** A column default fills a key the insert value does not have. *)
Definition default {A} (d : Js.nullable A) (x : Js.nullable A)
  : Js.nullable A :=
  match x with
  | Js.undefined => d
  | _ => x
  end.

End Sql.

Module DatabaseStorage.

Import Sql.
Import Js (result, Ok, Throw).

Record state := mkState {
  users : list User.t;
  menuItems : list MenuItem.t;
  cartItems : list CartItem.t;
  orders : list Order.t;
  users_id_seq : Z;
  menu_items_id_seq : Z;
  cart_items_id_seq : Z;
  orders_id_seq : Z }.

(** The database before any statement: empty tables, sequences at 1. *)
Definition empty : state := mkState [] [] [] [] 1 1 1 1.

Definition with_menuItems (t : list MenuItem.t) (s : state) : state :=
  mkState (users s) t (cartItems s) (orders s) (users_id_seq s)
    (menu_items_id_seq s) (cart_items_id_seq s) (orders_id_seq s).

Definition with_cartItems (t : list CartItem.t) (s : state) : state :=
  mkState (users s) (menuItems s) t (orders s) (users_id_seq s)
    (menu_items_id_seq s) (cart_items_id_seq s) (orders_id_seq s).

Definition with_orders (t : list Order.t) (s : state) : state :=
  mkState (users s) (menuItems s) (cartItems s) t (users_id_seq s)
    (menu_items_id_seq s) (cart_items_id_seq s) (orders_id_seq s).

Definition getUser (id : Z) (s : state) : option User.t :=
  first (select (fun u => (User.id u =? id)%Z) (users s)).

Definition getUserByUsername (username : string) (s : state)
  : option User.t :=
  first (select (fun u => String.eqb (User.username u) username) (users s)).

(** [username] is [unique()]: a second row with the same name is
    rejected, after the sequence has advanced. *)
Definition createUser (insertUser : InsertUser.t) (s : state)
  : result User.t * state :=
  let id := users_id_seq s in
  let user :=
    User.mk id (InsertUser.username insertUser)
      (InsertUser.password insertUser)
      (default Js.null (InsertUser.name insertUser))
      (default Js.null (InsertUser.email insertUser))
      (default (Js.val false) (InsertUser.isAdmin insertUser)) in
  if existsb (fun u => String.eqb (User.username u)
                                  (InsertUser.username insertUser))
             (users s)
  then (Throw,
        mkState (users s) (menuItems s) (cartItems s) (orders s) (id + 1)
          (menu_items_id_seq s) (cart_items_id_seq s) (orders_id_seq s))
  else (Ok user,
        mkState (users s ++ [user]) (menuItems s) (cartItems s) (orders s)
          (id + 1) (menu_items_id_seq s) (cart_items_id_seq s)
          (orders_id_seq s)).

Definition getAllMenuItems (s : state) : list MenuItem.t := menuItems s.

Definition getMenuItemById (id : Z) (s : state) : option MenuItem.t :=
  first (select (fun m => (MenuItem.id m =? id)%Z) (menuItems s)).

Definition getMenuItemsByCategory (category : string) (s : state)
  : list MenuItem.t :=
  select (fun m => String.eqb (MenuItem.category m) category) (menuItems s).

Definition createMenuItem (insertMenuItem : InsertMenuItem.t) (s : state)
  : MenuItem.t * state :=
  let id := menu_items_id_seq s in
  let menuItem :=
    MenuItem.mk id (InsertMenuItem.name insertMenuItem)
      (InsertMenuItem.description insertMenuItem)
      (InsertMenuItem.price insertMenuItem)
      (default Js.null (InsertMenuItem.imageUrl insertMenuItem))
      (InsertMenuItem.category insertMenuItem)
      (Js.val 0%float)
      (default (Js.val false) (InsertMenuItem.isPopular insertMenuItem)) in
  (menuItem,
   mkState (users s) (menuItems s ++ [menuItem]) (cartItems s) (orders s)
     (users_id_seq s) (id + 1) (cart_items_id_seq s) (orders_id_seq s)).

(** [.set(insertMenuItem)]: the keys of the insert value that are present
    are assigned. *)
Definition set_menuItem (insertMenuItem : InsertMenuItem.t)
    (m : MenuItem.t) : MenuItem.t :=
  MenuItem.mk (MenuItem.id m)
    (InsertMenuItem.name insertMenuItem)
    (InsertMenuItem.description insertMenuItem)
    (InsertMenuItem.price insertMenuItem)
    (Js.spread (MenuItem.imageUrl m)
               (InsertMenuItem.imageUrl insertMenuItem))
    (InsertMenuItem.category insertMenuItem)
    (MenuItem.rating m)
    (Js.spread (MenuItem.isPopular m)
               (InsertMenuItem.isPopular insertMenuItem)).

Definition updateMenuItem (id : Z) (insertMenuItem : InsertMenuItem.t)
    (s : state) : option MenuItem.t * state :=
  let p := fun m => (MenuItem.id m =? id)%Z in
  (first (returning p (set_menuItem insertMenuItem) (menuItems s)),
   with_menuItems (update p (set_menuItem insertMenuItem) (menuItems s)) s).

(** [return !!result]: [result] is the driver's query result object. *)
Definition deleteMenuItem (id : Z) (s : state) : bool * state :=
  let p := fun m => (MenuItem.id m =? id)%Z in
  let result := delete_result p (menuItems s) in
  (Js.truthy_object result, with_menuItems (delete p (menuItems s)) s).

Definition getCartItems (userId : Z) (s : state) : list CartItem.t :=
  select (fun c => (CartItem.userId c =? userId)%Z) (cartItems s).

Definition getCartItemsWithDetails (userId : Z) (s : state)
  : list CartItemWithDetails.t :=
  flat_map (fun item =>
              match getMenuItemById (CartItem.menuItemId item) s with
              | Some menuItem =>
                  [CartItemWithDetails.mk item (Some menuItem)]
              | None => []
              end)
           (getCartItems userId s).

(** [quantity] is [integer NOT NULL]: a value that is not a number is
    rejected by the database. *)
Definition updateCartItemQuantity (id userId : Z) (quantity : option Z)
    (s : state) : result (option CartItem.t) * state :=
  match quantity with
  | None => (Throw, s)
  | Some q =>
      let p := fun c => (CartItem.id c =? id)%Z
                        && (CartItem.userId c =? userId)%Z in
      let f := fun c => CartItem.mk (CartItem.id c) (CartItem.userId c)
                          (CartItem.menuItemId c) (Some q) in
      (Ok (first (returning p f (cartItems s))),
       with_cartItems (update p f (cartItems s)) s)
  end.

Definition addToCart (insertCartItem : InsertCartItem.t) (s : state)
  : result (option CartItem.t) * state :=
  match first (select
                 (fun c =>
                    (CartItem.userId c
                     =? InsertCartItem.userId insertCartItem)%Z
                    && (CartItem.menuItemId c
                        =? InsertCartItem.menuItemId insertCartItem)%Z)
                 (cartItems s)) with
  | Some existingCartItem =>
      updateCartItemQuantity (CartItem.id existingCartItem)
        (InsertCartItem.userId insertCartItem)
        (js_add (CartItem.quantity existingCartItem)
                (InsertCartItem.quantity insertCartItem))
        s
  | None =>
      let id := cart_items_id_seq s in
      let cartItem :=
        CartItem.mk id (InsertCartItem.userId insertCartItem)
          (InsertCartItem.menuItemId insertCartItem)
          (match InsertCartItem.quantity insertCartItem with
           | Some q => Some q
           | None => Some 1%Z
           end) in
      (Ok (Some cartItem),
       mkState (users s) (menuItems s) (cartItems s ++ [cartItem])
         (orders s) (users_id_seq s) (menu_items_id_seq s) (id + 1)
         (orders_id_seq s))
  end.

Definition removeFromCart (id userId : Z) (s : state) : bool * state :=
  let p := fun c => (CartItem.id c =? id)%Z
                    && (CartItem.userId c =? userId)%Z in
  let result := delete_result p (cartItems s) in
  (Js.truthy_object result, with_cartItems (delete p (cartItems s)) s).

Definition clearCart (userId : Z) (s : state) : bool * state :=
  let p := fun c => (CartItem.userId c =? userId)%Z in
  let result := delete_result p (cartItems s) in
  (Js.truthy_object result, with_cartItems (delete p (cartItems s)) s).

(** [status] defaults to ['pending'] and [created_at] to the database's
    [now()]. *)
Definition createOrder (now : Z) (insertOrder : InsertOrder.t) (s : state)
  : Order.t * state :=
  let id := orders_id_seq s in
  let order :=
    Order.mk id (InsertOrder.userId insertOrder)
      (InsertOrder.items insertOrder) "pending"
      (InsertOrder.total insertOrder) (Js.val now)
      (default Js.null (InsertOrder.address insertOrder))
      (default Js.null (InsertOrder.paymentId insertOrder)) in
  (order,
   mkState (users s) (menuItems s) (cartItems s) (orders s ++ [order])
     (users_id_seq s) (menu_items_id_seq s) (cart_items_id_seq s)
     (id + 1)).

Definition getOrderById (id : Z) (s : state) : option Order.t :=
  first (select (fun o => (Order.id o =? id)%Z) (orders s)).

Definition getOrdersByUserId (userId : Z) (s : state)
  : list OrderWithItems.t :=
  let userOrders :=
    select (fun o => (Order.userId o =? userId)%Z) (orders s) in
  map (fun order =>
         OrderWithItems.mk order
           (flat_map
              (fun item =>
                 match getMenuItemById (OrderItem.menuItemId item) s with
                 | Some menuItem =>
                     [OrderItemWithDetails.mk (Some menuItem)
                        (OrderItem.quantity item)]
                 | None => []
                 end)
              (Order.items order)))
      userOrders.

Definition getAllOrders (s : state) : list Order.t := orders s.

Definition set_status (status : OrderStatus.t) (o : Order.t) : Order.t :=
  Order.mk (Order.id o) (Order.userId o) (Order.items o)
    (OrderStatus.text status) (Order.total o) (Order.createdAt o)
    (Order.address o) (Order.paymentId o).

Definition updateOrderStatus (id : Z) (status : OrderStatus.t) (s : state)
  : option Order.t * state :=
  let p := fun o => (Order.id o =? id)%Z in
  (first (returning p (set_status status) (orders s)),
   with_orders (update p (set_status status) (orders s)) s).

Definition step (o : op) (s : state) : state :=
  match o with
  | CreateUser u => snd (createUser u s)
  | CreateMenuItem m => snd (createMenuItem m s)
  | UpdateMenuItem id m => snd (updateMenuItem id m s)
  | DeleteMenuItem id => snd (deleteMenuItem id s)
  | AddToCart c => snd (addToCart c s)
  | RemoveFromCart id u => snd (removeFromCart id u s)
  | UpdateCartItemQuantity id u q => snd (updateCartItemQuantity id u q s)
  | ClearCart u => snd (clearCart u s)
  | CreateOrder now o' => snd (createOrder now o' s)
  | UpdateOrderStatus id st => snd (updateOrderStatus id st s)
  | GetUser _ | GetUserByUsername _ | GetAllMenuItems | GetMenuItemById _
  | GetMenuItemsByCategory _ | GetCartItems _ | GetCartItemsWithDetails _
  | GetOrderById _ | GetOrdersByUserId _ | GetAllOrders => s
  end.

Definition run (ops : list op) (s : state) : state :=
  fold_left (fun s' o => step o s') ops s.

(** One request with its answer. *)
Definition exec (o : op) (s : state) : response * state :=
  match o with
  | GetUser id => (ROptUser (getUser id s), s)
  | GetUserByUsername u => (ROptUser (getUserByUsername u s), s)
  | CreateUser u =>
      match createUser u s with
      | (Ok r, s') => (RUser r, s')
      | (Throw, s') => (RThrow, s')
      end
  | GetAllMenuItems => (RMenuItems (getAllMenuItems s), s)
  | GetMenuItemById id => (ROptMenuItem (getMenuItemById id s), s)
  | GetMenuItemsByCategory c => (RMenuItems (getMenuItemsByCategory c s), s)
  | CreateMenuItem m => let (r, s') := createMenuItem m s in (RMenuItem r, s')
  | UpdateMenuItem id m =>
      let (r, s') := updateMenuItem id m s in (ROptMenuItem r, s')
  | DeleteMenuItem id => let (r, s') := deleteMenuItem id s in (RBool r, s')
  | GetCartItems u => (RCartItems (getCartItems u s), s)
  | GetCartItemsWithDetails u =>
      (RCartItemsWithDetails (getCartItemsWithDetails u s), s)
  | AddToCart c =>
      match addToCart c s with
      | (Ok r, s') => (ROptCartItem r, s')
      | (Throw, s') => (RThrow, s')
      end
  | RemoveFromCart id u =>
      let (r, s') := removeFromCart id u s in (RBool r, s')
  | UpdateCartItemQuantity id u q =>
      match updateCartItemQuantity id u q s with
      | (Ok r, s') => (ROptCartItem r, s')
      | (Throw, s') => (RThrow, s')
      end
  | ClearCart u => let (r, s') := clearCart u s in (RBool r, s')
  | CreateOrder now o' => let (r, s') := createOrder now o' s in (ROrder r, s')
  | GetOrderById id => (ROptOrder (getOrderById id s), s)
  | GetOrdersByUserId u => (ROrdersWithItems (getOrdersByUserId u s), s)
  | GetAllOrders => (ROrders (getAllOrders s), s)
  | UpdateOrderStatus id st =>
      let (r, s') := updateOrderStatus id st s in (ROptOrder r, s')
  end.

(** The answers to a sequence of requests, in order. *)
Fixpoint answers (ops : list op) (s : state) : list response :=
  match ops with
  | [] => []
  | o :: rest => fst (exec o s) :: answers rest (snd (exec o s))
  end.

(** [seedInitialData]: when the menu table is empty, the admin user and
    then the menu items are inserted; a rejected insert ends it. *)
Definition seedInitialData (s : state) : result unit * state :=
  let menuCount := menuItems s in
  if (List.length menuCount =? 0)%nat then
    match createUser Seed.admin s with
    | (Throw, s') => (Throw, s')
    | (Ok _, s') =>
        (Ok tt,
         fold_left (fun s'' item => snd (createMenuItem item s''))
                   Seed.dbMenuItemsData s')
    end
  else (Ok tt, s).

End DatabaseStorage.

(** ** The document store behind [MongoStorage]

    The Mongoose models of server/mongo-db.ts are not among the sources; the
    documents below carry the fields that server/mongo-storage.ts reads and
    writes, with references ([userId], [menuItemId]) typed as ObjectIds, as
    [populate('menuItemId')] and [userId: user._id] use them. *)

Module UserDocument.
Record t := mk {
  _id : ObjectId.t;
  username : string;
  password : string;
  name : Js.nullable string;
  email : Js.nullable string;
  isAdmin : Js.nullable bool }.
End UserDocument.

Module MenuItemDocument.
Record t := mk {
  _id : ObjectId.t;
  name : string;
  description : string;
  price : float;
  imageUrl : Js.nullable string;
  category : string;
  rating : Js.nullable float;
  isPopular : Js.nullable bool }.
End MenuItemDocument.

Module CartItemDocument.
Record t := mk {
  _id : ObjectId.t;
  userId : ObjectId.t;
  menuItemId : ObjectId.t;
  quantity : Z }.
End CartItemDocument.

Module OrderItemDocument.
Record t := mk {
  menuItemId : ObjectId.t;
  quantity : Z }.
End OrderItemDocument.

Module OrderDocument.
Record t := mk {
  _id : ObjectId.t;
  userId : ObjectId.t;
  items : list OrderItemDocument.t;
  status : string;
  total : float;
  address : Js.nullable string;
  paymentId : Js.nullable string;
  createdAt : Js.nullable Z }.
End OrderDocument.

(** What [convertOrderDocToType] returns: an [Order] whose [items] are the
    document's own, with [menuItemId] still an ObjectId. *)
Module OrderType.
Record t := mk {
  id : Z;
  userId : Z;
  items : list OrderItemDocument.t;
  status : string;
  total : float;
  address : Js.nullable string;
  paymentId : Js.nullable string;
  createdAt : Js.nullable Z }.
End OrderType.

Module OrderTypeWithItems.
Record t := mk {
  order : OrderType.t;
  items : list OrderItemWithDetails.t }.
End OrderTypeWithItems.

Module Mongoose.

Import Js (result, Ok, Throw).

Inductive collection := Users | MenuItems | CartItems | Orders.

Inductive method :=
| find | findOne | findById | save | findByIdAndUpdate | findByIdAndDelete
| deleteMany.

(** The store: four collections, the store calls made so far (latest
    first), and for each coming call whether it fails ([true]; an empty
    list means no call fails). *)
Record world := mkWorld {
  users : list UserDocument.t;
  menuItems : list MenuItemDocument.t;
  cartItems : list CartItemDocument.t;
  orders : list OrderDocument.t;
  log : list (collection * method);
  faults : list bool }.

(** A computation over the store that returns or throws. *)
Definition M (A : Type) : Type := world -> result A * world.

Definition ret {A} (a : A) : M A := fun w => (Ok a, w).

Definition throw {A} : M A := fun w => (Throw, w).

Definition bind {A B} (m : M A) (k : A -> M B) : M B :=
  fun w =>
    match m w with
    | (Ok a, w') => k a w'
    | (Throw, w') => (Throw, w')
    end.

(** [try { m } catch (error) { h }] *)
Definition try_catch {A} (m : M A) (h : M A) : M A :=
  fun w =>
    match m w with
    | (Ok a, w') => (Ok a, w')
    | (Throw, w') => h w'
    end.

(** One awaited call on a model: it is logged, takes the next fault, and
    runs unless that fault is set. *)
Definition call {A} (c : collection) (f : method) (body : M A) : M A :=
  fun w =>
    let w' :=
      mkWorld (users w) (menuItems w) (cartItems w) (orders w)
        ((c, f) :: log w) (tl (faults w)) in
    match faults w with
    | true :: _ => (Throw, w')
    | _ => body w'
    end.

(** The store after one call, and after two: same collections. *)
Definition logged (c : collection) (f : method) (w : world) : world :=
  mkWorld (users w) (menuItems w) (cartItems w) (orders w)
    ((c, f) :: log w) (tl (faults w)).

Definition logged2 (c1 : collection) (f1 : method) (c2 : collection)
    (f2 : method) (w : world) : world :=
  logged c2 f2 (logged c1 f1 w).

Definition with_users (t : list UserDocument.t) (w : world) : world :=
  mkWorld t (menuItems w) (cartItems w) (orders w) (log w) (faults w).

Definition with_menuItems (t : list MenuItemDocument.t) (w : world)
  : world :=
  mkWorld (users w) t (cartItems w) (orders w) (log w) (faults w).

Definition with_cartItems (t : list CartItemDocument.t) (w : world)
  : world :=
  mkWorld (users w) (menuItems w) t (orders w) (log w) (faults w).

Definition with_orders (t : list OrderDocument.t) (w : world) : world :=
  mkWorld (users w) (menuItems w) (cartItems w) t (log w) (faults w).

(** A string id given to a query is cast first; a failed cast throws. *)
Definition castId (s : string) : M ObjectId.t :=
  match ObjectId.cast s with
  | Some o => ret o
  | None => throw
  end.

End Mongoose.

Declare Scope mongo_scope.
Delimit Scope mongo_scope with mongo.
Notation "x <- m ;; k" := (Mongoose.bind m (fun x => k))
  (at level 61, m at next level, right associativity) : mongo_scope.

(** ** The document-store backend (class [MongoStorage]) *)

Module MongoStorage.

Import Js (result, Ok, Throw).
Import Mongoose.
Local Open Scope mongo_scope.

(** [parseInt(idStr.substring(idStr.length - 6), 16)].  The argument is an
    ObjectId at every call, so the guard [if (!objectId) return 0] does
    not fire; [NaN] would read as 0 here, and [parseInt_last6] below
    shows that it does not arise. *)
Definition last6 (idStr : string) : Z :=
  match Js.parseInt16
          (Js.substring (Z.of_nat (String.length idStr) - 6) idStr) with
  | Some n => n
  | None => 0%Z
  end.

Definition objectIdToNumericId (objectId : ObjectId.t) : Z :=
  let idStr := ObjectId.toString objectId in
  last6 idStr.

(** [id.toString(16).padStart(24, '0')] *)
Definition stringId (id : Z) : string :=
  Js.padStart 24 "0" (Js.toString16 id).

Definition convertUserDocToType (doc : UserDocument.t) : User.t :=
  User.mk (objectIdToNumericId (UserDocument._id doc))
    (UserDocument.username doc) (UserDocument.password doc)
    (UserDocument.name doc) (UserDocument.email doc)
    (UserDocument.isAdmin doc).

Definition convertMenuItemDocToType (doc : MenuItemDocument.t)
  : MenuItem.t :=
  MenuItem.mk (objectIdToNumericId (MenuItemDocument._id doc))
    (MenuItemDocument.name doc) (MenuItemDocument.description doc)
    (MenuItemDocument.price doc) (MenuItemDocument.imageUrl doc)
    (MenuItemDocument.category doc) (MenuItemDocument.rating doc)
    (MenuItemDocument.isPopular doc).

Definition convertCartItemDocToType (doc : CartItemDocument.t)
  : CartItem.t :=
  CartItem.mk (objectIdToNumericId (CartItemDocument._id doc))
    (objectIdToNumericId (CartItemDocument.userId doc))
    (objectIdToNumericId (CartItemDocument.menuItemId doc))
    (Some (CartItemDocument.quantity doc)).

Definition convertOrderDocToType (doc : OrderDocument.t) : OrderType.t :=
  OrderType.mk (objectIdToNumericId (OrderDocument._id doc))
    (objectIdToNumericId (OrderDocument.userId doc))
    (OrderDocument.items doc) (OrderDocument.status doc)
    (OrderDocument.total doc) (OrderDocument.address doc)
    (OrderDocument.paymentId doc) (OrderDocument.createdAt doc).

(** *** Queries on the models *)

Definition User_find : M (list UserDocument.t) :=
  call Users find (fun w => (Ok (users w), w)).

Definition User_findById (id : string) : M (option UserDocument.t) :=
  call Users findById
    (o <- castId id ;;
     fun w => (Ok (List.find (fun d => (UserDocument._id d =? o)%N)
                             (users w)), w)).

Definition User_findOne_username (username : string)
  : M (option UserDocument.t) :=
  call Users findOne
    (fun w => (Ok (List.find
                     (fun d => String.eqb (UserDocument.username d) username)
                     (users w)), w)).

(** [doc.save()] of a new document; a duplicate [_id] is rejected. *)
Definition User_save (doc : UserDocument.t) : M UserDocument.t :=
  call Users save
    (fun w =>
       if existsb (fun d => (UserDocument._id d =? UserDocument._id doc)%N)
                  (users w)
       then (Throw, w)
       else (Ok doc, with_users (users w ++ [doc]) w)).

Definition MenuItem_find : M (list MenuItemDocument.t) :=
  call MenuItems find (fun w => (Ok (menuItems w), w)).

Definition MenuItem_find_category (category : string)
  : M (list MenuItemDocument.t) :=
  call MenuItems find
    (fun w => (Ok (filter
                     (fun d => String.eqb (MenuItemDocument.category d)
                                          category)
                     (menuItems w)), w)).

Definition MenuItem_findById (id : string) : M (option MenuItemDocument.t) :=
  call MenuItems findById
    (o <- castId id ;;
     fun w => (Ok (List.find (fun d => (MenuItemDocument._id d =? o)%N)
                             (menuItems w)), w)).

Definition MenuItem_save (doc : MenuItemDocument.t) : M MenuItemDocument.t :=
  call MenuItems save
    (fun w =>
       if existsb (fun d => (MenuItemDocument._id d
                             =? MenuItemDocument._id doc)%N)
                  (menuItems w)
       then (Throw, w)
       else (Ok doc, with_menuItems (menuItems w ++ [doc]) w)).

Definition set_menuItem (insertMenuItem : InsertMenuItem.t)
    (d : MenuItemDocument.t) : MenuItemDocument.t :=
  MenuItemDocument.mk (MenuItemDocument._id d)
    (InsertMenuItem.name insertMenuItem)
    (InsertMenuItem.description insertMenuItem)
    (InsertMenuItem.price insertMenuItem)
    (Js.spread (MenuItemDocument.imageUrl d)
               (InsertMenuItem.imageUrl insertMenuItem))
    (InsertMenuItem.category insertMenuItem)
    (MenuItemDocument.rating d)
    (Js.spread (MenuItemDocument.isPopular d)
               (InsertMenuItem.isPopular insertMenuItem)).

(** [Model.findByIdAndUpdate(id, update, { new: true })] on a list of
    documents: the first document with that [_id] is updated and
    returned. *)
Fixpoint update_first {D} (p : D -> bool) (f : D -> D) (l : list D)
  : list D :=
  match l with
  | [] => []
  | d :: r => if p d then f d :: r else d :: update_first p f r
  end.

Fixpoint delete_first {D} (p : D -> bool) (l : list D) : list D :=
  match l with
  | [] => []
  | d :: r => if p d then r else d :: delete_first p r
  end.

Definition MenuItem_findByIdAndUpdate (id : string)
    (insertMenuItem : InsertMenuItem.t) : M (option MenuItemDocument.t) :=
  call MenuItems findByIdAndUpdate
    (o <- castId id ;;
     fun w =>
       let p := fun d => (MenuItemDocument._id d =? o)%N in
       (Ok (option_map (set_menuItem insertMenuItem)
                       (List.find p (menuItems w))),
        with_menuItems
          (update_first p (set_menuItem insertMenuItem) (menuItems w)) w)).

Definition MenuItem_findByIdAndDelete (id : string)
  : M (option MenuItemDocument.t) :=
  call MenuItems findByIdAndDelete
    (o <- castId id ;;
     fun w =>
       let p := fun d => (MenuItemDocument._id d =? o)%N in
       (Ok (List.find p (menuItems w)),
        with_menuItems (delete_first p (menuItems w)) w)).

Definition CartItem_find : M (list CartItemDocument.t) :=
  call CartItems find (fun w => (Ok (cartItems w), w)).

(** [CartItem.find({ userId })] once [userId] is cast. *)
Definition CartItem_find_userId (userId : ObjectId.t)
  : M (list CartItemDocument.t) :=
  fun w => (Ok (filter (fun d => (CartItemDocument.userId d =? userId)%N)
                       (cartItems w)), w).

Definition CartItem_findOne (userId menuItemId : ObjectId.t)
  : M (option CartItemDocument.t) :=
  call CartItems findOne
    (fun w => (Ok (List.find
                     (fun d => (CartItemDocument.userId d =? userId)%N
                               && (CartItemDocument.menuItemId d
                                   =? menuItemId)%N)
                     (cartItems w)), w)).

Definition set_quantity (quantity : Z) (d : CartItemDocument.t)
  : CartItemDocument.t :=
  CartItemDocument.mk (CartItemDocument._id d) (CartItemDocument.userId d)
    (CartItemDocument.menuItemId d) quantity.

(** [quantity] is a [Number] path: a value that is not a number fails
    its cast. *)
Definition CartItem_findByIdAndUpdate (id : ObjectId.t)
    (quantity : option Z) : M (option CartItemDocument.t) :=
  call CartItems findByIdAndUpdate
    (match quantity with
     | None => throw
     | Some q =>
         fun w =>
           let p := fun d => (CartItemDocument._id d =? id)%N in
           (Ok (option_map (set_quantity q) (List.find p (cartItems w))),
            with_cartItems (update_first p (set_quantity q) (cartItems w))
              w)
     end).

Definition CartItem_findByIdAndDelete (id : ObjectId.t)
  : M (option CartItemDocument.t) :=
  call CartItems findByIdAndDelete
    (fun w =>
       let p := fun d => (CartItemDocument._id d =? id)%N in
       (Ok (List.find p (cartItems w)),
        with_cartItems (delete_first p (cartItems w)) w)).

Definition CartItem_deleteMany (userId : ObjectId.t) : M unit :=
  call CartItems deleteMany
    (fun w =>
       (Ok tt,
        with_cartItems
          (filter (fun d => negb (CartItemDocument.userId d =? userId)%N)
                  (cartItems w)) w)).

Definition CartItem_save (doc : CartItemDocument.t) : M CartItemDocument.t :=
  call CartItems save
    (fun w =>
       if existsb (fun d => (CartItemDocument._id d
                             =? CartItemDocument._id doc)%N)
                  (cartItems w)
       then (Throw, w)
       else (Ok doc, with_cartItems (cartItems w ++ [doc]) w)).

Definition Order_save (doc : OrderDocument.t) : M OrderDocument.t :=
  call Orders save
    (fun w =>
       if existsb (fun d => (OrderDocument._id d =? OrderDocument._id doc)%N)
                  (orders w)
       then (Throw, w)
       else (Ok doc, with_orders (orders w ++ [doc]) w)).

Definition Order_findById (id : string) : M (option OrderDocument.t) :=
  call Orders findById
    (o <- castId id ;;
     fun w => (Ok (List.find (fun d => (OrderDocument._id d =? o)%N)
                             (orders w)), w)).

(** [.sort({ createdAt: -1 })]: latest first, a missing date last. *)
Definition created (d : OrderDocument.t) : option Z :=
  match OrderDocument.createdAt d with
  | Js.val z => Some z
  | _ => None
  end.

Definition later_or_same (a b : option Z) : bool :=
  match a, b with
  | Some x, Some y => (y <=? x)%Z
  | Some _, None => true
  | None, Some _ => false
  | None, None => true
  end.

Fixpoint insert_desc (d : OrderDocument.t) (l : list OrderDocument.t)
  : list OrderDocument.t :=
  match l with
  | [] => [d]
  | x :: r =>
      if later_or_same (created d) (created x) then d :: x :: r
      else x :: insert_desc d r
  end.

Definition sort_desc (l : list OrderDocument.t) : list OrderDocument.t :=
  fold_right insert_desc [] l.

Definition Order_find_sorted : M (list OrderDocument.t) :=
  call Orders find (fun w => (Ok (sort_desc (orders w)), w)).

Definition Order_find_userId_sorted (userId : string)
  : M (list OrderDocument.t) :=
  call Orders find
    (o <- castId userId ;;
     fun w =>
       (Ok (sort_desc
              (filter (fun d => (OrderDocument.userId d =? o)%N) (orders w))),
        w)).

Definition set_status (status : OrderStatus.t) (d : OrderDocument.t)
  : OrderDocument.t :=
  OrderDocument.mk (OrderDocument._id d) (OrderDocument.userId d)
    (OrderDocument.items d) (OrderStatus.text status)
    (OrderDocument.total d) (OrderDocument.address d)
    (OrderDocument.paymentId d) (OrderDocument.createdAt d).

Definition Order_findByIdAndUpdate (id : string) (status : OrderStatus.t)
  : M (option OrderDocument.t) :=
  call Orders findByIdAndUpdate
    (o <- castId id ;;
     fun w =>
       let p := fun d => (OrderDocument._id d =? o)%N in
       (Ok (option_map (set_status status) (List.find p (orders w))),
        with_orders (update_first p (set_status status) (orders w)) w)).

(** *** The methods of the class *)

Fixpoint mapM {A B} (f : A -> M B) (l : list A) : M (list B) :=
  match l with
  | [] => ret []
  | a :: r => b <- f a ;; bs <- mapM f r ;; ret (b :: bs)
  end.

(** The loop [for (const potentialUser of allUsers) ...  break]. *)
Definition user_with_numeric_id (userId : Z)
    (allUsers : list UserDocument.t) : option UserDocument.t :=
  List.find (fun potentialUser =>
               (objectIdToNumericId (UserDocument._id potentialUser)
                =? userId)%Z)
            allUsers.

(** [insertCartItem.quantity || 1] *)
Definition quantity_or_1 (quantity : option Z) : Z :=
  match quantity with
  | Some 0%Z | None => 1%Z
  | Some q => q
  end.

(** What a create needs from outside: the driver's [new ObjectId()], and
    the [createdAt] that the Order schema of server/mongo-db.ts gives a new
    order. *)
Record env := mkEnv {
  new_id : ObjectId.t;
  new_createdAt : Js.nullable Z }.

Section Methods.

(** Mongoose's cast of a JS number where an ObjectId is expected
    ([CartItem.find({ userId: userId })]); [None] is a [CastError].
    It varies with the library version, so it is a parameter. *)
Variable castNumber : Z -> option ObjectId.t.

(** [getUser] for a numeric [id], as [IStorage] declares it: strategy 1
    of the method is for string ids. *)
Definition getUser (id : Z) : M (option User.t) :=
  try_catch
    (user <- User_findById (stringId id) ;;
     user <- match user with
             | Some u => ret (Some u)
             | None =>
                 allUsers <- User_find ;;
                 ret (user_with_numeric_id id allUsers)
             end ;;
     ret (option_map convertUserDocToType user))
    (ret None).

Definition getUserByUsername (username : string) : M (option User.t) :=
  try_catch
    (user <- User_findOne_username username ;;
     ret (option_map convertUserDocToType user))
    (ret None).

(** [new User(insertUser)]: the fields of the insert value under a fresh
    [_id]. *)
Definition createUser (e : env) (insertUser : InsertUser.t) : M User.t :=
  try_catch
    (let newUser :=
       UserDocument.mk (new_id e) (InsertUser.username insertUser)
         (InsertUser.password insertUser) (InsertUser.name insertUser)
         (InsertUser.email insertUser) (InsertUser.isAdmin insertUser) in
     savedUser <- User_save newUser ;;
     ret (convertUserDocToType savedUser))
    throw.

Definition getAllMenuItems : M (list MenuItem.t) :=
  try_catch
    (menuItems <- MenuItem_find ;;
     ret (map convertMenuItemDocToType menuItems))
    (ret []).

Definition getMenuItemById (id : Z) : M (option MenuItem.t) :=
  try_catch
    (menuItem <- MenuItem_findById (stringId id) ;;
     ret (option_map convertMenuItemDocToType menuItem))
    (ret None).

Definition getMenuItemsByCategory (category : string)
  : M (list MenuItem.t) :=
  try_catch
    (menuItems <- MenuItem_find_category category ;;
     ret (map convertMenuItemDocToType menuItems))
    (ret []).

Definition createMenuItem (e : env) (insertMenuItem : InsertMenuItem.t)
  : M MenuItem.t :=
  try_catch
    (let newMenuItem :=
       MenuItemDocument.mk (new_id e)
         (InsertMenuItem.name insertMenuItem)
         (InsertMenuItem.description insertMenuItem)
         (InsertMenuItem.price insertMenuItem)
         (InsertMenuItem.imageUrl insertMenuItem)
         (InsertMenuItem.category insertMenuItem)
         Js.undefined
         (InsertMenuItem.isPopular insertMenuItem) in
     savedMenuItem <- MenuItem_save newMenuItem ;;
     ret (convertMenuItemDocToType savedMenuItem))
    throw.

Definition updateMenuItem (id : Z) (insertMenuItem : InsertMenuItem.t)
  : M (option MenuItem.t) :=
  try_catch
    (updatedMenuItem <-
       MenuItem_findByIdAndUpdate (stringId id) insertMenuItem ;;
     ret (option_map convertMenuItemDocToType updatedMenuItem))
    (ret None).

Definition deleteMenuItem (id : Z) : M bool :=
  try_catch
    (result <- MenuItem_findByIdAndDelete (stringId id) ;;
     ret (match result with Some _ => true | None => false end))
    (ret false).

Definition getCartItems (userId : Z) : M (list CartItem.t) :=
  try_catch
    (cartItems <-
       call CartItems find
         (o <- castId (stringId userId) ;; CartItem_find_userId o) ;;
     cartItems <-
       match cartItems with
       | [] =>
           call CartItems find
             (match castNumber userId with
              | Some o => CartItem_find_userId o
              | None => throw
              end)
       | _ => ret cartItems
       end ;;
     _ <- match cartItems with
          | [] => allCartItems <- CartItem_find ;; ret tt
          | _ => ret tt
          end ;;
     ret (map convertCartItemDocToType cartItems))
    (ret []).

Definition addToCart (e : env) (insertCartItem : InsertCartItem.t)
  : M CartItem.t :=
  try_catch
    (allUsers <- User_find ;;
     match user_with_numeric_id (InsertCartItem.userId insertCartItem)
                                allUsers with
     | None => throw
     | Some user =>
         allMenuItems <- MenuItem_find ;;
         match List.find
                 (fun item =>
                    (objectIdToNumericId (MenuItemDocument._id item)
                     =? InsertCartItem.menuItemId insertCartItem)%Z)
                 allMenuItems with
         | None => throw
         | Some menuItem =>
             existingCartItem <-
               CartItem_findOne (UserDocument._id user)
                                (MenuItemDocument._id menuItem) ;;
             match existingCartItem with
             | Some existing =>
                 updatedCartItem <-
                   CartItem_findByIdAndUpdate
                     (CartItemDocument._id existing)
                     (Some (CartItemDocument.quantity existing
                            + quantity_or_1
                                (InsertCartItem.quantity insertCartItem))%Z) ;;
                 match updatedCartItem with
                 | Some d => ret (convertCartItemDocToType d)
                 | None => throw
                 end
             | None =>
                 let newCartItem :=
                   CartItemDocument.mk (new_id e)
                     (UserDocument._id user)
                     (MenuItemDocument._id menuItem)
                     (quantity_or_1
                        (InsertCartItem.quantity insertCartItem)) in
                 savedCartItem <- CartItem_save newCartItem ;;
                 ret (convertCartItemDocToType savedCartItem)
             end
         end
     end)
    throw.

Definition removeFromCart (id userId : Z) : M bool :=
  try_catch
    (allUsers <- User_find ;;
     match user_with_numeric_id userId allUsers with
     | None => throw
     | Some user =>
         allCartItems <-
           call CartItems find
             (CartItem_find_userId (UserDocument._id user)) ;;
         match List.find
                 (fun item =>
                    (objectIdToNumericId (CartItemDocument._id item)
                     =? id)%Z)
                 allCartItems with
         | Some item =>
             _ <- CartItem_findByIdAndDelete (CartItemDocument._id item) ;;
             ret true
         | None => ret false
         end
     end)
    (ret false).

(** [.populate('menuItemId')] reads the referenced menu items when there
    is a cart item to populate. *)
Definition populate_menuItemId (cartItems : list CartItemDocument.t)
  : M unit :=
  match cartItems with
  | [] => ret tt
  | _ => call MenuItems find (ret tt)
  end.

Definition updateCartItemQuantity (id userId : Z) (quantity : option Z)
  : M (option CartItem.t) :=
  try_catch
    (allUsers <- User_find ;;
     match user_with_numeric_id userId allUsers with
     | None => throw
     | Some user =>
         cartItems <-
           call CartItems find
             (CartItem_find_userId (UserDocument._id user)) ;;
         _ <- populate_menuItemId cartItems ;;
         match List.find
                 (fun item =>
                    (objectIdToNumericId (CartItemDocument._id item)
                     =? id)%Z)
                 cartItems with
         | None => ret None
         | Some targetCartItem =>
             updatedCartItem <-
               CartItem_findByIdAndUpdate
                 (CartItemDocument._id targetCartItem) quantity ;;
             ret (option_map convertCartItemDocToType updatedCartItem)
         end
     end)
    (ret None).

Definition clearCart (userId : Z) : M bool :=
  try_catch
    (allUsers <- User_find ;;
     match user_with_numeric_id userId allUsers with
     | None => throw
     | Some user =>
         _ <- CartItem_deleteMany (UserDocument._id user) ;;
         ret true
     end)
    (ret false).

(** [new Order(orderData)]: the string ids of [orderData] are cast to
    ObjectIds; a value that does not cast makes [save()] reject before
    it reaches the store. *)
Definition new_Order (e : env) (stringUserId : string)
    (items : list (string * Z)) (insertOrder : InsertOrder.t)
  : M OrderDocument.t :=
  userId <- castId stringUserId ;;
  items <- mapM (fun item =>
                   menuItemId <- castId (fst item) ;;
                   ret (OrderItemDocument.mk menuItemId (snd item)))
                items ;;
  ret (OrderDocument.mk (new_id e) userId items "pending"
         (InsertOrder.total insertOrder)
         (InsertOrder.address insertOrder)
         (InsertOrder.paymentId insertOrder)
         (new_createdAt e)).

Definition createOrder (e : env) (insertOrder : InsertOrder.t)
  : M OrderType.t :=
  try_catch
    (let stringUserId := stringId (InsertOrder.userId insertOrder) in
     let items :=
       map (fun item =>
              (stringId (OrderItem.menuItemId item),
               OrderItem.quantity item))
           (InsertOrder.items insertOrder) in
     newOrder <- new_Order e stringUserId items insertOrder ;;
     savedOrder <- Order_save newOrder ;;
     ret (convertOrderDocToType savedOrder))
    throw.

Definition getOrderById (id : Z) : M (option OrderType.t) :=
  try_catch
    (order <- Order_findById (stringId id) ;;
     ret (option_map convertOrderDocToType order))
    (ret None).

Definition getOrdersByUserId (userId : Z)
  : M (list OrderTypeWithItems.t) :=
  try_catch
    (orders <- Order_find_userId_sorted (stringId userId) ;;
     mapM (fun order =>
             itemsWithDetails <-
               mapM (fun item =>
                       let menuItemId :=
                         ObjectId.toString
                           (OrderItemDocument.menuItemId item) in
                       let numericMenuItemId := last6 menuItemId in
                       menuItem <- getMenuItemById numericMenuItemId ;;
                       ret (match menuItem with
                            | Some m =>
                                [OrderItemWithDetails.mk (Some m)
                                   (OrderItemDocument.quantity item)]
                            | None => []
                            end))
                    (OrderDocument.items order) ;;
             ret (OrderTypeWithItems.mk (convertOrderDocToType order)
                    (List.concat itemsWithDetails)))
          orders)
    (ret []).

Definition getAllOrders : M (list OrderType.t) :=
  try_catch
    (orders <- Order_find_sorted ;;
     ret (map convertOrderDocToType orders))
    (ret []).

Definition updateOrderStatus (id : Z) (status : OrderStatus.t)
  : M (option OrderType.t) :=
  try_catch
    (updatedOrder <- Order_findByIdAndUpdate (stringId id) status ;;
     ret (option_map convertOrderDocToType updatedOrder))
    (ret None).

(** The effect of one request on the store.  [GetCartItemsWithDetails]
    is left out of the embedding (it reads populated documents) and is
    a no-op here. *)
Definition step (e : env) (o : op) (w : world) : world :=
  match o with
  | GetUser id => snd (getUser id w)
  | GetUserByUsername u => snd (getUserByUsername u w)
  | CreateUser u => snd (createUser e u w)
  | GetAllMenuItems => snd (getAllMenuItems w)
  | GetMenuItemById id => snd (getMenuItemById id w)
  | GetMenuItemsByCategory c => snd (getMenuItemsByCategory c w)
  | CreateMenuItem m => snd (createMenuItem e m w)
  | UpdateMenuItem id m => snd (updateMenuItem id m w)
  | DeleteMenuItem id => snd (deleteMenuItem id w)
  | GetCartItems u => snd (getCartItems u w)
  | GetCartItemsWithDetails _ => w
  | AddToCart c => snd (addToCart e c w)
  | RemoveFromCart id u => snd (removeFromCart id u w)
  | UpdateCartItemQuantity id u q => snd (updateCartItemQuantity id u q w)
  | ClearCart u => snd (clearCart u w)
  | CreateOrder _ o' => snd (createOrder e o' w)
  | GetOrderById id => snd (getOrderById id w)
  | GetOrdersByUserId u => snd (getOrdersByUserId u w)
  | GetAllOrders => snd (getAllOrders w)
  | UpdateOrderStatus id st => snd (updateOrderStatus id st w)
  end.

Definition run (ops : list (env * op)) (w : world) : world :=
  fold_left (fun w' eo => step (fst eo) (snd eo) w') ops w.

End Methods.

(** A store with empty collections, whatever its faults. *)
Definition empty (faults : list bool) : world :=
  mkWorld [] [] [] [] [] faults.

End MongoStorage.

(** ** Passwords and login (server/auth.ts)

    [hashPassword], [comparePasswords], the verify callback of the
    [LocalStrategy] and the [/api/register] handler are the same in the two
    revisions of the file.  [crypto.scrypt] is a parameter, and the bytes
    that [randomBytes(16)] returns are an input of [hashPassword]. *)

Module Buffer.

Import Js (result, Ok, Throw).

(** A [Buffer] holds bytes. *)
Definition t := list Byte.byte.

(** [buf.toString("hex")]: two lowercase digits for each byte. *)
Fixpoint toHex (buf : t) : string :=
  match buf with
  | [] => EmptyString
  | b :: r => (Js.hex_digits 2 (Byte.to_N b) ++ toHex r)%string
  end.

(** [Buffer.from(s, "hex")]: the pairs of hexadecimal digits up to the
    first character that is not one; a single last digit is dropped. *)
Fixpoint fromHex (s : string) : t :=
  match s with
  | String a (String b r) =>
      match Js.hex_value a, Js.hex_value b with
      | Some x, Some y =>
          match Byte.of_N (x * 16 + y) with
          | Some byte => byte :: fromHex r
          | None => []
          end
      | _, _ => []
      end
  | _ => []
  end.

Fixpoint eqb (a b : t) : bool :=
  match a, b with
  | [], [] => true
  | x :: a', y :: b' => Byte.eqb x y && eqb a' b'
  | _, _ => false
  end.

(** [crypto.timingSafeEqual(a, b)] throws when the lengths differ. *)
Definition timingSafeEqual (a b : t) : result bool :=
  if (List.length a =? List.length b)%nat then Ok (eqb a b) else Throw.

End Buffer.

Module Auth.

Import Js (result, Ok, Throw).
Local Open Scope string_scope.

(** [s.split(sep)] for a one-character separator. *)
Fixpoint split (sep : ascii) (s : string) : list string :=
  match s with
  | EmptyString => [EmptyString]
  | String c r =>
      if Ascii.eqb c sep then EmptyString :: split sep r
      else match split sep r with
           | h :: t => String c h :: t
           | [] => [String c EmptyString]
           end
  end.

(** What the verify callback passes to [done]: the user, [false], or an
    error. *)
Inductive verdict : Type :=
| Accept (user : User.t)
| Reject
| Error.

(** What [/api/register] answers: 201 with the user, 400 "Username
    already exists", or the error it hands to [next]. *)
Inductive reply : Type :=
| Created (user : User.t)
| UsernameExists
| Failed.

Section Passwords.

(** [scrypt(password, salt, keylen)] *)
Variable scrypt : string -> string -> nat -> Buffer.t.

Definition hashPassword (random : Buffer.t) (password : string) : string :=
  let salt := Buffer.toHex random in
  let buf := scrypt password salt 64 in
  Buffer.toHex buf ++ "." ++ salt.

(** [const [hashed, salt] = stored.split(".")]: without a second part
    [salt] is [undefined], which [scrypt] rejects. *)
Definition comparePasswords (supplied stored : string) : result bool :=
  let parts := split "." stored in
  let hashed := hd EmptyString parts in
  let salt := nth_error parts 1 in
  let hashedBuf := Buffer.fromHex hashed in
  match salt with
  | None => Throw
  | Some salt =>
      let suppliedBuf := scrypt supplied salt 64 in
      Buffer.timingSafeEqual hashedBuf suppliedBuf
  end.

(** The two methods of [storage] that the file calls here, over the state
    [S] of the backend in use. *)
Variable S : Type.
Variable getUserByUsername : string -> S -> result (option User.t) * S.
Variable createUser : InsertUser.t -> S -> result User.t * S.

(** The verify callback of the [LocalStrategy]. *)
Definition verify (username password : string) (s : S) : verdict * S :=
  match getUserByUsername username s with
  | (Throw, s') => (Error, s')
  | (Ok None, s') => (Reject, s')
  | (Ok (Some user), s') =>
      match comparePasswords password (User.password user) with
      | Throw => (Error, s')
      | Ok true => (Accept user, s')
      | Ok false => (Reject, s')
      end
  end.

(** [app.post("/api/register", ...)]: the body is stored as it came, with
    the password replaced by its hash. *)
Definition register (random : Buffer.t) (body : InsertUser.t) (s : S)
  : reply * S :=
  match getUserByUsername (InsertUser.username body) s with
  | (Throw, s') => (Failed, s')
  | (Ok (Some existingUser), s') => (UsernameExists, s')
  | (Ok None, s') =>
      match createUser
              (InsertUser.mk (InsertUser.username body)
                 (hashPassword random (InsertUser.password body))
                 (InsertUser.name body) (InsertUser.email body)
                 (InsertUser.isAdmin body)) s' with
      | (Throw, s'') => (Failed, s'')
      | (Ok user, s'') => (Created user, s'')
      end
  end.

End Passwords.

(** [storage] as [MemStorage] and as [DatabaseStorage]; the methods of
    [MongoStorage] have the type that the section asks for. *)
Definition mem_getUserByUsername (username : string) (s : MemStorage.state)
  : result (option User.t) * MemStorage.state :=
  (Ok (MemStorage.getUserByUsername username s), s).


Definition db_getUserByUsername (username : string)
    (d : DatabaseStorage.state)
  : result (option User.t) * DatabaseStorage.state :=
  (Ok (DatabaseStorage.getUserByUsername username d), d).

End Auth.

(** ** The predicates of the specification *)

(** "At most one row per (user, item) pair": the pairs of the cart rows are
    pairwise distinct. *)
Definition cart_key (c : CartItem.t) : Z * Z :=
  (CartItem.userId c, CartItem.menuItemId c).

Definition one_row_per_pair (rows : list CartItem.t) : Prop :=
  NoDup (map cart_key rows).

Definition doc_key (d : CartItemDocument.t) : ObjectId.t * ObjectId.t :=
  (CartItemDocument.userId d, CartItemDocument.menuItemId d).

Definition one_doc_per_pair (docs : list CartItemDocument.t) : Prop :=
  NoDup (map doc_key docs).

(** The cart map of [MemStorage] is keyed by the id of each row, below the
    next id to give out. *)
Definition cart_wf (s : MemStorage.state) : Prop :=
  NoDup (JsMap.keys (MemStorage.cartItems s))
  /\ Forall (fun e => fst e = CartItem.id (snd e)
                      /\ (fst e < MemStorage.cartItemIdCounter s)%Z)
            (MemStorage.cartItems s)
  /\ one_row_per_pair (JsMap.values (MemStorage.cartItems s)).

(** The cart table of [DatabaseStorage]: [id] is its primary key, drawn
    from the sequence. *)
Definition db_cart_wf (s : DatabaseStorage.state) : Prop :=
  NoDup (map CartItem.id (DatabaseStorage.cartItems s))
  /\ Forall (fun c => (CartItem.id c < DatabaseStorage.cart_items_id_seq s)%Z)
            (DatabaseStorage.cartItems s)
  /\ one_row_per_pair (DatabaseStorage.cartItems s).

(** The menu map of [MemStorage] is keyed by the id of each item. *)
Definition menu_keyed (s : MemStorage.state) : Prop :=
  Forall (fun e => fst e = MenuItem.id (snd e)) (MemStorage.menuItems s).


(** Two states of [MemStorage] that differ in the cart at most. *)
Definition same_but_cart (s s' : MemStorage.state) : Prop :=
  MemStorage.users s' = MemStorage.users s
  /\ MemStorage.menuItems s' = MemStorage.menuItems s
  /\ MemStorage.orders s' = MemStorage.orders s
  /\ MemStorage.userIdCounter s' = MemStorage.userIdCounter s
  /\ MemStorage.menuItemIdCounter s' = MemStorage.menuItemIdCounter s
  /\ MemStorage.orderIdCounter s' = MemStorage.orderIdCounter s.

(** What [getOrdersByUserId] shows of the items of an order: the price of
    the menu item it attached, if any, and the quantity. *)
Definition priced (o : OrderWithItems.t) : list (option float * Z) :=
  map (fun i =>
         (option_map MenuItem.price (OrderItemWithDetails.menuItem i),
          OrderItemWithDetails.quantity i))
      (OrderWithItems.items o).

(** The order and the quantities alone. *)
Definition quantities (o : OrderWithItems.t) : Order.t * list Z :=
  (OrderWithItems.order o,
   map OrderItemWithDetails.quantity (OrderWithItems.items o)).

(** The requests that edit the menu. *)
Definition edits_menu (o : op) : bool :=
  match o with
  | UpdateMenuItem _ _ | DeleteMenuItem _ => true
  | _ => false
  end.

(** A map of [MemStorage] keyed by the id of each value, with all keys
    below the counter. *)
Definition keyed {V} (idf : V -> Z) (counter : Z) (m : JsMap.t V) : Prop :=
  NoDup (JsMap.keys m)
  /\ Forall (fun e => fst e = idf (snd e) /\ (fst e < counter)%Z) m.


(** A state of [MemStorage] and one of [DatabaseStorage] that hold the same
    rows, in the same order, and give out the same ids next. *)
Definition related (s : MemStorage.state) (d : DatabaseStorage.state)
  : Prop :=
  JsMap.values (MemStorage.users s) = DatabaseStorage.users d
  /\ JsMap.values (MemStorage.menuItems s) = DatabaseStorage.menuItems d
  /\ JsMap.values (MemStorage.cartItems s) = DatabaseStorage.cartItems d
  /\ JsMap.values (MemStorage.orders s) = DatabaseStorage.orders d
  /\ MemStorage.userIdCounter s = DatabaseStorage.users_id_seq d
  /\ MemStorage.menuItemIdCounter s = DatabaseStorage.menu_items_id_seq d
  /\ MemStorage.cartItemIdCounter s = DatabaseStorage.cart_items_id_seq d
  /\ MemStorage.orderIdCounter s = DatabaseStorage.orders_id_seq d
  /\ keyed User.id (MemStorage.userIdCounter s) (MemStorage.users s)
  /\ keyed MenuItem.id (MemStorage.menuItemIdCounter s)
           (MemStorage.menuItems s)
  /\ keyed CartItem.id (MemStorage.cartItemIdCounter s)
           (MemStorage.cartItems s)
  /\ keyed Order.id (MemStorage.orderIdCounter s) (MemStorage.orders s)
  /\ Forall (fun c => CartItem.quantity c <> None)
            (DatabaseStorage.cartItems d).



(** ** Invariants of the stored ids *)

(** Every map of [MemStorage] is keyed by the id of its values, below the
    counter that gives out the next id; the cart has one row per pair. *)
Definition mem_wf (s : MemStorage.state) : Prop :=
  keyed User.id (MemStorage.userIdCounter s) (MemStorage.users s)
  /\ keyed MenuItem.id (MemStorage.menuItemIdCounter s)
           (MemStorage.menuItems s)
  /\ cart_wf s
  /\ keyed Order.id (MemStorage.orderIdCounter s) (MemStorage.orders s).

(** A table whose ids are pairwise distinct and below its sequence. *)
Definition ids_below {R} (idf : R -> Z) (seq : Z) (t : list R) : Prop :=
  NoDup (map idf t) /\ Forall (fun r => (idf r < seq)%Z) t.

Definition db_wf (d : DatabaseStorage.state) : Prop :=
  ids_below User.id (DatabaseStorage.users_id_seq d) (DatabaseStorage.users d)
  /\ NoDup (map User.username (DatabaseStorage.users d))
  /\ ids_below MenuItem.id (DatabaseStorage.menu_items_id_seq d)
               (DatabaseStorage.menuItems d)
  /\ db_cart_wf d
  /\ ids_below Order.id (DatabaseStorage.orders_id_seq d)
               (DatabaseStorage.orders d).

(** The user whose cart a request may change. *)
Definition cart_user (o : op) : option Z :=
  match o with
  | AddToCart c => Some (InsertCartItem.userId c)
  | RemoveFromCart _ u | UpdateCartItemQuantity _ u _ | ClearCart u => Some u
  | _ => None
  end.

(** The cart rows of the pair of an insert value. *)
Definition same_pair_as (c : InsertCartItem.t) (r : CartItem.t) : bool :=
  (CartItem.userId r =? InsertCartItem.userId c)%Z
  && (CartItem.menuItemId r =? InsertCartItem.menuItemId c)%Z.

(** The four collections of a document store. *)
Definition collections (w : Mongoose.world) :=
  (Mongoose.users w, Mongoose.menuItems w, Mongoose.cartItems w,
   Mongoose.orders w).

(** A read returns a value and leaves the collections as they are. *)
Definition pure_read {A} (m : Mongoose.M A) : Prop :=
  forall w, collections (snd (m w)) = collections w
            /\ exists r, fst (m w) = Js.Ok r.

(** Whether a character occurs in a string. *)
Fixpoint occurs (c : ascii) (s : string) : bool :=
  match s with
  | EmptyString => false
  | String x r => Ascii.eqb x c || occurs c r
  end.

(** ** Sample data for the examples below *)

Module Sample.

Local Set Warnings "-inexact-float".

(** An identifier as the driver generates them, and a small one. *)
Definition oid : ObjectId.t := 0x507f1f77bcf86cd799439011%N.
Definition small_oid : ObjectId.t := 0x439011%N.
Definition oid2 : ObjectId.t := 0x507f1f77bcf86cd799439012%N.
Definition oid3 : ObjectId.t := 0x507f1f77bcf86cd799439013%N.

Definition alice : InsertUser.t :=
  InsertUser.mk "alice" "secret" Js.undefined Js.undefined Js.undefined.

Definition pizza : InsertMenuItem.t :=
  InsertMenuItem.mk "Pizza" "Plain" 12%float Js.undefined "Pizza"
    Js.undefined.

(** User 1 orders two of menu item 1. *)
Definition order1 : InsertOrder.t :=
  InsertOrder.mk 1 [OrderItem.mk 1 2] 25.98%float Js.undefined
    Js.undefined.

(** User 1 puts two of menu item 1 in the cart, then three more. *)
Definition two : InsertCartItem.t := InsertCartItem.mk 1 1 (Some 2%Z).
Definition three : InsertCartItem.t := InsertCartItem.mk 1 1 (Some 3%Z).
Definition row_two : CartItem.t := CartItem.mk 1 1 1 (Some 2%Z).


(** The same in the document store, where the ids are the numeric ids of
    [oid] and [oid2]. *)
Definition env1 := MongoStorage.mkEnv oid Js.undefined.
Definition env2 := MongoStorage.mkEnv oid2 Js.undefined.
Definition env3 := MongoStorage.mkEnv oid3 Js.undefined.
Definition no_cast (_ : Z) : option ObjectId.t := None.
Definition alice_doc : UserDocument.t :=
  UserDocument.mk oid "alice" "secret" Js.undefined Js.undefined
    Js.undefined.
Definition pizza_doc : MenuItemDocument.t :=
  MenuItemDocument.mk oid2 "Pizza" "Plain" 12%float Js.undefined "Pizza"
    Js.undefined Js.undefined.
Definition mongo_two : InsertCartItem.t :=
  InsertCartItem.mk 0x439011 0x439012 (Some 2%Z).
Definition mongo_ops : list (MongoStorage.env * op) :=
  [ (env1, CreateUser alice); (env2, CreateMenuItem pizza);
    (env3, AddToCart mongo_two) ].


End Sample.

(** A second user beside [Sample.alice], and a stand-in for [scrypt]
    that returns the bytes of the password and the salt, cut or filled
    up with zeros to the length asked for. *)
Module Fixtures.

Definition oid4 : ObjectId.t := 0x507f1f77bcf86cd799439014%N.
Definition env4 := MongoStorage.mkEnv oid4 Js.undefined.

Definition bob : InsertUser.t :=
  InsertUser.mk "bob" "hunter2" Js.undefined Js.undefined Js.undefined.
Definition bob_doc : UserDocument.t :=
  UserDocument.mk oid4 "bob" "hunter2" Js.undefined Js.undefined
    Js.undefined.

(** Alice, the pizza, two pizzas in the cart of Alice, then Bob. *)
Definition two_users : list (MongoStorage.env * op) :=
  Sample.mongo_ops ++ [(env4, CreateUser bob)].
Definition alice_cart : CartItemDocument.t :=
  CartItemDocument.mk Sample.oid3 Sample.oid Sample.oid2 2.

(** A menu item and an order, named by the driver. *)
Definition menu_and_order : Mongoose.world :=
  snd (MongoStorage.createOrder Sample.env3 Sample.order1
         (snd (MongoStorage.createMenuItem Sample.env2 Sample.pizza
                 (MongoStorage.empty [])))).

Definition scrypt (password salt : string) (keylen : nat) : Buffer.t :=
  firstn keylen
    (list_byte_of_string (password ++ salt) ++ repeat Byte.x00 keylen).

Definition random : Buffer.t :=
  [Byte.x5a; Byte.x00; Byte.xff; Byte.x10].

End Fixtures.

Example toString16_255 : Js.toString16 255 = "ff"%string.
Proof. reflexivity. Qed.
Example toString16_4096 : Js.toString16 4096 = "1000"%string.
Proof. reflexivity. Qed.
Example toString16_0 : Js.toString16 0 = "0"%string.
Proof. reflexivity. Qed.
Example toString16_neg : Js.toString16 (-2748) = "-abc"%string.
Proof. reflexivity. Qed.
Example parseInt16_ex : Js.parseInt16 "439011" = Some 4427793%Z.
Proof. reflexivity. Qed.
Example parseInt16_nan : Js.parseInt16 "xyz" = None.
Proof. reflexivity. Qed.
Example padStart_ex :
  Js.padStart 24 "0" (Js.toString16 4427793) = "000000000000000000439011"%string.
Proof. reflexivity. Qed.
Example oid_toString :
  ObjectId.toString 0x507f1f77bcf86cd799439011%N = "507f1f77bcf86cd799439011"%string.
Proof. vm_compute. reflexivity. Qed.
Example oid_cast :
  ObjectId.cast "507f1f77bcf86cd799439011" = Some 0x507f1f77bcf86cd799439011%N.
Proof. vm_compute. reflexivity. Qed.

(** * Properties *)

Unset Implicit Arguments.

(** ** Hexadecimal strings *)

Module HexFacts.

Import Js.
Local Open Scope string_scope.

Lemma length_app (s1 s2 : string) :
  String.length (s1 ++ s2) = (String.length s1 + String.length s2)%nat.
Proof. induction s1; simpl; congruence. Qed.

Lemma app_assoc (s1 s2 s3 : string) : (s1 ++ s2) ++ s3 = s1 ++ (s2 ++ s3).
Proof. induction s1; simpl; congruence. Qed.

Lemma drop_app (s1 s2 : string) : drop (String.length s1) (s1 ++ s2) = s2.
Proof. induction s1; simpl; auto. Qed.

Lemma length_replicate n c : String.length (replicate n c) = n.
Proof. induction n; simpl; congruence. Qed.

Lemma replicate_snoc n c :
  replicate n c ++ String c "" = String c (replicate n c).
Proof. induction n; simpl; congruence. Qed.

Lemma length_hex_digits k : forall n, String.length (hex_digits k n) = k.
Proof.
  induction k; intros n; simpl; auto.
  rewrite length_app, IHk. simpl. lia.
Qed.

Lemma hex_digits_0 k : hex_digits k 0 = replicate k "0".
Proof.
  induction k; simpl; auto.
  change (0 / 16)%N with 0%N. rewrite IHk.
  change (hex_char (0 mod 16)) with "0"%char. apply replicate_snoc.
Qed.

Lemma hex_digits_app a : forall b n,
  hex_digits (a + b) n
  = hex_digits a (n / 16 ^ N.of_nat b) ++ hex_digits b n.
Proof.
  intros b. induction b; intros n.
  - rewrite Nat.add_0_r. simpl. change (16 ^ 0)%N with 1%N.
    rewrite N.div_1_r. induction (hex_digits a n); simpl; congruence.
  - rewrite Nat.add_succ_r. cbn [hex_digits]. rewrite IHb.
    rewrite app_assoc. f_equal. f_equal.
    rewrite Nat2N.inj_succ, N.pow_succ_r'.
    rewrite N.Div0.div_div. reflexivity.
Qed.

Lemma hex_value_hex_char d : (d < 16)%N -> hex_value (hex_char d) = Some d.
Proof.
  intros H.
  assert (d = 0 \/ d = 1 \/ d = 2 \/ d = 3 \/ d = 4 \/ d = 5 \/ d = 6
          \/ d = 7 \/ d = 8 \/ d = 9 \/ d = 10 \/ d = 11 \/ d = 12
          \/ d = 13 \/ d = 14 \/ d = 15)%N as C by lia.
  repeat (destruct C as [C | C]; [subst d; reflexivity |]).
  subst d; reflexivity.
Qed.

Lemma parse_hex_app s1 : forall acc s2,
  ObjectId.all_hex s1 = true ->
  parse_hex acc (s1 ++ s2) = parse_hex (parse_hex acc s1) s2.
Proof.
  induction s1 as [|c r IH]; intros acc s2 H; simpl in *; auto.
  destruct (hex_value c); [apply IH; assumption | discriminate].
Qed.

Lemma all_hex_app s1 s2 :
  ObjectId.all_hex (s1 ++ s2)
  = ObjectId.all_hex s1 && ObjectId.all_hex s2.
Proof.
  induction s1 as [|c r IH]; simpl; auto.
  destruct (hex_value c); auto.
Qed.

Lemma all_hex_hex_digits k : forall n,
  ObjectId.all_hex (hex_digits k n) = true.
Proof.
  induction k; intros n; simpl; auto.
  rewrite all_hex_app, IHk. simpl.
  rewrite hex_value_hex_char; auto.
  apply N.mod_upper_bound; lia.
Qed.

Lemma parse_hex_digits k : forall acc n,
  parse_hex acc (hex_digits k n)
  = (acc * 16 ^ N.of_nat k + n mod 16 ^ N.of_nat k)%N.
Proof.
  induction k; intros acc n.
  - simpl. change (16 ^ 0)%N with 1%N. rewrite N.mod_1_r. lia.
  - cbn [hex_digits].
    rewrite parse_hex_app by apply all_hex_hex_digits.
    rewrite IHk. cbn [parse_hex].
    rewrite hex_value_hex_char by (apply N.mod_upper_bound; lia).
    rewrite Nat2N.inj_succ, N.pow_succ_r'.
    set (p := (16 ^ N.of_nat k)%N).
    assert (p <> 0)%N by (apply N.pow_nonzero; lia).
    rewrite (N.Div0.mod_mul_r n 16 p).
    lia.
Qed.

(** Of the characters [parseInt] treats specially, none is a digit. *)
Lemma hex_value_plain c d :
  hex_value c = Some d ->
  is_space c = false /\ c <> "-"%char /\ c <> "+"%char
  /\ c <> "x"%char /\ c <> "X"%char.
Proof.
  destruct c as [[] [] [] [] [] [] [] []]; vm_compute; intros H;
    try discriminate H; repeat split; discriminate.
Qed.

Lemma parseInt16_hex s :
  ObjectId.all_hex s = true -> s <> "" ->
  parseInt16 s = Some (Z.of_N (parse_hex 0 s)).
Proof.
  destruct s as [|c r]; [congruence|]. intros H _.
  simpl in H. destruct (hex_value c) as [d|] eqn:Hc; [|discriminate].
  destruct (hex_value_plain _ _ Hc) as (Hs & Hm & Hp & _).
  unfold parseInt16. simpl skip_space. rewrite Hs.
  assert (E : match String c r with
              | String "-" r0 => (true, r0)
              | String "+" r0 => (false, r0)
              | _ => (false, String c r)
              end = (false, String c r)).
  { destruct c as [[] [] [] [] [] [] [] []]; try reflexivity;
      congruence. }
  rewrite E.
  assert (E2 : strip_0x (String c r) = String c r).
  { destruct r as [|c2 r2]; [destruct c as [[] [] [] [] [] [] [] []];
                              reflexivity|].
    simpl in H. destruct (hex_value c2) as [d2|] eqn:Hc2; [|discriminate].
    destruct (hex_value_plain _ _ Hc2) as (_ & _ & _ & Hx & HX).
    unfold strip_0x.
    destruct c as [[] [] [] [] [] [] [] []]; try reflexivity.
    destruct c2 as [[] [] [] [] [] [] [] []]; try reflexivity;
      congruence. }
  rewrite E2, Hc. reflexivity.
Qed.

Lemma ndigits_bound n : (n < 16 ^ N.of_nat (ndigits n))%N.
Proof.
  destruct n as [|p]; [reflexivity|].
  unfold ndigits. set (n := N.pos p).
  rewrite Nat2N.inj_succ, N2Nat.id.
  assert (H := N.log2_spec n ltac:(reflexivity)).
  destruct H as [_ H].
  eapply N.lt_le_trans; [exact H|].
  change 16%N with (2 ^ 4)%N. rewrite <- N.pow_mul_r.
  apply N.pow_le_mono_r; [lia|].
  assert (Hd := N.mod_upper_bound (N.log2 n) 4 ltac:(lia)).
  assert (Hm := N.Div0.div_mod (N.log2 n) 4). lia.
Qed.

Lemma ndigits_le n k :
  (n < 16 ^ N.of_nat k)%N -> (0 < k)%nat -> (ndigits n <= k)%nat.
Proof.
  intros H Hk. destruct n as [|p]; [simpl; lia|].
  unfold ndigits. set (n := N.pos p) in *.
  change 16%N with (2 ^ 4)%N in H. rewrite <- N.pow_mul_r in H.
  apply N.log2_lt_pow2 in H; [|reflexivity].
  assert (N.log2 n / 4 < N.of_nat k)%N.
  { apply N.Div0.div_lt_upper_bound. lia. }
  lia.
Qed.

Lemma hex_digits_pad j k n :
  (n < 16 ^ N.of_nat k)%N ->
  hex_digits (j + k) n = replicate j "0" ++ hex_digits k n.
Proof.
  intros H. rewrite hex_digits_app, N.div_small by assumption.
  now rewrite hex_digits_0.
Qed.

Lemma hex_digits_inj k a b :
  hex_digits k a = hex_digits k b ->
  (a mod 16 ^ N.of_nat k = b mod 16 ^ N.of_nat k)%N.
Proof.
  intros H. apply (f_equal (parse_hex 0)) in H.
  rewrite !parse_hex_digits in H. lia.
Qed.

(** [n.toString(16).padStart(24, '0')] of a natural number below [16^24]
    is its 24-digit rendering. *)
Lemma padStart_toString16 (z : Z) :
  (0 <= z < 16 ^ 24)%Z ->
  padStart 24 "0" (toString16 z) = hex_digits 24 (Z.to_N z).
Proof.
  intros Hz. unfold padStart, toString16.
  destruct (Z.ltb_spec z 0); [lia|]. simpl append at 2.
  replace (Z.abs_N z) with (Z.to_N z) by lia.
  set (n := Z.to_N z).
  assert (Hn : (n < 16 ^ N.of_nat 24)%N) by (subst n; simpl; lia).
  rewrite length_hex_digits.
  assert (Hle := @ndigits_le n 24 Hn ltac:(lia)).
  replace 24%nat with ((24 - ndigits n) + ndigits n)%nat at 2 by lia.
  rewrite hex_digits_pad by apply ndigits_bound. reflexivity.
Qed.

End HexFacts.

(** ** The identifier scheme of [MongoStorage] *)

Module IdFacts.

Import Js MongoStorage HexFacts.

Ltac pow_consts :=
  unfold ObjectId.t in *;
  change (2 ^ 24)%N with 16777216%N in *;
  change (2 ^ 24)%Z with 16777216%Z in *;
  change (2 ^ 96)%N with 79228162514264337593543950336%N in *;
  change (2 ^ 96)%Z with 79228162514264337593543950336%Z in *;
  change (16 ^ 24)%Z with 79228162514264337593543950336%Z in *.

Lemma mod24_lt (o : N) : (o mod 2 ^ 24 < 2 ^ 24)%N.
Proof. apply N.mod_upper_bound. discriminate. Qed.

Lemma toString_split (o : ObjectId.t) :
  ObjectId.toString o
  = (hex_digits 18 (o / 16 ^ 6) ++ hex_digits 6 o)%string.
Proof.
  unfold ObjectId.toString. change 24%nat with (18 + 6)%nat.
  now rewrite hex_digits_app.
Qed.

(** [parseInt] of the last six characters of an ObjectId is never [NaN]:
    it is the identifier modulo [16^6]. *)
Lemma parseInt_last6 (o : ObjectId.t) :
  let idStr := ObjectId.toString o in
  parseInt16 (substring (Z.of_nat (String.length idStr) - 6) idStr)
  = Some (Z.of_N (o mod 2 ^ 24)).
Proof.
  cbv zeta. unfold ObjectId.toString at 1. rewrite length_hex_digits.
  rewrite toString_split. unfold substring.
  change (Z.to_nat (Z.of_nat 24 - 6)) with 18%nat.
  rewrite <- (length_hex_digits 18 (o / 16 ^ 6)) at 1.
  rewrite drop_app.
  rewrite parseInt16_hex.
  - rewrite parse_hex_digits. reflexivity.
  - apply all_hex_hex_digits.
  - intros E. apply (f_equal String.length) in E.
    rewrite length_hex_digits in E. discriminate.
Qed.

Lemma objectIdToNumericId_spec (o : ObjectId.t) :
  objectIdToNumericId o = Z.of_N (o mod 2 ^ 24).
Proof.
  unfold objectIdToNumericId, last6. now rewrite parseInt_last6.
Qed.

Lemma stringId_toString (z : Z) :
  (0 <= z < 2 ^ 96)%Z -> stringId z = ObjectId.toString (Z.to_N z).
Proof. intros H. apply padStart_toString16. pow_consts. exact H. Qed.

Lemma cast_toString (o : ObjectId.t) :
  ObjectId.valid o -> ObjectId.cast (ObjectId.toString o) = Some o.
Proof.
  intros H. unfold ObjectId.cast, ObjectId.toString.
  rewrite length_hex_digits, all_hex_hex_digits. simpl andb. cbv iota.
  rewrite parse_hex_digits. f_equal.
  rewrite N.mul_0_l, N.add_0_l. apply N.mod_small. exact H.
Qed.

Lemma toString_inj (a b : ObjectId.t) :
  ObjectId.valid a -> ObjectId.valid b ->
  ObjectId.toString a = ObjectId.toString b -> a = b.
Proof.
  intros Ha Hb E. apply hex_digits_inj in E.
  rewrite !N.mod_small in E; assumption.
Qed.

Lemma numeric_id_range (o : ObjectId.t) :
  (0 <= objectIdToNumericId o < 2 ^ 24)%Z.
Proof.
  rewrite objectIdToNumericId_spec.
  assert (H := mod24_lt o). pow_consts.
  set (x := (o mod 16777216)%N) in *. clearbody x. lia.
Qed.

Lemma stringId_numeric (o : ObjectId.t) :
  stringId (objectIdToNumericId o) = ObjectId.toString (o mod 2 ^ 24)%N.
Proof.
  assert (H := numeric_id_range o).
  rewrite stringId_toString by (pow_consts; lia).
  now rewrite objectIdToNumericId_spec, N2Z.id.
Qed.

Lemma cast_stringId_numeric (o : ObjectId.t) :
  ObjectId.cast (stringId (objectIdToNumericId o)) = Some (o mod 2 ^ 24)%N.
Proof.
  rewrite stringId_numeric. apply cast_toString.
  assert (H := mod24_lt o). unfold ObjectId.valid. pow_consts.
  set (x := (o mod 16777216)%N) in *. clearbody x. lia.
Qed.

(** C1 (as the code has it).  The numeric id keeps the last six
    hexadecimal digits only, so converting an object identifier to its
    numeric id and back gives the identifier with its first 18 digits
    zeroed: the original identifier exactly when it is below [2^24].  In
    the other direction every numeric id [n] with [0 <= n < 2^24] is
    recovered from its padded identifier. *)
Theorem id_round_trip_exact (o : ObjectId.t) (n : Z) :
  ObjectId.valid o -> (0 <= n < 2 ^ 24)%Z ->
  (stringId (objectIdToNumericId o) = ObjectId.toString o
   <-> (o < 2 ^ 24)%N)
  /\ ObjectId.cast (stringId (objectIdToNumericId o))
     = Some (o mod 2 ^ 24)%N
  /\ option_map objectIdToNumericId (ObjectId.cast (stringId n)) = Some n.
Proof.
  intros Ho Hn. split; [|split].
  - rewrite stringId_numeric. split.
    + intros E. assert (H := mod24_lt o).
      apply toString_inj in E; auto.
      * rewrite <- E. exact H.
      * unfold ObjectId.valid. pow_consts. lia.
    + intros H. now rewrite N.mod_small.
  - apply cast_stringId_numeric.
  - rewrite stringId_toString by (pow_consts; lia).
    rewrite cast_toString by (unfold ObjectId.valid; pow_consts; lia).
    simpl option_map. f_equal. rewrite objectIdToNumericId_spec.
    rewrite N.mod_small by (pow_consts; lia). lia.
Qed.

Lemma id_round_trip_exact_witness :
  (stringId (objectIdToNumericId Sample.small_oid)
   = ObjectId.toString Sample.small_oid
   <-> (Sample.small_oid < 2 ^ 24)%N)
  /\ ObjectId.cast (stringId (objectIdToNumericId Sample.small_oid))
     = Some (Sample.small_oid mod 2 ^ 24)%N
  /\ option_map objectIdToNumericId (ObjectId.cast (stringId 5)) = Some 5%Z.
Proof.
  apply (@id_round_trip_exact Sample.small_oid 5%Z).
  - reflexivity.
  - lia.
Defined.

(** C1 (as stated) fails: the identifier 507f1f77bcf86cd799439011 has the
    numeric id 0x439011, whose padded identifier is
    000000000000000000439011. *)
Lemma id_round_trip_fails :
  ObjectId.valid Sample.oid
  /\ ObjectId.toString Sample.oid = "507f1f77bcf86cd799439011"%string
  /\ objectIdToNumericId Sample.oid = 0x439011%Z
  /\ stringId (objectIdToNumericId Sample.oid)
     = "000000000000000000439011"%string
  /\ stringId (objectIdToNumericId Sample.oid)
     <> ObjectId.toString Sample.oid.
Proof.
  split; [reflexivity|]. split; [vm_compute; reflexivity|].
  split; [vm_compute; reflexivity|].
  split; [vm_compute; reflexivity|].
  vm_compute. discriminate.
Qed.

End IdFacts.

(** ** Lists *)

Module ListFacts.

Lemma NoDup_snoc {A} (l : list A) (x : A) :
  NoDup l -> ~ In x l -> NoDup (l ++ [x]).
Proof.
  induction l as [|y r IH]; simpl; intros Hnd Hnotin.
  - constructor; [tauto|constructor].
  - inversion Hnd as [|? ? Hy Hr]; subst. constructor.
    + rewrite in_app_iff. simpl. intros [H|[H|[]]]; [tauto|].
      apply Hnotin. now left.
    + apply IH; tauto.
Qed.

Lemma NoDup_map_filter {A B} (g : A -> B) (p : A -> bool) (l : list A) :
  NoDup (map g l) -> NoDup (map g (filter p l)).
Proof.
  induction l as [|y r IH]; simpl; auto.
  intros H. inversion H as [|? ? Hy Hr]; subst.
  destruct (p y); simpl; auto. constructor; auto.
  intros Hin. apply Hy. apply in_map_iff in Hin as (x & E & Hx).
  apply filter_In in Hx. apply in_map_iff. exists x. tauto.
Qed.

Lemma map_ext_update {A B} (g : A -> B) (p : A -> bool) (f : A -> A)
    (l : list A) :
  (forall a, g (f a) = g a) ->
  map g (map (fun r => if p r then f r else r) l) = map g l.
Proof.
  intros H. rewrite map_map. apply map_ext. intros a.
  destruct (p a); auto.
Qed.

End ListFacts.

(** ** JavaScript maps *)

Module JsMapFacts.

Import JsMap.

Section Facts.
Variables V B : Type.
Implicit Types (m : t V) (k : Z) (v : V) (g : Z * V -> B).

Lemma get_In k v m : get k m = Some v -> In (k, v) m.
Proof.
  induction m as [|[k' v'] r IH]; simpl; [discriminate|].
  destruct (Z.eqb_spec k' k); intros H.
  - injection H as <-. subst. now left.
  - right. auto.
Qed.

Lemma get_None k m : get k m = None -> ~ In k (keys m).
Proof.
  induction m as [|[k' v'] r IH]; simpl; [tauto|].
  destruct (Z.eqb_spec k' k); [discriminate|].
  intros H [E|E]; [congruence|]. now apply IH.
Qed.

Lemma In_get k v m : NoDup (keys m) -> In (k, v) m -> get k m = Some v.
Proof.
  induction m as [|[k' v'] r IH]; simpl; [tauto|].
  intros Hnd [E|E].
  - injection E as -> ->. now rewrite Z.eqb_refl.
  - inversion Hnd as [|? ? Hnotin Hnd']; subst.
    destruct (Z.eqb_spec k' k) as [->|]; [|auto].
    exfalso. apply Hnotin. change k with (fst (k, v)).
    now apply in_map.
Qed.

Lemma set_fresh k v m : get k m = None -> set k v m = m ++ [(k, v)].
Proof.
  induction m as [|[k' v'] r IH]; simpl; [reflexivity|].
  destruct (Z.eqb_spec k' k); [discriminate|].
  intros H. now rewrite IH.
Qed.

Lemma map_set g k v v0 m :
  get k m = Some v0 -> g (k, v) = g (k, v0) ->
  map g (set k v m) = map g m.
Proof.
  intros H E. induction m as [|[k' v'] r IH]; simpl in *; [discriminate|].
  destruct (Z.eqb_spec k' k) as [->|].
  - injection H as ->. simpl. now rewrite E.
  - simpl. now rewrite IH.
Qed.

Lemma Forall_set (P : Z * V -> Prop) k v m :
  Forall P m -> P (k, v) -> Forall P (set k v m).
Proof.
  intros H Hk. induction H as [|[k' v'] r Hx Hr IH]; simpl.
  - now constructor.
  - destruct (k' =? k)%Z; constructor; auto.
Qed.

Lemma Forall_delete (P : Z * V -> Prop) k m :
  Forall P m -> Forall P (delete k m).
Proof.
  intros H. induction H as [|[k' v'] r Hx Hr IH]; simpl; auto.
  destruct (k' =? k)%Z; auto.
Qed.

Lemma In_map_delete g k m x :
  In x (map g (delete k m)) -> In x (map g m).
Proof.
  induction m as [|[k' v'] r IH]; simpl; auto.
  destruct (k' =? k)%Z; simpl; tauto.
Qed.

Lemma NoDup_map_delete g k m :
  NoDup (map g m) -> NoDup (map g (delete k m)).
Proof.
  induction m as [|[k' v'] r IH]; simpl; auto.
  intros H. inversion H as [|? ? Hnotin Hnd]; subst.
  destruct (k' =? k)%Z; simpl; auto.
  constructor; auto. intros Hin. apply Hnotin.
  eapply In_map_delete; eauto.
Qed.

Lemma get_delete_other k k' m :
  k' <> k -> get k' (delete k m) = get k' m.
Proof.
  intros Hne. induction m as [|[k0 v0] r IH]; simpl; auto.
  destruct (Z.eqb_spec k0 k) as [->|].
  - destruct (Z.eqb_spec k k'); [congruence|reflexivity].
  - simpl. now rewrite IH.
Qed.

Lemma get_set_same k v m : get k (set k v m) = Some v.
Proof.
  induction m as [|[k0 v0] r IH]; simpl.
  - now rewrite Z.eqb_refl.
  - destruct (Z.eqb_spec k0 k) as [->|Hne]; simpl.
    + now rewrite Z.eqb_refl.
    + destruct (Z.eqb_spec k0 k); [congruence|exact IH].
Qed.

Lemma get_set_other k k' v m :
  k' <> k -> get k' (set k v m) = get k' m.
Proof.
  intros Hne. induction m as [|[k0 v0] r IH]; simpl.
  - destruct (Z.eqb_spec k k'); [congruence|reflexivity].
  - destruct (Z.eqb_spec k0 k) as [->|]; simpl.
    + destruct (Z.eqb_spec k k'); [congruence|reflexivity].
    + now rewrite IH.
Qed.

Lemma get_delete_same k m :
  NoDup (keys m) -> get k (delete k m) = None.
Proof.
  induction m as [|[k0 v0] r IH]; simpl; auto.
  intros H. inversion H as [|? ? Hnotin Hnd]; subst.
  destruct (Z.eqb_spec k0 k) as [->|Hne]; simpl.
  - destruct (get k r) eqn:E; auto.
    exfalso. apply Hnotin. apply get_In in E.
    change k with (fst (k, v)). now apply in_map.
  - destruct (Z.eqb_spec k0 k); [congruence|auto].
Qed.

End Facts.

Lemma values_set_fresh V k (v : V) m :
  get k m = None -> values (set k v m) = values m ++ [v].
Proof.
  intros H. rewrite set_fresh by assumption.
  unfold values. now rewrite map_app.
Qed.

End JsMapFacts.

(** ** What the cart methods of [MemStorage] leave alone *)

Module MemFrame.

Import MemStorage.

Lemma same_but_cart_refl s : same_but_cart s s.
Proof. repeat split. Qed.

Lemma mem_updateCartItemQuantity_frame id userId quantity s :
  same_but_cart s (snd (updateCartItemQuantity id userId quantity s)).
Proof.
  unfold updateCartItemQuantity.
  destruct (JsMap.get id (cartItems s)); [|apply same_but_cart_refl].
  destruct (negb _); repeat split.
Qed.

Lemma mem_addToCart_frame c s : same_but_cart s (snd (addToCart c s)).
Proof.
  unfold addToCart. destruct (find _ _).
  - apply mem_updateCartItemQuantity_frame.
  - repeat split.
Qed.

Lemma mem_removeFromCart_frame id userId s :
  same_but_cart s (snd (removeFromCart id userId s)).
Proof.
  unfold removeFromCart.
  destruct (JsMap.get id (cartItems s)); [|apply same_but_cart_refl].
  destruct (negb _); repeat split.
Qed.

Lemma mem_clearCart_frame userId s :
  same_but_cart s (snd (clearCart userId s)).
Proof.
  unfold clearCart. cbn [snd]. generalize (getCartItems userId s) as l.
  intros l. assert (H := same_but_cart_refl s). revert H.
  generalize s at 1 3 as s0. revert s.
  induction l as [|x r IH]; intros s s0 H; simpl; [assumption|].
  apply IH. exact H.
Qed.

End MemFrame.

(** ** The cart of [MemStorage] *)

Module MemCart.

Import MemStorage JsMapFacts ListFacts.

Definition same_pair (u mi : Z) (item : CartItem.t) : bool :=
  (CartItem.userId item =? u)%Z && (CartItem.menuItemId item =? mi)%Z.

Lemma same_pair_spec u mi item :
  same_pair u mi item = true <-> cart_key item = (u, mi).
Proof.
  unfold same_pair, cart_key. rewrite andb_true_iff, !Z.eqb_eq.
  split; [intros [-> ->]; reflexivity | intros E; now inversion E].
Qed.

Lemma find_pair rows u mi x :
  one_row_per_pair rows -> In x rows -> cart_key x = (u, mi) ->
  find (same_pair u mi) rows = Some x.
Proof.
  unfold one_row_per_pair.
  induction rows as [|y r IH]; simpl; [tauto|].
  intros Hnd Hin Hk. inversion Hnd as [|? ? Hnotin Hnd']; subst.
  destruct (same_pair u mi y) eqn:E.
  - destruct Hin as [->|Hin]; [reflexivity|].
    apply same_pair_spec in E. exfalso. apply Hnotin.
    rewrite E, <- Hk. now apply in_map.
  - destruct Hin as [->|Hin]; [|auto].
    apply same_pair_spec in Hk. congruence.
Qed.

Lemma find_pair_None rows u mi :
  find (same_pair u mi) rows = None -> ~ In (u, mi) (map cart_key rows).
Proof.
  intros H Hin. apply in_map_iff in Hin as (x & Hk & Hin).
  apply (find_none _ _ H) in Hin. apply same_pair_spec in Hk. congruence.
Qed.

Lemma cart_wf_frame s s' :
  cartItems s' = cartItems s -> cartItemIdCounter s' = cartItemIdCounter s ->
  cart_wf s -> cart_wf s'.
Proof. unfold cart_wf. intros -> ->. trivial. Qed.

Lemma wf_key s k v :
  cart_wf s -> In (k, v) (cartItems s) ->
  k = CartItem.id v /\ (k < cartItemIdCounter s)%Z.
Proof.
  intros (_ & H & _) Hin. rewrite Forall_forall in H. exact (H _ Hin).
Qed.

Lemma wf_get_row s row :
  cart_wf s -> In row (JsMap.values (cartItems s)) ->
  JsMap.get (CartItem.id row) (cartItems s) = Some row.
Proof.
  intros Hwf Hin. apply in_map_iff in Hin as ([k v] & E & Hin).
  simpl in E. subst v. destruct (wf_key _ _ _ Hwf Hin) as [-> _].
  apply In_get; [apply Hwf | assumption].
Qed.

Lemma wf_set_same_pair s k old new :
  cart_wf s -> JsMap.get k (cartItems s) = Some old ->
  CartItem.id new = CartItem.id old -> cart_key new = cart_key old ->
  cart_wf (with_cartItems (JsMap.set k new (cartItems s)) s).
Proof.
  intros Hwf Hget Hid Hkey.
  destruct (wf_key _ _ _ Hwf (get_In _ _ _ _ Hget)) as [Hk Hlt].
  destruct Hwf as (Hnd & Hall & Hpairs).
  unfold cart_wf. simpl. repeat split.
  - unfold JsMap.keys. now rewrite (map_set _ _ fst _ new _ _ Hget).
  - apply Forall_set; [assumption|]. simpl. split; congruence.
  - unfold one_row_per_pair, JsMap.values in *. rewrite map_map in *.
    now rewrite (map_set _ _ (fun e => cart_key (snd e)) _ new _ _ Hget).
Qed.

Lemma mem_updateCartItemQuantity_wf id userId quantity s :
  cart_wf s -> cart_wf (snd (updateCartItemQuantity id userId quantity s)).
Proof.
  intros Hwf. unfold updateCartItemQuantity.
  destruct (JsMap.get id (cartItems s)) as [cartItem|] eqn:Hget;
    [|assumption].
  destruct (negb (CartItem.userId cartItem =? userId)%Z); [assumption|].
  simpl. eapply wf_set_same_pair; eauto.
Qed.

Lemma get_counter_None s :
  cart_wf s -> JsMap.get (cartItemIdCounter s) (cartItems s) = None.
Proof.
  intros Hwf. destruct (JsMap.get _ _) eqn:E; [|reflexivity].
  apply get_In in E. apply (wf_key _ _ _ Hwf) in E. lia.
Qed.

Lemma mem_addToCart_wf c s : cart_wf s -> cart_wf (snd (addToCart c s)).
Proof.
  intros Hwf. unfold addToCart.
  fold (same_pair (InsertCartItem.userId c) (InsertCartItem.menuItemId c)).
  destruct (find _ _) as [existing|] eqn:Hfind.
  - now apply mem_updateCartItemQuantity_wf.
  - simpl. assert (Hfresh := get_counter_None _ Hwf).
    apply find_pair_None in Hfind.
    destruct Hwf as (Hnd & Hall & Hpairs).
    unfold cart_wf. simpl. rewrite set_fresh by assumption. repeat split.
    + unfold JsMap.keys. rewrite map_app. simpl.
      apply NoDup_snoc; [assumption|]. now apply get_None.
    + apply Forall_app. split.
      * eapply Forall_impl; [|exact Hall]. simpl. intros e [? ?].
        split; [assumption|lia].
      * constructor; [|constructor]. simpl. split; [reflexivity|lia].
    + unfold one_row_per_pair, JsMap.values in *.
      rewrite !map_app. simpl.
      apply NoDup_snoc; assumption.
Qed.

Lemma mem_delete_wf k s :
  cart_wf s -> cart_wf (with_cartItems (JsMap.delete k (cartItems s)) s).
Proof.
  intros (Hnd & Hall & Hpairs). unfold cart_wf. simpl. repeat split.
  - now apply NoDup_map_delete.
  - now apply Forall_delete.
  - unfold one_row_per_pair, JsMap.values in *. rewrite map_map in *.
    now apply NoDup_map_delete.
Qed.

Lemma removeFromCart_wf id userId s :
  cart_wf s -> cart_wf (snd (removeFromCart id userId s)).
Proof.
  intros Hwf. unfold removeFromCart.
  destruct (JsMap.get id (cartItems s)) as [cartItem|]; [|assumption].
  destruct (negb _); [assumption|]. simpl. now apply mem_delete_wf.
Qed.

Lemma clearCart_wf userId s : cart_wf s -> cart_wf (snd (clearCart userId s)).
Proof.
  unfold clearCart. simpl. generalize (getCartItems userId s) as l.
  intros l. revert s. induction l as [|item r IH]; simpl; intros s Hwf.
  - assumption.
  - apply IH. now apply mem_delete_wf.
Qed.

Lemma mem_step_wf o s : cart_wf s -> cart_wf (step o s).
Proof.
  intros Hwf. destruct o; simpl; try assumption;
    try (apply mem_addToCart_wf; assumption);
    try (apply removeFromCart_wf; assumption);
    try (apply mem_updateCartItemQuantity_wf; assumption);
    try (apply clearCart_wf; assumption).
  - unfold updateMenuItem.
    destruct (JsMap.get id (menuItems s)); assumption.
  - unfold updateOrderStatus.
    destruct (JsMap.get id (orders s)); assumption.
Qed.

Lemma mem_init_wf : cart_wf init.
Proof.
  unfold cart_wf. change (cartItems init) with (@nil (Z * CartItem.t)).
  repeat split; constructor.
Qed.

Lemma mem_run_wf ops : forall s, cart_wf s -> cart_wf (run ops s).
Proof.
  unfold run. induction ops as [|o r IH]; simpl; intros s H; auto.
  apply IH. now apply mem_step_wf.
Qed.

Lemma mem_reachable_wf ops : cart_wf (run ops init).
Proof. apply mem_run_wf, mem_init_wf. Qed.

(** With a row for the pair present, [addToCart] updates that row. *)
Lemma mem_addToCart_merges c existing s :
  cart_wf s -> In existing (JsMap.values (cartItems s)) ->
  cart_key existing
  = (InsertCartItem.userId c, InsertCartItem.menuItemId c) ->
  let merged :=
    CartItem.mk (CartItem.id existing) (CartItem.userId existing)
      (CartItem.menuItemId existing)
      (js_add (CartItem.quantity existing) (InsertCartItem.quantity c)) in
  addToCart c s
  = (Some merged,
     with_cartItems
       (JsMap.set (CartItem.id existing) merged (cartItems s)) s).
Proof.
  intros Hwf Hin Hkey merged. unfold addToCart.
  fold (same_pair (InsertCartItem.userId c) (InsertCartItem.menuItemId c)).
  rewrite (find_pair _ _ _ _ (proj2 (proj2 Hwf)) Hin Hkey).
  unfold updateCartItemQuantity. rewrite (wf_get_row _ _ Hwf Hin).
  unfold cart_key in Hkey. injection Hkey as Hu Hm.
  rewrite <- Hu, Z.eqb_refl. reflexivity.
Qed.

End MemCart.

(** ** The cart of [DatabaseStorage] *)

Module DbCart.

Import DatabaseStorage Sql ListFacts.
Import Js (result, Ok, Throw).

Lemma first_select_None {A} (p : A -> bool) (t : list A) :
  first (select p t) = None -> forall x, In x t -> p x = false.
Proof.
  unfold first, select. intros H x Hin.
  destruct (p x) eqn:E; [|reflexivity].
  assert (In x (filter p t)) as Hf by (apply filter_In; tauto).
  destruct (filter p t); [contradiction|discriminate].
Qed.

Lemma first_select_Some {A} (p : A -> bool) (t : list A) x :
  first (select p t) = Some x -> In x t /\ p x = true.
Proof.
  unfold first, select. intros H.
  assert (In x (filter p t)) as Hf.
  { destruct (filter p t); [discriminate|]. injection H as ->. now left. }
  now apply filter_In in Hf.
Qed.

Lemma update_quantity_wf p q s :
  db_cart_wf s ->
  db_cart_wf
    (with_cartItems
       (update p (fun c => CartItem.mk (CartItem.id c) (CartItem.userId c)
                             (CartItem.menuItemId c) (Some q))
               (cartItems s)) s).
Proof.
  intros (Hid & Hlt & Hpairs). unfold db_cart_wf, update. simpl.
  repeat split.
  - now rewrite map_ext_update.
  - apply Forall_map. eapply Forall_impl; [|exact Hlt]. simpl.
    intros a Ha. now destruct (p a).
  - unfold one_row_per_pair in *. now rewrite map_ext_update.
Qed.

Lemma db_updateCartItemQuantity_wf id userId quantity s :
  db_cart_wf s ->
  db_cart_wf (snd (updateCartItemQuantity id userId quantity s)).
Proof.
  intros Hwf. unfold updateCartItemQuantity.
  destruct quantity as [q|]; [|assumption].
  simpl. now apply update_quantity_wf.
Qed.

Lemma db_delete_wf p s :
  db_cart_wf s -> db_cart_wf (with_cartItems (delete p (cartItems s)) s).
Proof.
  intros (Hid & Hlt & Hpairs). unfold db_cart_wf, delete. simpl.
  repeat split.
  - now apply NoDup_map_filter.
  - rewrite Forall_forall in *. intros x Hx. apply filter_In in Hx.
    apply Hlt. tauto.
  - now apply NoDup_map_filter.
Qed.

Lemma db_addToCart_wf c s : db_cart_wf s -> db_cart_wf (snd (addToCart c s)).
Proof.
  intros Hwf. unfold addToCart.
  destruct (first _) as [existing|] eqn:Hfirst.
  - now apply db_updateCartItemQuantity_wf.
  - simpl. destruct Hwf as (Hid & Hlt & Hpairs).
    assert (Hnone := first_select_None _ _ Hfirst).
    unfold db_cart_wf. simpl. repeat split.
    + rewrite map_app. simpl. apply NoDup_snoc; [assumption|].
      intros Hin. apply in_map_iff in Hin as (x & E & Hx).
      rewrite Forall_forall in Hlt. apply Hlt in Hx. lia.
    + apply Forall_app. split.
      * eapply Forall_impl; [|exact Hlt]. simpl. intros; lia.
      * constructor; [simpl; lia|constructor].
    + unfold one_row_per_pair in *. rewrite map_app. simpl.
      apply NoDup_snoc; [assumption|].
      intros Hin. apply in_map_iff in Hin as (x & E & Hx).
      apply Hnone in Hx. unfold cart_key in E. simpl in E.
      injection E as E1 E2. rewrite E1, E2, !Z.eqb_refl in Hx.
      discriminate.
Qed.

Lemma db_step_wf o s : db_cart_wf s -> db_cart_wf (step o s).
Proof.
  intros Hwf. destruct o; simpl; try assumption;
    try (apply db_addToCart_wf; assumption);
    try (apply db_updateCartItemQuantity_wf; assumption);
    try (apply db_delete_wf; assumption).
  unfold createUser. destruct (existsb _ _); assumption.
Qed.

Lemma db_empty_wf : db_cart_wf empty.
Proof. repeat split; constructor. Qed.

Lemma db_run_wf ops : forall s, db_cart_wf s -> db_cart_wf (run ops s).
Proof.
  unfold run. induction ops as [|o r IH]; simpl; intros s H; auto.
  apply IH. now apply db_step_wf.
Qed.

Lemma db_reachable_wf ops : db_cart_wf (run ops empty).
Proof. apply db_run_wf, db_empty_wf. Qed.


Lemma first_returning_id (f : CartItem.t -> CartItem.t) t existing u :
  NoDup (map CartItem.id t) -> In existing t ->
  CartItem.userId existing = u ->
  first (returning
           (fun r => (CartItem.id r =? CartItem.id existing)%Z
                     && (CartItem.userId r =? u)%Z) f t)
  = Some (f existing).
Proof.
  intros Hnd Hin Hu. unfold first, returning.
  induction t as [|y r IH]; simpl in *; [contradiction|].
  inversion Hnd as [|? ? Hy Hr]; subst.
  destruct Hin as [->|Hin].
  - now rewrite !Z.eqb_refl.
  - destruct (Z.eqb_spec (CartItem.id y) (CartItem.id existing)) as [E|E].
    + exfalso. apply Hy. rewrite E. now apply in_map.
    + simpl. auto.
Qed.


End DbCart.

(** ** What store computations keep *)

Module MongoKeeps.

Import Mongoose MongoStorage ListFacts.
Import Js (result, Ok, Throw).
Local Open Scope mongo_scope.

(** A computation keeps the property [Q] of the part [proj] of the store. *)
Definition keeps {X} (proj : world -> X) (Q : X -> Prop) {A} (m : M A)
  : Prop :=
  forall w, Q (proj w) -> Q (proj (snd (m w))).

(** [proj] reads collections only, not the log or the faults. *)
Definition collections_only {X} (proj : world -> X) : Prop :=
  forall w l f,
    proj (mkWorld (users w) (menuItems w) (cartItems w) (orders w) l f)
    = proj w.

Section Rules.
Context {X : Type} (proj : world -> X) (Q : X -> Prop).

Lemma keeps_ret {A} (a : A) : keeps proj Q (ret a).
Proof. intros w H. exact H. Qed.

Lemma keeps_throw {A} : keeps proj Q (@throw A).
Proof. intros w H. exact H. Qed.

Lemma keeps_bind {A B} (m : M A) (k : A -> M B) :
  keeps proj Q m -> (forall a, keeps proj Q (k a)) -> keeps proj Q (bind m k).
Proof.
  intros Hm Hk w H. unfold bind. specialize (Hm w H).
  destruct (m w) as [[a|] w']; simpl in *; [now apply Hk|assumption].
Qed.

Lemma keeps_try {A} (m h : M A) :
  keeps proj Q m -> keeps proj Q h -> keeps proj Q (try_catch m h).
Proof.
  intros Hm Hh w H. unfold try_catch. specialize (Hm w H).
  destruct (m w) as [[a|] w']; simpl in *; [assumption|now apply Hh].
Qed.

Lemma keeps_call {A} c f (body : M A) :
  collections_only proj -> keeps proj Q body -> keeps proj Q (call c f body).
Proof.
  intros Hp Hb w H. unfold call. unfold collections_only in Hp.
  destruct (faults w) as [|[] fs]; cbn [snd];
    first [ rewrite Hp; exact H | apply Hb; rewrite Hp; exact H ].
Qed.

Lemma keeps_same {A} (m : M A) :
  (forall w, proj (snd (m w)) = proj w) -> keeps proj Q m.
Proof. intros E w H. now rewrite E. Qed.

Lemma keeps_mapM {A B} (f : A -> M B) (l : list A) :
  (forall a, keeps proj Q (f a)) -> keeps proj Q (mapM f l).
Proof.
  intros Hf. induction l as [|a r IH]; simpl.
  - apply keeps_ret.
  - apply keeps_bind; [apply Hf|]. intros b.
    apply keeps_bind; [apply IH|]. intros bs. apply keeps_ret.
Qed.

End Rules.

Lemma doc_key_update_first p q l :
  map doc_key (update_first p (set_quantity q) l) = map doc_key l.
Proof.
  induction l as [|d r IH]; simpl; auto.
  destruct (p d); simpl; [reflexivity|now rewrite IH].
Qed.

Lemma NoDup_delete_first {A B} (g : A -> B) p (l : list A) :
  NoDup (map g l) -> NoDup (map g (delete_first p l)).
Proof.
  induction l as [|d r IH]; simpl; auto.
  intros H. inversion H as [|? ? Hd Hr]; subst.
  destruct (p d); simpl; auto. constructor; auto.
  intros Hin. apply Hd. clear - Hin.
  induction r as [|e r IH]; simpl in *; auto.
  destruct (p e); simpl in *; tauto.
Qed.

(** *** The cart collection stays at one document per pair *)

Lemma cart_keeps_update id quantity :
  keeps cartItems one_doc_per_pair (CartItem_findByIdAndUpdate id quantity).
Proof.
  apply keeps_call; [now intros ? ? ?|]. destruct quantity as [q|];
    [|apply keeps_throw].
  intros w H. simpl. unfold one_doc_per_pair.
  now rewrite doc_key_update_first.
Qed.

Lemma cart_keeps_delete id :
  keeps cartItems one_doc_per_pair (CartItem_findByIdAndDelete id).
Proof.
  apply keeps_call; [now intros ? ? ?|]. intros w H. simpl.
  now apply NoDup_delete_first.
Qed.

Lemma cart_keeps_deleteMany userId :
  keeps cartItems one_doc_per_pair (CartItem_deleteMany userId).
Proof.
  apply keeps_call; [now intros ? ? ?|]. intros w H. simpl.
  now apply NoDup_map_filter.
Qed.

(** *** A stored order stays as it is, unless its status is updated *)

Lemma order_keeps_save doc d :
  keeps orders (fun l => In d l) (Order_save doc).
Proof.
  apply keeps_call; [now intros ? ? ?|]. intros w H. simpl.
  destruct (existsb _ _); simpl; [assumption|].
  apply in_or_app. now left.
Qed.

Ltac same_part :=
  apply keeps_same; intros ?; cbv beta;
  repeat match goal with
         | |- context [if ?b then _ else _] => destruct b
         end;
  reflexivity.

Ltac keeps_step :=
  first
    [ apply keeps_ret
    | apply keeps_throw
    | apply cart_keeps_update
    | apply cart_keeps_delete
    | apply cart_keeps_deleteMany
    | apply order_keeps_save
    | apply keeps_try
    | apply keeps_bind; [|intros ?]
    | apply keeps_call; [now intros ? ? ?|]
    | apply keeps_mapM; intros ?
    | match goal with
      | |- keeps _ _ (match ?x with _ => _ end) => destruct x
      end
    | same_part
    | progress unfold castId, User_find, User_findById,
        User_findOne_username, User_save, MenuItem_find,
        MenuItem_find_category, MenuItem_findById, MenuItem_save,
        MenuItem_findByIdAndUpdate, MenuItem_findByIdAndDelete,
        CartItem_find, CartItem_find_userId, CartItem_findOne,
        CartItem_findByIdAndUpdate, CartItem_findByIdAndDelete,
        CartItem_deleteMany, CartItem_save,
        Order_save, Order_findById, Order_find_sorted,
        Order_find_userId_sorted, Order_findByIdAndUpdate,
        populate_menuItemId, new_Order ].

Lemma getMenuItemById_keeps {X} (proj : world -> X) (Q : X -> Prop) id :
  collections_only proj ->
  (forall w t, proj (with_menuItems t w) = proj w) ->
  keeps proj Q (getMenuItemById id).
Proof.
  intros Hp Hm. unfold getMenuItemById.
  apply keeps_try; [|apply keeps_ret].
  apply keeps_bind; [|intros ?; apply keeps_ret].
  unfold MenuItem_findById. apply keeps_call; [assumption|].
  apply keeps_bind; [unfold castId; destruct (ObjectId.cast _);
                     [apply keeps_ret|apply keeps_throw]|].
  intros o. apply keeps_same. reflexivity.
Qed.

Ltac keeps_all :=
  repeat first
    [ apply getMenuItemById_keeps; [now intros ? ? ? | reflexivity]
    | keeps_step ].

Section Methods.
Variable castNumber : Z -> option ObjectId.t.






End Methods.

End MongoKeeps.

(** ** A Hoare logic for store computations *)

Module MongoHoare.

Import Mongoose MongoStorage.
Import Js (result, Ok, Throw).
Local Open Scope mongo_scope.

(** From a store satisfying [I], [m] returns [a] in a store satisfying
    [R a], or throws in a store satisfying [J]. *)
Definition triple {A} (I : world -> Prop) (m : M A)
    (R : A -> world -> Prop) (J : world -> Prop) : Prop :=
  forall w, I w ->
    match m w with
    | (Ok a, w') => R a w'
    | (Throw, w') => J w'
    end.

(** A predicate on the store that looks at the collections only. *)
Definition stable (I : world -> Prop) : Prop :=
  forall c f w, I w -> I (logged c f w).

Lemma triple_ret {A} (I : world -> Prop) (a : A) (R : A -> world -> Prop) J :
  (forall w, I w -> R a w) -> triple I (ret a) R J.
Proof. intros H w Hw. simpl. auto. Qed.

Lemma triple_throw {A} (I : world -> Prop) (R : A -> world -> Prop)
    (J : world -> Prop) :
  (forall w, I w -> J w) -> triple I (@throw A) R J.
Proof. intros H w Hw. simpl. auto. Qed.

Lemma triple_bind {A B} I (m : M A) (k : A -> M B) Mid R J :
  triple I m Mid J -> (forall a, triple (Mid a) (k a) R J) ->
  triple I (bind m k) R J.
Proof.
  intros Hm Hk w Hw. unfold bind. specialize (Hm w Hw).
  destruct (m w) as [[a|] w']; [now apply Hk|assumption].
Qed.

Lemma triple_try {A} I (m h : M A) R Mid J :
  triple I m R Mid -> triple Mid h R J -> triple I (try_catch m h) R J.
Proof.
  intros Hm Hh w Hw. unfold try_catch. specialize (Hm w Hw).
  destruct (m w) as [[a|] w']; [assumption|now apply Hh].
Qed.

Lemma triple_call {A} I c f (body : M A) R J :
  stable I -> (forall w, I w -> J w) -> triple I body R J ->
  triple I (call c f body) R J.
Proof.
  intros Hst HJ Hb w Hw. unfold call.
  fold (logged c f w).
  destruct (faults w) as [|[] fs].
  - apply Hb, Hst, Hw.
  - apply HJ, Hst, Hw.
  - apply Hb, Hst, Hw.
Qed.

Lemma triple_pure {A} (I : world -> Prop) (P : Prop) (m : M A) R J :
  (P -> triple I m R J) -> triple (fun w => P /\ I w) m R J.
Proof. intros H w [HP Hw]. now apply H. Qed.

Lemma triple_weaken {A} (I I' : world -> Prop) (m : M A)
    (R R' : A -> world -> Prop) (J J' : world -> Prop) :
  (forall w, I' w -> I w) -> (forall a w, R a w -> R' a w) ->
  (forall w, J w -> J' w) -> triple I m R J -> triple I' m R' J'.
Proof.
  intros HI HR HJ H w Hw. specialize (H w (HI w Hw)).
  destruct (m w) as [[a|] w']; auto.
Qed.

(** A read of the store returns what it reads and changes nothing. *)
Lemma triple_read {A} (I : world -> Prop) (g : world -> A) J :
  triple I (fun w => (Ok (g w), w)) (fun a w => a = g w /\ I w) J.
Proof. intros w Hw. simpl. auto. Qed.

End MongoHoare.

(** ** Merging in [MongoStorage.addToCart] *)

Module MongoMerge.

Import Mongoose MongoStorage MongoHoare.
Import Js (result, Ok, Throw).
Local Open Scope mongo_scope.






End MongoMerge.

(** ** One cart row per (user, menu item) pair *)

Module CartInvariant.



End CartInvariant.

(** ** Updating a menu item *)

Module MenuUpdate.

Import ListFacts JsMapFacts.

Lemma menu_keyed_step o s : menu_keyed s -> menu_keyed (MemStorage.step o s).
Proof.
  intros H. destruct o; simpl; try assumption.
  - apply Forall_set; [assumption|reflexivity].
  - unfold MemStorage.updateMenuItem.
    destruct (JsMap.get id (MemStorage.menuItems s)) as [old|] eqn:E;
      [|assumption].
    simpl. apply Forall_set; [assumption|]. simpl.
    apply get_In in E. unfold menu_keyed in H.
    rewrite Forall_forall in H. exact (H _ E).
  - now apply Forall_delete.
  - unfold MemStorage.addToCart. destruct (find _ _); [|assumption].
    unfold MemStorage.updateCartItemQuantity.
    destruct (JsMap.get _ (MemStorage.cartItems s)); [|assumption].
    destruct (negb _); assumption.
  - unfold MemStorage.removeFromCart.
    destruct (JsMap.get _ (MemStorage.cartItems s)); [|assumption].
    destruct (negb _); assumption.
  - unfold MemStorage.updateCartItemQuantity.
    destruct (JsMap.get _ (MemStorage.cartItems s)); [|assumption].
    destruct (negb _); assumption.
  - unfold MemStorage.clearCart. simpl.
    generalize (MemStorage.getCartItems userId s) as l. intros l.
    revert s H. induction l as [|x r IH]; simpl; intros s H; auto.
  - unfold MemStorage.updateOrderStatus.
    destruct (JsMap.get _ (MemStorage.orders s)); assumption.
Qed.

Lemma menu_keyed_init : menu_keyed MemStorage.init.
Proof. unfold menu_keyed. simpl. repeat constructor. Qed.

Lemma menu_keyed_run ops : menu_keyed (MemStorage.run ops MemStorage.init).
Proof.
  unfold MemStorage.run. generalize menu_keyed_init.
  generalize MemStorage.init as s. induction ops as [|o r IH]; simpl; auto.
  intros s H. apply IH. now apply menu_keyed_step.
Qed.



Lemma update_no_match {A} (p : A -> bool) (f : A -> A) (t : list A) :
  (forall x, In x t -> p x = false) -> Sql.update p f t = t.
Proof.
  unfold Sql.update. induction t as [|y r IH]; simpl; intros H; auto.
  rewrite (H y) by now left. f_equal. apply IH. intros x Hx. apply H.
  now right.
Qed.

Lemma first_returning {A} (p : A -> bool) (f : A -> A) (t : list A) :
  Sql.first (Sql.returning p f t) = option_map f (Sql.first (Sql.select p t)).
Proof.
  unfold Sql.first, Sql.returning, Sql.select.
  destruct (filter p t); reflexivity.
Qed.

Lemma first_map_select {A} (p : A -> bool) (f : A -> A) (t : list A) :
  Sql.first (map f (Sql.select p t)) = option_map f (Sql.first (Sql.select p t)).
Proof. apply first_returning. Qed.

Lemma select_update {A} (q p : A -> bool) (f : A -> A) (t : list A) :
  (forall x, q (f x) = q x) ->
  Sql.select q (Sql.update p f t) = Sql.update p f (Sql.select q t).
Proof.
  intros H. unfold Sql.select, Sql.update.
  induction t as [|y r IH]; simpl; auto.
  destruct (p y) eqn:Ep.
  - rewrite H. destruct (q y); simpl; [rewrite Ep|]; now rewrite IH.
  - destruct (q y); simpl; [rewrite Ep|]; now rewrite IH.
Qed.

Lemma update_all {A} (p : A -> bool) (f : A -> A) (t : list A) :
  Sql.update p f (Sql.select p t) = map f (Sql.select p t).
Proof.
  unfold Sql.update, Sql.select. apply map_ext_in. intros x Hx.
  apply filter_In in Hx. destruct Hx as [_ ->]. reflexivity.
Qed.

Lemma db_with_menuItems_same d :
  DatabaseStorage.with_menuItems (DatabaseStorage.menuItems d) d = d.
Proof. destruct d; reflexivity. Qed.



Lemma db_updateMenuItem_get_same id m d :
  DatabaseStorage.getMenuItemById id
    (snd (DatabaseStorage.updateMenuItem id m d))
  = option_map (DatabaseStorage.set_menuItem m)
               (DatabaseStorage.getMenuItemById id d).
Proof.
  unfold DatabaseStorage.updateMenuItem, DatabaseStorage.getMenuItemById.
  cbn [snd DatabaseStorage.menuItems DatabaseStorage.with_menuItems].
  rewrite select_update by reflexivity.
  rewrite update_all. apply first_returning.
Qed.

Lemma db_updateMenuItem_get_other id id' m d :
  id' <> id ->
  DatabaseStorage.getMenuItemById id'
    (snd (DatabaseStorage.updateMenuItem id m d))
  = DatabaseStorage.getMenuItemById id' d.
Proof.
  intros Hne.
  unfold DatabaseStorage.updateMenuItem, DatabaseStorage.getMenuItemById.
  cbn [snd DatabaseStorage.menuItems DatabaseStorage.with_menuItems].
  rewrite select_update by reflexivity.
  rewrite update_no_match; [reflexivity|].
  intros x Hx. apply filter_In in Hx. destruct Hx as [_ Hx].
  apply Z.eqb_eq in Hx. apply Z.eqb_neq. congruence.
Qed.




End MenuUpdate.

(** ** The status of an order *)

Module OrderStatusFacts.

Import ListFacts JsMapFacts MemFrame.








Import Mongoose MongoStorage MongoHoare.
Local Open Scope mongo_scope.




End OrderStatusFacts.

(** ** Removing cart rows *)

Module CartRemoval.

Import ListFacts JsMapFacts MemFrame.

(** [removeFromCart] in [MemStorage]: the row goes, and [true] comes back,
    exactly when the row [id] exists and belongs to [userId]; otherwise
    [false] and the same state. *)
Lemma mem_removeFromCart_guarded id userId s :
  match JsMap.get id (MemStorage.cartItems s) with
  | Some cartItem =>
      if (CartItem.userId cartItem =? userId)%Z
      then MemStorage.removeFromCart id userId s
           = (true,
              MemStorage.with_cartItems
                (JsMap.delete id (MemStorage.cartItems s)) s)
      else MemStorage.removeFromCart id userId s = (false, s)
  | None => MemStorage.removeFromCart id userId s = (false, s)
  end.
Proof.
  unfold MemStorage.removeFromCart, JsMap.has.
  destruct (JsMap.get id (MemStorage.cartItems s)) as [c|]; [|reflexivity].
  destruct (CartItem.userId c =? userId)%Z; reflexivity.
Qed.

Lemma db_with_cartItems_same d :
  DatabaseStorage.with_cartItems (DatabaseStorage.cartItems d) d = d.
Proof. destruct d; reflexivity. Qed.

Lemma delete_no_match {A} (p : A -> bool) (t : list A) :
  (forall x, In x t -> p x = false) -> Sql.delete p t = t.
Proof.
  unfold Sql.delete. induction t as [|y r IH]; simpl; intros H; auto.
  rewrite (H y) by now left. simpl. f_equal. apply IH. intros x Hx.
  apply H. now right.
Qed.

(** [removeFromCart] in [DatabaseStorage] answers [true] whatever it
    deleted, and without a matching row the table is as before. *)
Lemma db_removeFromCart_true id userId d :
  fst (DatabaseStorage.removeFromCart id userId d) = true
  /\ ((forall c, In c (DatabaseStorage.cartItems d) ->
                 CartItem.id c = id -> CartItem.userId c <> userId) ->
      DatabaseStorage.removeFromCart id userId d = (true, d)).
Proof.
  split; [reflexivity|]. intros H. unfold DatabaseStorage.removeFromCart.
  unfold Js.truthy_object. f_equal.
  rewrite delete_no_match; [apply db_with_cartItems_same|].
  intros c Hc. apply andb_false_iff.
  destruct (Z.eqb_spec (CartItem.id c) id) as [E|E]; [|now left].
  right. apply Z.eqb_neq. now apply H.
Qed.

(** C9 (the defect).  In [DatabaseStorage], with the one cart row
    [{id: 1, userId: 1, menuItemId: 1, quantity: 2}], [removeFromCart(1, 2)]
    for another user and [removeFromCart(7, 1)] for a missing row both
    return [true]; the table is unchanged.  [MemStorage] returns [false]
    for both. *)
Theorem db_removeFromCart_reports_true :
  let d := DatabaseStorage.run [AddToCart Sample.two] DatabaseStorage.empty in
  let s := MemStorage.run [AddToCart Sample.two] MemStorage.init in
  DatabaseStorage.cartItems d = [Sample.row_two]
  /\ DatabaseStorage.removeFromCart 1 2 d = (true, d)
  /\ DatabaseStorage.removeFromCart 7 1 d = (true, d)
  /\ JsMap.values (MemStorage.cartItems s) = [Sample.row_two]
  /\ MemStorage.removeFromCart 1 2 s = (false, s)
  /\ MemStorage.removeFromCart 7 1 s = (false, s).
Proof. repeat split. Qed.

Lemma delete_as_filter {V} (k : Z) (m : JsMap.t V) :
  NoDup (JsMap.keys m) ->
  JsMap.delete k m = filter (fun e => negb (fst e =? k)%Z) m.
Proof.
  induction m as [|[k' v] r IH]; simpl; auto.
  intros H. inversion H as [|? ? Hk Hr]; subst.
  destruct (Z.eqb_spec k' k) as [->|Hne]; simpl.
  - symmetry. rewrite forallb_filter_id; [reflexivity|].
    apply forallb_forall. intros [k1 v1] Hin. simpl.
    destruct (Z.eqb_spec k1 k) as [->|]; [|reflexivity].
    exfalso. apply Hk. change k with (fst (k, v1)). now apply in_map.
  - now rewrite IH.
Qed.

Lemma NoDup_keys_filter {V} (p : Z * V -> bool) (m : JsMap.t V) :
  NoDup (JsMap.keys m) -> NoDup (JsMap.keys (filter p m)).
Proof. apply NoDup_map_filter. Qed.

Lemma filter_filter {A} (p q : A -> bool) (l : list A) :
  filter p (filter q l) = filter (fun x => q x && p x) l.
Proof.
  induction l as [|x r IH]; simpl; auto.
  destruct (q x); simpl; [destruct (p x)|]; now rewrite IH.
Qed.

Lemma fold_delete_as_filter (ids : list CartItem.t) :
  forall s,
    NoDup (JsMap.keys (MemStorage.cartItems s)) ->
    MemStorage.cartItems
      (fold_left
         (fun s' item =>
            MemStorage.with_cartItems
              (JsMap.delete (CartItem.id item) (MemStorage.cartItems s')) s')
         ids s)
    = filter (fun e => negb (existsb (fun item => (fst e =? CartItem.id item)%Z)
                                     ids))
             (MemStorage.cartItems s).
Proof.
  induction ids as [|item r IH]; intros s Hnd; simpl.
  - symmetry. apply forallb_filter_id. now apply forallb_forall.
  - rewrite IH; simpl.
    + rewrite delete_as_filter by assumption. rewrite filter_filter.
      apply filter_ext. intros e. now rewrite negb_orb.
    + rewrite delete_as_filter by assumption. now apply NoDup_keys_filter.
Qed.

Lemma filter_map_snd {V} (q : V -> bool) (m : JsMap.t V) :
  filter q (JsMap.values m) = JsMap.values (filter (fun e => q (snd e)) m).
Proof.
  unfold JsMap.values. induction m as [|[k v] r IH]; simpl; auto.
  destruct (q v); simpl; now rewrite IH.
Qed.

Lemma cart_wf_keyed s :
  cart_wf s ->
  keyed CartItem.id (MemStorage.cartItemIdCounter s) (MemStorage.cartItems s).
Proof. intros (Hnd & Hall & _). now split. Qed.

(** [clearCart] in [MemStorage] leaves the rows of the other users. *)
Lemma mem_clearCart_values userId s :
  keyed CartItem.id (MemStorage.cartItemIdCounter s) (MemStorage.cartItems s) ->
  JsMap.values (MemStorage.cartItems (snd (MemStorage.clearCart userId s)))
  = filter (fun c => negb (CartItem.userId c =? userId)%Z)
           (JsMap.values (MemStorage.cartItems s)).
Proof.
  intros [Hnd Hall]. unfold MemStorage.clearCart. cbn [snd].
  rewrite fold_delete_as_filter by exact Hnd.
  rewrite filter_map_snd. f_equal. apply filter_ext_in.
  rewrite Forall_forall in Hall.
  intros [k c] Hin. simpl. f_equal.
  destruct (Hall _ Hin) as [Hk _]. simpl in Hk.
  destruct (CartItem.userId c =? userId)%Z eqn:Eu.
  - apply existsb_exists. exists c. split; [|now apply Z.eqb_eq].
    unfold MemStorage.getCartItems. apply filter_In. split; [|assumption].
    unfold JsMap.values. change c with (snd (k, c)). now apply in_map.
  - apply not_true_is_false. intros H. apply existsb_exists in H.
    destruct H as (c' & Hc' & E). apply Z.eqb_eq in E.
    unfold MemStorage.getCartItems in Hc'. apply filter_In in Hc'.
    destruct Hc' as [Hc' Eu'].
    apply in_map_iff in Hc' as ([k' c''] & E' & Hin'). simpl in E'.
    subst c''. destruct (Hall _ Hin') as [Hk' _]. simpl in Hk'.
    assert (JsMap.get k' (MemStorage.cartItems s) = Some c') as G1
      by now apply In_get.
    assert (JsMap.get k (MemStorage.cartItems s) = Some c) as G2
      by now apply In_get.
    rewrite Hk', <- E, G2 in G1. injection G1 as ->. congruence.
Qed.


(** C10.  [clearCart(userId)] in [MemStorage] and [DatabaseStorage]
    returns [true] and removes exactly the cart items of [userId]: the
    cart keeps the rows of the other users, so [getCartItems(userId)] is
    empty afterwards and [getCartItems] of any other user is as before;
    users, menu items and orders are untouched. *)
Theorem clearCart_frame (mem_ops db_ops : list op) (userId userId' : Z) :
  let s := MemStorage.run mem_ops MemStorage.init in
  let s' := snd (MemStorage.clearCart userId s) in
  let d := DatabaseStorage.run db_ops DatabaseStorage.empty in
  let d' := snd (DatabaseStorage.clearCart userId d) in
  let others := fun c => negb (CartItem.userId c =? userId)%Z in
  (fst (MemStorage.clearCart userId s) = true
   /\ JsMap.values (MemStorage.cartItems s')
      = filter others (JsMap.values (MemStorage.cartItems s))
   /\ MemStorage.getCartItems userId s' = []
   /\ (userId' <> userId ->
       MemStorage.getCartItems userId' s' = MemStorage.getCartItems userId' s)
   /\ MemStorage.users s' = MemStorage.users s
   /\ MemStorage.menuItems s' = MemStorage.menuItems s
   /\ MemStorage.orders s' = MemStorage.orders s)
  /\ (fst (DatabaseStorage.clearCart userId d) = true
      /\ DatabaseStorage.cartItems d'
         = filter others (DatabaseStorage.cartItems d)
      /\ DatabaseStorage.getCartItems userId d' = []
      /\ (userId' <> userId ->
          DatabaseStorage.getCartItems userId' d'
          = DatabaseStorage.getCartItems userId' d)
      /\ DatabaseStorage.users d' = DatabaseStorage.users d
      /\ DatabaseStorage.menuItems d' = DatabaseStorage.menuItems d
      /\ DatabaseStorage.orders d' = DatabaseStorage.orders d).
Proof.
  intros s s' d d' others.
  assert (Hempty : forall l,
            filter (fun c => (CartItem.userId c =? userId)%Z)
                   (filter others l) = []).
  { intros l. rewrite filter_filter. induction l as [|c r IH]; simpl; auto.
    unfold others at 1. destruct (CartItem.userId c =? userId)%Z; auto. }
  assert (Hother : userId' <> userId -> forall l,
            filter (fun c => (CartItem.userId c =? userId')%Z)
                   (filter others l)
            = filter (fun c => (CartItem.userId c =? userId')%Z) l).
  { intros Hne l. rewrite filter_filter. apply filter_ext. intros c.
    unfold others.
    destruct (Z.eqb_spec (CartItem.userId c) userId) as [->|]; simpl; auto.
    symmetry. apply Z.eqb_neq. congruence. }
  assert (Hvalues := mem_clearCart_values userId s
                       (cart_wf_keyed _ (MemCart.mem_reachable_wf mem_ops))).
  fold s s' others in Hvalues.
  destruct (mem_clearCart_frame userId s) as (Hu & Hm & Ho & _).
  split.
  - split; [reflexivity|]. split; [exact Hvalues|].
    split; [|split; [|auto]].
    + unfold MemStorage.getCartItems. fold s'. rewrite Hvalues.
      apply Hempty.
    + intros Hne. unfold MemStorage.getCartItems. fold s'.
      rewrite Hvalues. now apply Hother.
  - split; [reflexivity|]. split; [reflexivity|].
    split; [|split; [|auto]].
    + apply Hempty.
    + intros Hne. now apply Hother.
Qed.

Lemma clearCart_frame_witness :
  let s := MemStorage.run [AddToCart Sample.two] MemStorage.init in
  let s' := snd (MemStorage.clearCart 1 s) in
  let d := DatabaseStorage.run [AddToCart Sample.two] DatabaseStorage.empty in
  let d' := snd (DatabaseStorage.clearCart 1 d) in
  MemStorage.getCartItems 1 s' = []
  /\ MemStorage.getCartItems 2 s' = MemStorage.getCartItems 2 s
  /\ DatabaseStorage.getCartItems 1 d' = []
  /\ DatabaseStorage.getCartItems 2 d' = DatabaseStorage.getCartItems 2 d.
Proof.
  intros s s' d d'.
  destruct (clearCart_frame [AddToCart Sample.two] [AddToCart Sample.two]
              1 2)
    as ((_ & _ & H3 & H4 & _) & (_ & _ & G3 & G4 & _)).
  split; [exact H3|]. split; [apply H4; lia|].
  split; [exact G3|apply G4; lia].
Defined.

End CartRemoval.

(** ** Orders and the menu *)

Module OrderSnapshot.

Import ListFacts JsMapFacts.
Local Set Warnings "-inexact-float".

Lemma float_neq (a b : float) :
  PrimFloat.eqb a a = true -> PrimFloat.eqb a b = false -> a <> b.
Proof. intros Ha Hab E. subst b. congruence. Qed.

(** C3 (as stated) fails.  User 1 orders two of menu item 1 (12.99);
    [getOrdersByUserId] shows the price 12.99.  After
    [updateMenuItem(1, ...)] with the price 12 it shows 12, and after
    [deleteMenuItem(1)] it shows no menu item in [MemStorage] and no item
    at all in [DatabaseStorage]. *)
Lemma order_prices_follow_menu :
  let s1 := MemStorage.run [CreateOrder 0 Sample.order1] MemStorage.init in
  let s2 := MemStorage.step (UpdateMenuItem 1 Sample.pizza) s1 in
  let s3 := MemStorage.step (DeleteMenuItem 1) s1 in
  let d1 := DatabaseStorage.run
              [CreateMenuItem Sample.pizza; CreateOrder 0 Sample.order1]
              DatabaseStorage.empty in
  let d3 := DatabaseStorage.step (DeleteMenuItem 1) d1 in
  map priced (MemStorage.getOrdersByUserId 1 s1)
  = [[(Some 12.99%float, 2%Z)]]
  /\ map priced (MemStorage.getOrdersByUserId 1 s2)
     = [[(Some 12%float, 2%Z)]]
  /\ map priced (MemStorage.getOrdersByUserId 1 s3) = [[(None, 2%Z)]]
  /\ map priced (MemStorage.getOrdersByUserId 1 s2)
     <> map priced (MemStorage.getOrdersByUserId 1 s1)
  /\ map priced (DatabaseStorage.getOrdersByUserId 1 d1)
     = [[(Some 12%float, 2%Z)]]
  /\ map priced (DatabaseStorage.getOrdersByUserId 1 d3) = [[]].
Proof.
  intros s1 s2 s3 d1 d3.
  assert (E1 : map priced (MemStorage.getOrdersByUserId 1 s1)
               = [[(Some 12.99%float, 2%Z)]]) by (vm_compute; reflexivity).
  assert (E2 : map priced (MemStorage.getOrdersByUserId 1 s2)
               = [[(Some 12%float, 2%Z)]]) by (vm_compute; reflexivity).
  split; [exact E1|]. split; [exact E2|].
  split; [vm_compute; reflexivity|].
  split; [|split; vm_compute; reflexivity].
  rewrite E1, E2. intros H.
  apply (f_equal (fun l : list (list (option float * Z)) =>
                    match l with
                    | [[(Some p, _)]] => p
                    | _ => 0%float
                    end)) in H.
  revert H. apply float_neq; vm_compute; reflexivity.
Qed.

Lemma mem_quantities_stored userId s :
  map quantities (MemStorage.getOrdersByUserId userId s)
  = map (fun order => (order, map OrderItem.quantity (Order.items order)))
        (filter (fun order => (Order.userId order =? userId)%Z)
                (JsMap.values (MemStorage.orders s))).
Proof.
  unfold MemStorage.getOrdersByUserId. rewrite map_map. apply map_ext.
  intros order. unfold quantities. simpl. f_equal.
  rewrite map_map. reflexivity.
Qed.

Lemma mem_edit_orders o s :
  edits_menu o = true ->
  MemStorage.orders (MemStorage.step o s) = MemStorage.orders s.
Proof.
  destruct o; try discriminate; intros _; simpl; [|reflexivity].
  unfold MemStorage.updateMenuItem.
  destruct (JsMap.get id (MemStorage.menuItems s)); reflexivity.
Qed.

Lemma db_quantities_same userId d d' :
  DatabaseStorage.orders d' = DatabaseStorage.orders d ->
  (forall id,
     DatabaseStorage.getMenuItemById id d' = None
     <-> DatabaseStorage.getMenuItemById id d = None) ->
  map quantities (DatabaseStorage.getOrdersByUserId userId d')
  = map quantities (DatabaseStorage.getOrdersByUserId userId d).
Proof.
  intros Ho Hm. unfold DatabaseStorage.getOrdersByUserId.
  rewrite Ho, !map_map. apply map_ext. intros order.
  unfold quantities. simpl. f_equal.
  induction (Order.items order) as [|item r IH]; simpl; auto.
  rewrite !map_app, IH. f_equal.
  specialize (Hm (OrderItem.menuItemId item)).
  destruct (DatabaseStorage.getMenuItemById (OrderItem.menuItemId item) d');
    destruct (DatabaseStorage.getMenuItemById (OrderItem.menuItemId item) d);
    try reflexivity.
  - destruct Hm as [_ Hm]. discriminate Hm. reflexivity.
  - destruct Hm as [Hm _]. discriminate Hm. reflexivity.
Qed.

(** The menu item that [getOrdersByUserId] attaches is the one stored under
    its id now. *)
Lemma mem_attached_is_current userId s ow it mi :
  menu_keyed s ->
  In ow (MemStorage.getOrdersByUserId userId s) ->
  In it (OrderWithItems.items ow) ->
  OrderItemWithDetails.menuItem it = Some mi ->
  MemStorage.getMenuItemById (MenuItem.id mi) s = Some mi.
Proof.
  intros Hk How Hit Hmi. unfold MemStorage.getOrdersByUserId in How.
  apply in_map_iff in How as (order & <- & _). simpl in Hit.
  apply in_map_iff in Hit as (item & <- & _). simpl in Hmi.
  unfold MemStorage.getMenuItemById in *.
  assert (Hin := get_In _ _ _ _ Hmi). unfold menu_keyed in Hk.
  rewrite Forall_forall in Hk. apply Hk in Hin. simpl in Hin.
  now rewrite <- Hin.
Qed.

(** C3 (as the code has it).  The items stored with an order are a
    snapshot: a menu edit ([updateMenuItem], [deleteMenuItem]) leaves the
    stored orders, and so [getOrderById] and [getAllOrders], as they are,
    and the orders and quantities that [getOrdersByUserId] returns are the
    stored ones (in [DatabaseStorage] after [updateMenuItem]).  The menu
    item it attaches to each quantity, and with it the price, is the one
    in the menu at the time of the call. *)
Theorem order_items_snapshot (mem_ops db_ops : list op) (o : op)
    (userId id : Z) (m : InsertMenuItem.t) :
  let s := MemStorage.run mem_ops MemStorage.init in
  let d := DatabaseStorage.run db_ops DatabaseStorage.empty in
  edits_menu o = true ->
  MemStorage.orders (MemStorage.step o s) = MemStorage.orders s
  /\ map quantities (MemStorage.getOrdersByUserId userId (MemStorage.step o s))
     = map quantities (MemStorage.getOrdersByUserId userId s)
  /\ (forall ow it mi,
        In ow (MemStorage.getOrdersByUserId userId (MemStorage.step o s)) ->
        In it (OrderWithItems.items ow) ->
        OrderItemWithDetails.menuItem it = Some mi ->
        MemStorage.getMenuItemById (MenuItem.id mi) (MemStorage.step o s)
        = Some mi)
  /\ DatabaseStorage.orders (DatabaseStorage.step o d)
     = DatabaseStorage.orders d
  /\ map quantities
       (DatabaseStorage.getOrdersByUserId userId
          (DatabaseStorage.step (UpdateMenuItem id m) d))
     = map quantities (DatabaseStorage.getOrdersByUserId userId d).
Proof.
  intros s d Ho.
  split; [now apply mem_edit_orders|]. split; [|split; [|split]].
  - rewrite !mem_quantities_stored. now rewrite mem_edit_orders.
  - intros ow it mi. apply mem_attached_is_current.
    apply MenuUpdate.menu_keyed_step, MenuUpdate.menu_keyed_run.
  - destruct o; try discriminate; reflexivity.
  - apply db_quantities_same; [reflexivity|]. intros id'.
    cbn [DatabaseStorage.step].
    destruct (Z.eq_dec id' id) as [->|Hne].
    + rewrite MenuUpdate.db_updateMenuItem_get_same.
      destruct (DatabaseStorage.getMenuItemById id d); simpl;
        split; congruence.
    + now rewrite MenuUpdate.db_updateMenuItem_get_other.
Qed.

Lemma order_items_snapshot_witness :
  let s := MemStorage.run [CreateOrder 0 Sample.order1] MemStorage.init in
  let d := DatabaseStorage.run
             [CreateMenuItem Sample.pizza; CreateOrder 0 Sample.order1]
             DatabaseStorage.empty in
  let o := UpdateMenuItem 1 Sample.pizza in
  MemStorage.orders (MemStorage.step o s) = MemStorage.orders s
  /\ map quantities (MemStorage.getOrdersByUserId 1 (MemStorage.step o s))
     = map quantities (MemStorage.getOrdersByUserId 1 s)
  /\ DatabaseStorage.orders (DatabaseStorage.step o d)
     = DatabaseStorage.orders d
  /\ map quantities
       (DatabaseStorage.getOrdersByUserId 1 (DatabaseStorage.step o d))
     = map quantities (DatabaseStorage.getOrdersByUserId 1 d).
Proof.
  intros s d o.
  destruct (order_items_snapshot [CreateOrder 0 Sample.order1]
              [CreateMenuItem Sample.pizza; CreateOrder 0 Sample.order1]
              (UpdateMenuItem 1 Sample.pizza) 1 1 Sample.pizza)
    as (H1 & H2 & _ & H4 & H5).
  - reflexivity.
  - split; [exact H1|]. split; [exact H2|]. split; [exact H4|exact H5].
Defined.

End OrderSnapshot.

(** ** Create, then read *)

Module CreateRead.

Import JsMapFacts.
Import Mongoose MongoStorage MongoHoare IdFacts.
Import Js (result, Ok, Throw).
Local Open Scope mongo_scope.

(** In [MemStorage] a created record is found under the id returned. *)
Lemma mem_create_then_get (insertUser : InsertUser.t)
    (insertMenuItem : InsertMenuItem.t) (now : Z)
    (insertOrder : InsertOrder.t) (s : MemStorage.state) :
  (let (r, s') := MemStorage.createUser insertUser s in
   MemStorage.getUser (User.id r) s' = Some r)
  /\ (let (r, s') := MemStorage.createMenuItem insertMenuItem s in
      MemStorage.getMenuItemById (MenuItem.id r) s' = Some r)
  /\ (let (r, s') := MemStorage.createOrder now insertOrder s in
      MemStorage.getOrderById (Order.id r) s' = Some r).
Proof.
  unfold MemStorage.getUser, MemStorage.getMenuItemById,
    MemStorage.getOrderById.
  simpl. rewrite !get_set_same. auto.
Qed.

(** Every menu item in the store has an identifier as the driver makes
    them: its leading digits are not all zero. *)
Definition driver_ids (w : world) : Prop :=
  forall d, In d (menuItems w) -> (2 ^ 24 <= MenuItemDocument._id d)%N.

Lemma driver_ids_stable : stable driver_ids.
Proof. intros c f w H. exact H. Qed.

Lemma find_driver_id (o : ObjectId.t) (l : list MenuItemDocument.t) :
  (o < 2 ^ 24)%N ->
  (forall d, In d l -> (2 ^ 24 <= MenuItemDocument._id d)%N) ->
  List.find (fun d => (MenuItemDocument._id d =? o)%N) l = None.
Proof.
  intros Ho H. destruct (List.find _ l) as [d|] eqn:E; [|reflexivity].
  apply find_some in E. destruct E as [Hin E]. apply N.eqb_eq in E.
  apply H in Hin. rewrite E in Hin. exfalso.
  apply (N.lt_irrefl o). eapply N.lt_le_trans; eassumption.
Qed.

Lemma getMenuItemById_misses (id : Z) :
  (0 <= id < 2 ^ 24)%Z ->
  triple driver_ids (getMenuItemById id) (fun r _ => r = None)
         (fun _ => False).
Proof.
  intros Hid. unfold getMenuItemById.
  apply triple_try with (Mid := fun _ => True);
    [|now apply triple_ret].
  apply triple_bind with (Mid := fun r _ => r = None);
    [|intros r; apply triple_ret; intros w ->; reflexivity].
  unfold MenuItem_findById.
  apply triple_call; [apply driver_ids_stable|trivial|].
  apply triple_bind
    with (Mid := fun o w => (o < 2 ^ 24)%N /\ driver_ids w).
  - unfold castId. rewrite stringId_toString.
    + rewrite cast_toString.
      * apply triple_ret. intros w Hw. split; [|exact Hw].
        change (2 ^ 24)%N with (Z.to_N (2 ^ 24)). apply Z2N.inj_lt; lia.
      * unfold ObjectId.valid.
        change (2 ^ 96)%N with (Z.to_N (2 ^ 96)). apply Z2N.inj_lt; lia.
    + split; [lia|]. eapply Z.lt_trans; [apply Hid|reflexivity].
  - intros o w [Ho Hw]. simpl. now apply find_driver_id.
Qed.

Lemma createMenuItem_driver_id e insertMenuItem :
  (2 ^ 24 <= new_id e)%N ->
  triple driver_ids (createMenuItem e insertMenuItem)
    (fun r w => driver_ids w /\ (0 <= MenuItem.id r < 2 ^ 24)%Z)
    (fun _ => True).
Proof.
  intros He. unfold createMenuItem.
  apply triple_try with (Mid := fun _ => True); [|now apply triple_throw].
  apply triple_bind with (Mid := fun _ w => driver_ids w).
  - unfold MenuItem_save.
    apply triple_call; [apply driver_ids_stable|trivial|].
    intros w Hw. destruct (existsb _ _); simpl; [exact I|].
    intros d Hd. apply in_app_or in Hd. destruct Hd as [Hd|[<-|[]]].
    + now apply Hw.
    + exact He.
  - intros saved. apply triple_ret. intros w Hw. split; [exact Hw|].
    apply numeric_id_range.
Qed.

(** In [MongoStorage], with identifiers as the driver makes them, the menu
    item that [createMenuItem] returns is not found under its id. *)
Lemma mongo_created_item_not_found e insertMenuItem w r w1 :
  driver_ids w -> (2 ^ 24 <= new_id e)%N ->
  createMenuItem e insertMenuItem w = (Ok r, w1) ->
  fst (getMenuItemById (MenuItem.id r) w1) = Ok None.
Proof.
  intros Hw He Hc.
  assert (H := createMenuItem_driver_id e insertMenuItem He w Hw).
  rewrite Hc in H. destruct H as [Hw1 Hid].
  assert (G := getMenuItemById_misses (MenuItem.id r) Hid w1 Hw1).
  destruct (getMenuItemById (MenuItem.id r) w1) as [[g|] w2];
    [simpl; now rewrite G|contradiction].
Qed.

(** C5 (the defect).  In [MongoStorage], [createMenuItem] with the
    driver's identifier 507f1f77bcf86cd799439012 returns a menu item with
    id 0x439012, and [getMenuItemById(0x439012)] returns [undefined]: it
    looks for the identifier 000000000000000000439012.  [createOrder] and
    [getOrderById] do the same.  [getUser], which falls back to a scan for
    the numeric id, finds the user created, and so do the other two
    backends. *)
Theorem mongo_create_then_get_fails :
  let w0 := MongoStorage.empty [] in
  let created := createMenuItem Sample.env2 Sample.pizza w0 in
  let ordered := createOrder Sample.env3 Sample.order1 w0 in
  let registered := createUser Sample.env1 Sample.alice w0 in
  let item := convertMenuItemDocToType Sample.pizza_doc in
  let user := convertUserDocToType Sample.alice_doc in
  fst created = Ok item
  /\ MenuItem.id item = 0x439012%Z
  /\ fst (getMenuItemById (MenuItem.id item) (snd created)) = Ok None
  /\ option_map OrderType.id
       (match fst ordered with Ok r => Some r | Throw => None end)
     = Some 0x439013%Z
  /\ fst (getOrderById 0x439013 (snd ordered)) = Ok None
  /\ fst registered = Ok user
  /\ fst (getUser (User.id user) (snd registered)) = Ok (Some user)
  /\ (let (r, s') := MemStorage.createMenuItem Sample.pizza MemStorage.init in
      MemStorage.getMenuItemById (MenuItem.id r) s' = Some r)
  /\ (let (r, d') :=
        DatabaseStorage.createMenuItem Sample.pizza DatabaseStorage.empty in
      DatabaseStorage.getMenuItemById (MenuItem.id r) d' = Some r).
Proof. repeat split; vm_compute; reflexivity. Qed.

End CreateRead.

(** ** Store failures and fallbacks in [MongoStorage] *)

Module Fallbacks.

Import Mongoose MongoStorage MongoHoare.
Import Js (result, Ok, Throw).
Local Open Scope mongo_scope.


Lemma call_ok {A} c f (body : M A) w :
  hd false (faults w) = false -> call c f body w = body (logged c f w).
Proof.
  intros H. unfold call, logged. destruct (faults w) as [|[] fs];
    [reflexivity|discriminate|reflexivity].
Qed.



(** [getUser] when the lookup by identifier finds nothing: it reads all
    users and returns the first whose numeric id is [id]. *)
Lemma getUser_falls_back id w o :
  faults w = [] ->
  ObjectId.cast (stringId id) = Some o ->
  List.find (fun d => (UserDocument._id d =? o)%N) (users w) = None ->
  getUser id w
  = (Ok (option_map convertUserDocToType
           (user_with_numeric_id id (users w))),
     logged2 Users findById Users find w).
Proof.
  intros Hf Hc Hfind. destruct w as [us ms cs os lg fl]. simpl in *.
  subst fl. unfold getUser, try_catch, bind, User_findById, User_find,
    call, castId.
  cbn [faults users tl]. rewrite Hc. unfold ret. cbn. rewrite Hfind.
  reflexivity.
Qed.





End Fallbacks.

(** ** Maps keyed by id, read as tables *)

Module Bridge.

Import JsMap JsMapFacts ListFacts.

Section Keyed.
Context {V : Type} (idf : V -> Z).

Lemma keyed_tail c e (m : JsMap.t V) : keyed idf c (e :: m) -> keyed idf c m.
Proof.
  intros [Hnd Hall]. inversion Hnd; inversion Hall; subst. now split.
Qed.

Lemma keyed_In c k v (m : JsMap.t V) :
  keyed idf c m -> In (k, v) m -> k = idf v /\ (k < c)%Z.
Proof.
  intros [_ Hall] Hin. rewrite Forall_forall in Hall. exact (Hall _ Hin).
Qed.

Lemma keyed_no_other c k v (m : JsMap.t V) r :
  keyed idf c ((k, v) :: m) -> In r (values m) -> (idf r =? k)%Z = false.
Proof.
  intros Hk Hin. apply in_map_iff in Hin as ([k' r'] & E & Hin).
  simpl in E. subst r'.
  destruct (keyed_In c k' r m (keyed_tail _ _ _ Hk) Hin) as [-> _].
  apply Z.eqb_neq. intros E. destruct Hk as [Hnd _].
  inversion Hnd as [|? ? Hnotin _]; subst. apply Hnotin.
  change (idf r) with (fst (idf r, r)). now apply in_map.
Qed.

Lemma keyed_weaken c c' (m : JsMap.t V) :
  (c <= c')%Z -> keyed idf c m -> keyed idf c' m.
Proof.
  intros Hle [Hnd Hall]. split; [assumption|].
  eapply Forall_impl; [|exact Hall]. simpl. intros e [? ?]. split; [auto|lia].
Qed.


Lemma keyed_counter_fresh c (m : JsMap.t V) : keyed idf c m -> get c m = None.
Proof.
  intros Hk. destruct (get c m) as [v|] eqn:E; [|reflexivity].
  apply get_In in E. apply (keyed_In c) in E; [|assumption]. lia.
Qed.

Lemma values_set_update c k (f : V -> V) v0 (m : JsMap.t V) :
  keyed idf c m -> get k m = Some v0 ->
  values (set k (f v0) m) = Sql.update (fun r => (idf r =? k)%Z) f (values m).
Proof.
  induction m as [|[k' v'] r IH]; intros Hk Hget; [discriminate|].
  destruct (keyed_In c k' v' _ Hk (or_introl eq_refl)) as [E _].
  simpl in *. rewrite <- E. destruct (Z.eqb_spec k' k) as [->|Hne].
  - injection Hget as ->. simpl. f_equal. symmetry.
    apply MenuUpdate.update_no_match. intros x Hx.
    eapply keyed_no_other; eauto.
  - simpl. f_equal. apply IH; [eapply keyed_tail; eauto|assumption].
Qed.

Lemma values_delete c k (m : JsMap.t V) :
  keyed idf c m ->
  values (delete k m) = Sql.delete (fun r => (idf r =? k)%Z) (values m).
Proof.
  induction m as [|[k' v'] r IH]; intros Hk; [reflexivity|].
  destruct (keyed_In c k' v' _ Hk (or_introl eq_refl)) as [E _].
  simpl in *. rewrite <- E. destruct (Z.eqb_spec k' k) as [->|Hne]; simpl.
  - symmetry. apply CartRemoval.delete_no_match. intros x Hx.
    eapply keyed_no_other; eauto.
  - f_equal. apply IH. eapply keyed_tail; eauto.
Qed.

Lemma keyed_set_fresh c v (m : JsMap.t V) :
  keyed idf c m -> idf v = c ->
  keyed idf (c + 1) (set c v m) /\ values (set c v m) = values m ++ [v].
Proof.
  intros Hk Hv. assert (Hnone := keyed_counter_fresh c m Hk).
  split; [|now apply values_set_fresh].
  rewrite set_fresh by assumption. destruct Hk as [Hnd Hall]. split.
  - unfold keys. rewrite map_app. simpl. apply NoDup_snoc; [assumption|].
    now apply get_None.
  - apply Forall_app. split.
    + eapply Forall_impl; [|exact Hall]. simpl. intros e [? ?].
      split; [auto|lia].
    + constructor; [|constructor]. simpl. split; [auto|lia].
Qed.

Lemma keyed_set_existing c k v v0 (m : JsMap.t V) :
  keyed idf c m -> get k m = Some v0 -> idf v = k -> keyed idf c (set k v m).
Proof.
  intros Hk Hget Hv.
  destruct (keyed_In c k v0 m Hk (get_In _ _ _ _ Hget)) as [_ Hlt].
  destruct Hk as [Hnd Hall]. split.
  - unfold keys. now rewrite (map_set _ _ fst k v v0 m Hget).
  - apply Forall_set; [assumption|]. simpl. auto.
Qed.

Lemma keyed_delete c k (m : JsMap.t V) :
  keyed idf c m -> keyed idf c (delete k m).
Proof.
  intros [Hnd Hall]. split.
  - now apply NoDup_map_delete.
  - now apply Forall_delete.
Qed.


End Keyed.




Lemma select_ext_in {A} (p q : A -> bool) (t : list A) :
  (forall x, In x t -> p x = q x) -> Sql.select p t = Sql.select q t.
Proof. intros H. unfold Sql.select. now apply filter_ext_in. Qed.

End Bridge.

(** ** [MemStorage] and [DatabaseStorage], request by request *)

Module Simulation.

Import Bridge JsMapFacts ListFacts.


Ltac parts H :=
  destruct H as (Hu & Hm & Hc & Ho & Cu & Cm & Cc & Co & Ku & Km & Kc & Ko
                 & Hq).

Ltac proj :=
  cbn [fst snd
       MemStorage.users MemStorage.menuItems MemStorage.cartItems
       MemStorage.orders MemStorage.userIdCounter
       MemStorage.menuItemIdCounter MemStorage.cartItemIdCounter
       MemStorage.orderIdCounter MemStorage.with_menuItems
       MemStorage.with_cartItems MemStorage.with_orders
       DatabaseStorage.users DatabaseStorage.menuItems
       DatabaseStorage.cartItems DatabaseStorage.orders
       DatabaseStorage.users_id_seq DatabaseStorage.menu_items_id_seq
       DatabaseStorage.cart_items_id_seq DatabaseStorage.orders_id_seq
       DatabaseStorage.with_menuItems DatabaseStorage.with_cartItems
       DatabaseStorage.with_orders].


Lemma existsb_false {A} (p : A -> bool) (l : list A) :
  (forall x, In x l -> p x = false) -> existsb p l = false.
Proof.
  intros H. induction l as [|x r IH]; simpl; auto.
  rewrite (H x) by now left. apply IH. intros y Hy. apply H. now right.
Qed.












Lemma keyed_get_row {V} (idf : V -> Z) c (m : JsMap.t V) x :
  keyed idf c m -> In x (JsMap.values m) -> JsMap.get (idf x) m = Some x.
Proof.
  intros Hk Hin. apply in_map_iff in Hin as ([k v] & E & Hin).
  simpl in E. subst v. destruct (keyed_In idf c k x m Hk Hin) as [-> _].
  apply In_get; [apply Hk|assumption].
Qed.

Lemma keyed_ids {V} (idf : V -> Z) c (m : JsMap.t V) :
  keyed idf c m -> map idf (JsMap.values m) = JsMap.keys m.
Proof.
  intros [_ Hall]. unfold JsMap.values, JsMap.keys. rewrite map_map.
  apply map_ext_in. intros e He. rewrite Forall_forall in Hall.
  symmetry. apply (Hall e He).
Qed.


Definition set_quantity (q : Z) (r : CartItem.t) : CartItem.t :=
  CartItem.mk (CartItem.id r) (CartItem.userId r) (CartItem.menuItemId r)
    (Some q).


















Lemma related_blank_empty : related MemStorage.blank DatabaseStorage.empty.
Proof.
  unfold related, keyed. cbn.
  repeat match goal with |- _ /\ _ => split end;
    try reflexivity; constructor.
Qed.

End Simulation.

(** ** The backends compared *)

Module Backends.

Import Mongoose MongoStorage.
Import Js (result, Ok, Throw).
Local Open Scope string_scope.








End Backends.

(** ** Numeric ids of object identifiers *)

Module IdCollisions.

Import MongoStorage.

(** X1.  Two object identifiers get the same numeric id exactly when they
    agree on their last six hexadecimal digits (their value modulo 2^24);
    every numeric id lies in [0, 2^24). *)
Theorem numeric_id_collides (a b : ObjectId.t) :
  (objectIdToNumericId a = objectIdToNumericId b
   <-> (a mod 2 ^ 24 = b mod 2 ^ 24)%N)
  /\ (0 <= objectIdToNumericId a < 2 ^ 24)%Z.
Proof.
  split; [|apply IdFacts.numeric_id_range].
  rewrite !IdFacts.objectIdToNumericId_spec. split.
  - apply N2Z.inj.
  - now intros ->.
Qed.

End IdCollisions.

(** ** The ids that [MemStorage] gives out *)

Module MemIds.

Import Bridge JsMapFacts ListFacts.

Lemma same_but_cart_keyed s s' :
  same_but_cart s s' ->
  keyed User.id (MemStorage.userIdCounter s) (MemStorage.users s) ->
  keyed MenuItem.id (MemStorage.menuItemIdCounter s) (MemStorage.menuItems s) ->
  keyed Order.id (MemStorage.orderIdCounter s) (MemStorage.orders s) ->
  keyed User.id (MemStorage.userIdCounter s') (MemStorage.users s')
  /\ keyed MenuItem.id (MemStorage.menuItemIdCounter s')
           (MemStorage.menuItems s')
  /\ keyed Order.id (MemStorage.orderIdCounter s') (MemStorage.orders s').
Proof.
  intros (Eu & Em & Eo & Cu & Cm & Co) Ku Km Ko.
  rewrite Eu, Em, Eo, Cu, Cm, Co. auto.
Qed.

Lemma mem_step_wf_all o s : mem_wf s -> mem_wf (MemStorage.step o s).
Proof.
  intros (Ku & Km & Kc & Ko).
  assert (Kc' := MemCart.mem_step_wf o s Kc).
  unfold mem_wf. split; [|split; [|split; [exact Kc'|]]]; clear Kc'.
  all: destruct o; cbn [MemStorage.step]; try assumption.
  all: try match goal with
       | |- context [MemStorage.addToCart ?c ?s] =>
           destruct (same_but_cart_keyed _ _
                       (MemFrame.mem_addToCart_frame c s) Ku Km Ko)
             as (? & ? & ?); assumption
       | |- context [MemStorage.removeFromCart ?i ?u ?s] =>
           destruct (same_but_cart_keyed _ _
                       (MemFrame.mem_removeFromCart_frame i u s) Ku Km Ko)
             as (? & ? & ?); assumption
       | |- context [MemStorage.updateCartItemQuantity ?i ?u ?q ?s] =>
           destruct (same_but_cart_keyed _ _
                       (MemFrame.mem_updateCartItemQuantity_frame i u q s)
                       Ku Km Ko)
             as (? & ? & ?); assumption
       | |- context [MemStorage.clearCart ?u ?s] =>
           destruct (same_but_cart_keyed _ _
                       (MemFrame.mem_clearCart_frame u s) Ku Km Ko)
             as (? & ? & ?); assumption
       end.
  all: try (unfold MemStorage.createUser, MemStorage.createMenuItem,
              MemStorage.createOrder, MemStorage.deleteMenuItem;
            cbn [snd MemStorage.users MemStorage.menuItems MemStorage.orders
                 MemStorage.userIdCounter MemStorage.menuItemIdCounter
                 MemStorage.orderIdCounter MemStorage.with_menuItems];
            first [ assumption
                  | now apply keyed_delete
                  | now apply (keyed_set_fresh _ _ _ _) ]).
  - unfold MemStorage.updateMenuItem.
    destruct (JsMap.get id (MemStorage.menuItems s)) as [old|] eqn:E;
      cbn [snd MemStorage.users MemStorage.userIdCounter
           MemStorage.with_menuItems]; assumption.
  - unfold MemStorage.updateOrderStatus.
    destruct (JsMap.get id (MemStorage.orders s)) as [old|] eqn:E;
      cbn [snd MemStorage.users MemStorage.userIdCounter
           MemStorage.with_orders]; assumption.
  - unfold MemStorage.updateMenuItem.
    destruct (JsMap.get id (MemStorage.menuItems s)) as [old|] eqn:E;
      cbn [snd MemStorage.menuItems MemStorage.menuItemIdCounter
           MemStorage.with_menuItems]; [|assumption].
    eapply keyed_set_existing; eauto. simpl.
    symmetry. apply (keyed_In MenuItem.id _ _ _ _ Km (get_In _ _ _ _ E)).
  - unfold MemStorage.updateOrderStatus.
    destruct (JsMap.get id (MemStorage.orders s)) as [old|] eqn:E;
      cbn [snd MemStorage.menuItems MemStorage.menuItemIdCounter
           MemStorage.with_orders]; assumption.
  - unfold MemStorage.updateMenuItem.
    destruct (JsMap.get id (MemStorage.menuItems s)) as [old|] eqn:E;
      cbn [snd MemStorage.orders MemStorage.orderIdCounter
           MemStorage.with_menuItems]; assumption.
  - unfold MemStorage.updateOrderStatus.
    destruct (JsMap.get id (MemStorage.orders s)) as [old|] eqn:E;
      cbn [snd MemStorage.orders MemStorage.orderIdCounter
           MemStorage.with_orders]; [|assumption].
    eapply keyed_set_existing; eauto. simpl.
    symmetry. apply (keyed_In Order.id _ _ _ _ Ko (get_In _ _ _ _ E)).
Qed.

Lemma mem_init_wf_all : mem_wf MemStorage.init.
Proof.
  split; [|split; [|split; [apply MemCart.mem_init_wf|]]];
    unfold keyed; cbn; split;
    repeat constructor; cbn; try lia; intuition discriminate.
Qed.

Lemma mem_run_wf_all ops : forall s, mem_wf s -> mem_wf (MemStorage.run ops s).
Proof.
  unfold MemStorage.run. induction ops as [|o r IH]; simpl; intros s H; auto.
  apply IH. now apply mem_step_wf_all.
Qed.

Lemma mem_reachable_wf_all ops : mem_wf (MemStorage.run ops MemStorage.init).
Proof. apply mem_run_wf_all, mem_init_wf_all. Qed.

(** No request lowers a counter. *)
Definition counters_le (s s' : MemStorage.state) : Prop :=
  (MemStorage.userIdCounter s <= MemStorage.userIdCounter s')%Z
  /\ (MemStorage.menuItemIdCounter s <= MemStorage.menuItemIdCounter s')%Z
  /\ (MemStorage.cartItemIdCounter s <= MemStorage.cartItemIdCounter s')%Z
  /\ (MemStorage.orderIdCounter s <= MemStorage.orderIdCounter s')%Z.

Lemma mem_clearCart_counter userId s :
  MemStorage.cartItemIdCounter (snd (MemStorage.clearCart userId s))
  = MemStorage.cartItemIdCounter s.
Proof.
  unfold MemStorage.clearCart. cbn [snd].
  generalize (MemStorage.getCartItems userId s) as l. intros l.
  generalize s as s0. induction l as [|x r IH]; intros s0; simpl; auto.
  now rewrite IH.
Qed.

Lemma mem_step_counters o s : counters_le s (MemStorage.step o s).
Proof.
  unfold counters_le.
  destruct o; cbn [MemStorage.step];
    try (repeat split; apply Z.le_refl).
  - unfold MemStorage.createUser. cbn. repeat split; lia.
  - unfold MemStorage.createMenuItem. cbn. repeat split; lia.
  - unfold MemStorage.updateMenuItem.
    destruct (JsMap.get _ _); cbn; repeat split; lia.
  - destruct (MemFrame.mem_addToCart_frame cartItem s)
      as (_ & _ & _ & Cu & Cm & Co).
    rewrite Cu, Cm, Co. repeat split; try lia.
    unfold MemStorage.addToCart, MemStorage.updateCartItemQuantity.
    repeat match goal with
           | |- context [match ?x with _ => _ end] => destruct x
           end; cbn; lia.
  - destruct (MemFrame.mem_removeFromCart_frame id userId s)
      as (_ & _ & _ & Cu & Cm & Co).
    rewrite Cu, Cm, Co. repeat split; try lia.
    unfold MemStorage.removeFromCart.
    repeat match goal with
           | |- context [match ?x with _ => _ end] => destruct x
           end; cbn; lia.
  - destruct (MemFrame.mem_updateCartItemQuantity_frame id userId quantity s)
      as (_ & _ & _ & Cu & Cm & Co).
    rewrite Cu, Cm, Co. repeat split; try lia.
    unfold MemStorage.updateCartItemQuantity.
    repeat match goal with
           | |- context [match ?x with _ => _ end] => destruct x
           end; cbn; lia.
  - destruct (MemFrame.mem_clearCart_frame userId s)
      as (_ & _ & _ & Cu & Cm & Co).
    rewrite Cu, Cm, Co, mem_clearCart_counter. repeat split; lia.
  - unfold MemStorage.createOrder. cbn. repeat split; lia.
  - unfold MemStorage.updateOrderStatus.
    destruct (JsMap.get _ _); cbn; repeat split; lia.
Qed.

Lemma mem_run_counters ops : forall s, counters_le s (MemStorage.run ops s).
Proof.
  unfold MemStorage.run. induction ops as [|o r IH]; simpl; intros s.
  - repeat split; apply Z.le_refl.
  - destruct (mem_step_counters o s) as (A1 & A2 & A3 & A4).
    destruct (IH (MemStorage.step o s)) as (B1 & B2 & B3 & B4).
    repeat split; lia.
Qed.

Lemma keyed_values_below {V} (idf : V -> Z) c (m : JsMap.t V) x :
  keyed idf c m -> In x (JsMap.values m) -> (idf x < c)%Z.
Proof.
  intros Hk Hin. apply in_map_iff in Hin as ([k v] & E & Hin).
  simpl in E. subst v. destruct (keyed_In idf c k x m Hk Hin) as [<- H].
  exact H.
Qed.

(** X2.  [MemStorage] never gives an id out twice.  Whatever requests
    were served before and are served in between, the id that a create
    returns is above the id of every record stored earlier, whether or not
    that record has been deleted since; [addToCart] either merges into a
    row of the cart or returns a row with such a new id. *)
Theorem mem_ids_never_reused (ops ops' : list op) (u : InsertUser.t)
    (m : InsertMenuItem.t) (c : InsertCartItem.t) (now : Z)
    (o : InsertOrder.t) :
  let s := MemStorage.run ops MemStorage.init in
  let s' := MemStorage.run ops' s in
  (forall x, In x (JsMap.values (MemStorage.users s)) ->
     (User.id x < User.id (fst (MemStorage.createUser u s')))%Z)
  /\ (forall x, In x (JsMap.values (MemStorage.menuItems s)) ->
        (MenuItem.id x < MenuItem.id (fst (MemStorage.createMenuItem m s')))%Z)
  /\ (forall x r, In x (JsMap.values (MemStorage.cartItems s)) ->
        fst (MemStorage.addToCart c s') = Some r ->
        In (CartItem.id r)
           (map CartItem.id (JsMap.values (MemStorage.cartItems s')))
        \/ (CartItem.id x < CartItem.id r)%Z)
  /\ (forall x, In x (JsMap.values (MemStorage.orders s)) ->
        (Order.id x < Order.id (fst (MemStorage.createOrder now o s')))%Z).
Proof.
  intros s s'.
  destruct (mem_reachable_wf_all ops) as (Ku & Km & Kc & Ko).
  destruct (mem_run_counters ops' s) as (Cu & Cm & Cc & Co).
  fold s in Ku, Km, Kc, Ko. fold s' in Cu, Cm, Cc, Co.
  split; [|split; [|split]].
  - intros x Hx. apply (keyed_values_below _ _ _ _ Ku) in Hx. simpl. lia.
  - intros x Hx. apply (keyed_values_below _ _ _ _ Km) in Hx. simpl. lia.
  - intros x r Hx Hr.
    apply (keyed_values_below _ _ _ _ (CartRemoval.cart_wf_keyed _ Kc)) in Hx.
    unfold MemStorage.addToCart in Hr.
    destruct (find _ (JsMap.values (MemStorage.cartItems s')))
      as [existing|] eqn:Hfind.
    + left. apply find_some in Hfind. destruct Hfind as [Hin _].
      destruct (mem_run_wf_all ops' s (mem_reachable_wf_all ops))
        as (_ & _ & Kc' & _). fold s' in Kc'.
      unfold MemStorage.updateCartItemQuantity in Hr.
      rewrite (MemCart.wf_get_row s' existing Kc' Hin) in Hr.
      destruct (negb _); [discriminate|]. simpl in Hr.
      injection Hr as <-. simpl.
      apply in_map_iff. exists existing. split; [reflexivity|assumption].
    + right. simpl in Hr. injection Hr as <-. simpl. lia.
  - intros x Hx. apply (keyed_values_below _ _ _ _ Ko) in Hx. simpl. lia.
Qed.

End MemIds.

(** ** User names in [MemStorage] *)

Module MemUsers.

Import Bridge JsMapFacts ListFacts MemIds.

Lemma find_snoc {A} (p : A -> bool) (l : list A) (x : A) :
  find p (l ++ [x])
  = match find p l with
    | Some y => Some y
    | None => if p x then Some x else None
    end.
Proof.
  induction l as [|a r IH]; simpl; [reflexivity|].
  destruct (p a); [reflexivity|exact IH].
Qed.



End MemUsers.

(** ** Deleting a menu item *)

Module MenuDeletion.

Import Bridge JsMapFacts ListFacts MemIds.

Lemma first_select_delete_same {A} (p : A -> bool) (t : list A) :
  Sql.first (Sql.select p (Sql.delete p t)) = None.
Proof.
  unfold Sql.first, Sql.select, Sql.delete.
  induction t as [|x r IH]; simpl; [reflexivity|].
  destruct (p x) eqn:E; simpl; [exact IH|]. now rewrite E.
Qed.

Lemma select_delete_other {A} (q p : A -> bool) (t : list A) :
  (forall x, q x = true -> p x = false) ->
  Sql.select q (Sql.delete p t) = Sql.select q t.
Proof.
  intros H. unfold Sql.select, Sql.delete.
  induction t as [|x r IH]; simpl; [reflexivity|].
  destruct (p x) eqn:E; simpl.
  - destruct (q x) eqn:Eq; [|exact IH].
    apply H in Eq. congruence.
  - destruct (q x); now rewrite IH.
Qed.

Lemma db_get_after_delete id id' d :
  DatabaseStorage.getMenuItemById id'
    (snd (DatabaseStorage.deleteMenuItem id d))
  = if (id' =? id)%Z then None else DatabaseStorage.getMenuItemById id' d.
Proof.
  unfold DatabaseStorage.getMenuItemById, DatabaseStorage.deleteMenuItem.
  cbn [snd DatabaseStorage.menuItems DatabaseStorage.with_menuItems].
  destruct (Z.eqb_spec id' id) as [->|Hne].
  - apply first_select_delete_same.
  - rewrite select_delete_other; [reflexivity|].
    intros x Hx. apply Z.eqb_eq in Hx. apply Z.eqb_neq. congruence.
Qed.

Lemma mem_get_after_delete id id' s :
  NoDup (JsMap.keys (MemStorage.menuItems s)) ->
  MemStorage.getMenuItemById id' (snd (MemStorage.deleteMenuItem id s))
  = if (id' =? id)%Z then None else MemStorage.getMenuItemById id' s.
Proof.
  intros Hnd. unfold MemStorage.getMenuItemById, MemStorage.deleteMenuItem.
  cbn [snd MemStorage.menuItems MemStorage.with_menuItems].
  destruct (Z.eqb_spec id' id) as [->|Hne].
  - now apply get_delete_same.
  - now apply get_delete_other.
Qed.

(** X4.  [deleteMenuItem] removes the item with the given id and nothing
    else: afterwards the id finds nothing, every other id finds what it
    found before, and users, cart rows and orders are as they were, also
    those that refer to the deleted item.  [MemStorage] answers whether
    the item existed; [DatabaseStorage] answers [true] in every case, and
    is unchanged when the item did not exist. *)
Theorem deleteMenuItem_removes_one (ops : list op)
    (d : DatabaseStorage.state) (id id' : Z) :
  let s := MemStorage.run ops MemStorage.init in
  let s' := snd (MemStorage.deleteMenuItem id s) in
  let d' := snd (DatabaseStorage.deleteMenuItem id d) in
  (fst (MemStorage.deleteMenuItem id s)
   = match MemStorage.getMenuItemById id s with
     | Some _ => true
     | None => false
     end
   /\ MemStorage.getMenuItemById id' s'
      = (if (id' =? id)%Z then None else MemStorage.getMenuItemById id' s)
   /\ MemStorage.users s' = MemStorage.users s
   /\ MemStorage.cartItems s' = MemStorage.cartItems s
   /\ MemStorage.orders s' = MemStorage.orders s)
  /\ (fst (DatabaseStorage.deleteMenuItem id d) = true
      /\ DatabaseStorage.getMenuItemById id' d'
         = (if (id' =? id)%Z then None
            else DatabaseStorage.getMenuItemById id' d)
      /\ (DatabaseStorage.getMenuItemById id d = None -> d' = d)
      /\ DatabaseStorage.users d' = DatabaseStorage.users d
      /\ DatabaseStorage.cartItems d' = DatabaseStorage.cartItems d
      /\ DatabaseStorage.orders d' = DatabaseStorage.orders d).
Proof.
  intros s s' d'.
  destruct (mem_reachable_wf_all ops) as (_ & Km & _). fold s in Km.
  split.
  - split; [reflexivity|]. split; [apply mem_get_after_delete, Km|].
    repeat split.
  - split; [reflexivity|]. split; [apply db_get_after_delete|].
    split; [|repeat split].
    intros Hnone. subst d'. unfold DatabaseStorage.deleteMenuItem. cbn [snd].
    rewrite CartRemoval.delete_no_match;
      [apply MenuUpdate.db_with_menuItems_same|].
    intros x Hx.
    apply (DbCart.first_select_None _ _ Hnone x Hx).
Qed.

(** What the joins show of a cart after a menu item is gone. *)
Lemma mem_details_after_delete id u s :
  NoDup (JsMap.keys (MemStorage.menuItems s)) ->
  MemStorage.getCartItemsWithDetails u (snd (MemStorage.deleteMenuItem id s))
  = map (fun e =>
           if (CartItem.menuItemId (CartItemWithDetails.item e) =? id)%Z
           then CartItemWithDetails.mk (CartItemWithDetails.item e) None
           else e)
        (MemStorage.getCartItemsWithDetails u s).
Proof.
  intros Hnd. unfold MemStorage.getCartItemsWithDetails.
  replace (MemStorage.getCartItems u (snd (MemStorage.deleteMenuItem id s)))
    with (MemStorage.getCartItems u s) by reflexivity.
  rewrite map_map. apply map_ext. intros c. cbn [CartItemWithDetails.item].
  rewrite (mem_get_after_delete id _ s Hnd).
  destruct (CartItem.menuItemId c =? id)%Z; reflexivity.
Qed.

Lemma db_details_after_delete id u d :
  DatabaseStorage.getCartItemsWithDetails u
    (snd (DatabaseStorage.deleteMenuItem id d))
  = filter (fun e =>
              negb (CartItem.menuItemId (CartItemWithDetails.item e) =? id)%Z)
           (DatabaseStorage.getCartItemsWithDetails u d).
Proof.
  unfold DatabaseStorage.getCartItemsWithDetails.
  replace (DatabaseStorage.getCartItems u
             (snd (DatabaseStorage.deleteMenuItem id d)))
    with (DatabaseStorage.getCartItems u d) by reflexivity.
  induction (DatabaseStorage.getCartItems u d) as [|c r IH];
    [reflexivity|].
  cbn [flat_map]. rewrite IH, db_get_after_delete.
  rewrite filter_app. f_equal.
  destruct (CartItem.menuItemId c =? id)%Z eqn:E.
  - destruct (DatabaseStorage.getMenuItemById _ d); simpl;
      [now rewrite E|reflexivity].
  - destruct (DatabaseStorage.getMenuItemById _ d); simpl;
      [now rewrite E|reflexivity].
Qed.

(** X5.  Deleting a menu item does not cascade to the carts.  The rows
    that refer to it stay in [getCartItems]; [getCartItemsWithDetails] of
    [MemStorage] still lists them, now without a menu item, and that of
    [DatabaseStorage] leaves exactly those rows out. *)
Theorem cart_rows_outlive_menu_item (ops : list op)
    (d : DatabaseStorage.state) (id u : Z) :
  let s := MemStorage.run ops MemStorage.init in
  let s' := snd (MemStorage.deleteMenuItem id s) in
  let d' := snd (DatabaseStorage.deleteMenuItem id d) in
  MemStorage.getCartItems u s' = MemStorage.getCartItems u s
  /\ MemStorage.getCartItemsWithDetails u s'
     = map (fun e =>
              if (CartItem.menuItemId (CartItemWithDetails.item e) =? id)%Z
              then CartItemWithDetails.mk (CartItemWithDetails.item e) None
              else e)
           (MemStorage.getCartItemsWithDetails u s)
  /\ DatabaseStorage.getCartItems u d' = DatabaseStorage.getCartItems u d
  /\ DatabaseStorage.getCartItemsWithDetails u d'
     = filter (fun e =>
                 negb (CartItem.menuItemId (CartItemWithDetails.item e)
                       =? id)%Z)
              (DatabaseStorage.getCartItemsWithDetails u d).
Proof.
  intros s s' d'.
  destruct (mem_reachable_wf_all ops) as (_ & Km & _). fold s in Km.
  split; [reflexivity|]. split; [apply mem_details_after_delete, Km|].
  split; [reflexivity|]. apply db_details_after_delete.
Qed.

End MenuDeletion.

(** ** One cart for each user *)

Module CartIsolation.

Import Bridge JsMapFacts ListFacts MemIds.

Lemma filter_update_other {A} (q p : A -> bool) (f : A -> A) (l : list A) :
  (forall x, In x l -> p x = true -> q x = false /\ q (f x) = false) ->
  filter q (Sql.update p f l) = filter q l.
Proof.
  unfold Sql.update. induction l as [|x r IH]; intros H; [reflexivity|].
  simpl. rewrite IH by (intros y Hy; apply H; now right).
  destruct (p x) eqn:E; [|reflexivity].
  destruct (H x (or_introl eq_refl) E) as [-> ->]. reflexivity.
Qed.

Lemma filter_delete_other {A} (q p : A -> bool) (l : list A) :
  (forall x, In x l -> q x = true -> p x = false) ->
  filter q (Sql.delete p l) = filter q l.
Proof.
  unfold Sql.delete. induction l as [|x r IH]; intros H; [reflexivity|].
  simpl. rewrite <- IH by (intros y Hy; apply H; now right).
  destruct (p x) eqn:E; simpl; [|reflexivity].
  destruct (q x) eqn:Eq; [|reflexivity].
  rewrite (H x (or_introl eq_refl) Eq) in E. discriminate.
Qed.

Definition with_quantity (q : option Z) (r : CartItem.t) : CartItem.t :=
  CartItem.mk (CartItem.id r) (CartItem.userId r) (CartItem.menuItemId r) q.

(** Setting the quantity of a row of user [u] shows in no other cart. *)
Lemma mem_set_quantity_other k u v q row s :
  cart_wf s -> JsMap.get k (MemStorage.cartItems s) = Some row ->
  CartItem.userId row = u -> u <> v ->
  filter (fun item => (CartItem.userId item =? v)%Z)
    (JsMap.values (JsMap.set k (with_quantity q row) (MemStorage.cartItems s)))
  = MemStorage.getCartItems v s.
Proof.
  intros Hwf Hget Hu Hne. assert (Kc := CartRemoval.cart_wf_keyed s Hwf).
  rewrite (values_set_update CartItem.id _ k (with_quantity q) row _ Kc Hget).
  apply filter_update_other. intros x Hx Hp. apply Z.eqb_eq in Hp.
  apply (Simulation.keyed_get_row CartItem.id _ _ _ Kc) in Hx.
  rewrite Hp, Hget in Hx. injection Hx as <-.
  simpl. split; apply Z.eqb_neq; congruence.
Qed.

Lemma mem_update_other id u q v s :
  cart_wf s -> u <> v ->
  MemStorage.getCartItems v
    (snd (MemStorage.updateCartItemQuantity id u q s))
  = MemStorage.getCartItems v s.
Proof.
  intros Hwf Hne. unfold MemStorage.updateCartItemQuantity.
  destruct (JsMap.get id (MemStorage.cartItems s)) as [row|] eqn:Hget;
    [|reflexivity].
  destruct (Z.eqb_spec (CartItem.userId row) u) as [Hu|Hu]; [|reflexivity].
  cbn [negb snd]. unfold MemStorage.getCartItems at 1.
  cbn [MemStorage.cartItems MemStorage.with_cartItems].
  now apply (mem_set_quantity_other id u v q row s).
Qed.

Lemma mem_cart_isolation o v s :
  cart_wf s -> cart_user o <> Some v ->
  MemStorage.getCartItems v (MemStorage.step o s) = MemStorage.getCartItems v s.
Proof.
  intros Hwf Hne. assert (Kc := CartRemoval.cart_wf_keyed s Hwf).
  destruct o; cbn [MemStorage.step cart_user] in *; try reflexivity.
  - unfold MemStorage.updateMenuItem. destruct (JsMap.get _ _); reflexivity.
  - assert (Hu : InsertCartItem.userId cartItem <> v) by congruence.
    unfold MemStorage.addToCart.
    destruct (find _ (JsMap.values (MemStorage.cartItems s)))
      as [existing|] eqn:Hfind.
    + now apply mem_update_other.
    + cbn [snd]. unfold MemStorage.getCartItems at 1.
      cbn [MemStorage.cartItems].
      destruct (keyed_set_fresh CartItem.id (MemStorage.cartItemIdCounter s)
                  (CartItem.mk (MemStorage.cartItemIdCounter s)
                     (InsertCartItem.userId cartItem)
                     (InsertCartItem.menuItemId cartItem)
                     (InsertCartItem.quantity cartItem))
                  (MemStorage.cartItems s) Kc eq_refl) as [_ Hv].
      rewrite Hv, filter_app. cbn [filter CartItem.userId].
      apply Z.eqb_neq in Hu. rewrite Hu. apply app_nil_r.
  - assert (Hu : userId <> v) by congruence.
    unfold MemStorage.removeFromCart.
    destruct (JsMap.get id (MemStorage.cartItems s)) as [row|] eqn:Hget;
      [|reflexivity].
    destruct (Z.eqb_spec (CartItem.userId row) userId) as [Hown|Hown];
      [|reflexivity].
    cbn [negb snd]. unfold MemStorage.getCartItems.
    cbn [MemStorage.cartItems MemStorage.with_cartItems].
    rewrite (values_delete CartItem.id _ _ _ Kc).
    apply filter_delete_other. intros x Hx Hq. apply Z.eqb_eq in Hq.
    apply Z.eqb_neq. intros Hid.
    apply (Simulation.keyed_get_row CartItem.id _ _ _ Kc) in Hx.
    rewrite Hid, Hget in Hx. injection Hx as <-. congruence.
  - apply mem_update_other; [assumption|congruence].
  - assert (Hu : userId <> v) by congruence.
    unfold MemStorage.getCartItems.
    rewrite (CartRemoval.mem_clearCart_values userId s Kc).
    change (filter (fun c => negb (CartItem.userId c =? userId)%Z)
              (JsMap.values (MemStorage.cartItems s)))
      with (Sql.delete (fun c => (CartItem.userId c =? userId)%Z)
              (JsMap.values (MemStorage.cartItems s))).
    apply filter_delete_other. intros x _ Hq. apply Z.eqb_eq in Hq.
    apply Z.eqb_neq. congruence.
  - unfold MemStorage.updateOrderStatus. destruct (JsMap.get _ _); reflexivity.
Qed.

Lemma db_update_other id u q v d :
  u <> v ->
  DatabaseStorage.getCartItems v
    (snd (DatabaseStorage.updateCartItemQuantity id u q d))
  = DatabaseStorage.getCartItems v d.
Proof.
  intros Hne. unfold DatabaseStorage.updateCartItemQuantity.
  destruct q as [q|]; [|reflexivity].
  cbn [snd]. unfold DatabaseStorage.getCartItems, Sql.select.
  cbn [DatabaseStorage.cartItems DatabaseStorage.with_cartItems].
  apply filter_update_other. intros x _ Hp.
  apply andb_true_iff in Hp. destruct Hp as [_ Hp]. apply Z.eqb_eq in Hp.
  simpl. split; apply Z.eqb_neq; congruence.
Qed.

Lemma db_cart_isolation o v d :
  cart_user o <> Some v ->
  DatabaseStorage.getCartItems v (DatabaseStorage.step o d)
  = DatabaseStorage.getCartItems v d.
Proof.
  intros Hne.
  destruct o; cbn [DatabaseStorage.step cart_user] in *; try reflexivity.
  - unfold DatabaseStorage.createUser. destruct (existsb _ _); reflexivity.
  - assert (Hu : InsertCartItem.userId cartItem <> v) by congruence.
    unfold DatabaseStorage.addToCart.
    destruct (Sql.first _) as [existing|].
    + now apply db_update_other.
    + cbn [snd]. unfold DatabaseStorage.getCartItems, Sql.select.
      cbn [DatabaseStorage.cartItems]. rewrite filter_app.
      cbn [filter CartItem.userId].
      apply Z.eqb_neq in Hu. rewrite Hu. apply app_nil_r.
  - assert (Hu : userId <> v) by congruence.
    unfold DatabaseStorage.removeFromCart, DatabaseStorage.getCartItems,
      Sql.select.
    cbn [snd DatabaseStorage.cartItems DatabaseStorage.with_cartItems].
    apply filter_delete_other. intros x _ Hq. apply Z.eqb_eq in Hq.
    apply andb_false_iff. right. apply Z.eqb_neq. congruence.
  - apply db_update_other. congruence.
  - assert (Hu : userId <> v) by congruence.
    unfold DatabaseStorage.clearCart, DatabaseStorage.getCartItems,
      Sql.select.
    cbn [snd DatabaseStorage.cartItems DatabaseStorage.with_cartItems].
    apply filter_delete_other. intros x _ Hq. apply Z.eqb_eq in Hq.
    apply Z.eqb_neq. congruence.
Qed.

(** X6.  The carts are isolated from one another.  A request that is not
    a cart request of user [v] (a cart request names its user; every other
    request names none) leaves what [getCartItems v] returns as it was, in
    [MemStorage] and in [DatabaseStorage]: nobody can add to, change or
    empty another user's cart. *)
Theorem carts_are_isolated (ops : list op) (d : DatabaseStorage.state)
    (o : op) (v : Z) :
  cart_user o <> Some v ->
  let s := MemStorage.run ops MemStorage.init in
  MemStorage.getCartItems v (MemStorage.step o s) = MemStorage.getCartItems v s
  /\ DatabaseStorage.getCartItems v (DatabaseStorage.step o d)
     = DatabaseStorage.getCartItems v d.
Proof.
  intros Hne s. split.
  - apply mem_cart_isolation; [apply MemCart.mem_reachable_wf|assumption].
  - now apply db_cart_isolation.
Qed.

Lemma carts_are_isolated_witness :
  let s := MemStorage.run [AddToCart Sample.two] MemStorage.init in
  let d := DatabaseStorage.run [AddToCart Sample.two]
             DatabaseStorage.empty in
  MemStorage.getCartItems 1 (MemStorage.step (ClearCart 2) s)
  = MemStorage.getCartItems 1 s
  /\ DatabaseStorage.getCartItems 1 (DatabaseStorage.step (ClearCart 2) d)
     = DatabaseStorage.getCartItems 1 d.
Proof.
  intros s d.
  apply (carts_are_isolated [AddToCart Sample.two] d (ClearCart 2) 1).
  vm_compute. discriminate.
Defined.

End CartIsolation.

(** ** Adding to the cart and removing again *)

Module AddRemove.

Import Bridge JsMapFacts ListFacts MemIds CartIsolation.

Lemma nodup_key_unique {A B} (key : A -> B) (l : list A) x y :
  NoDup (map key l) -> In x l -> In y l -> key x = key y -> x = y.
Proof.
  induction l as [|a r IH]; simpl; [tauto|].
  intros Hnd [->|Hx] [->|Hy] E; auto; inversion Hnd as [|? ? Hn Hr]; subst.
  - exfalso. apply Hn. rewrite E. now apply in_map.
  - exfalso. apply Hn. rewrite <- E. now apply in_map.
  - now apply IH.
Qed.

Lemma delete_update_same {A} (p : A -> bool) (f : A -> A) (l : list A) :
  (forall x, p (f x) = p x) ->
  Sql.delete p (Sql.update p f l) = Sql.delete p l.
Proof.
  intros H. unfold Sql.delete, Sql.update.
  induction l as [|x r IH]; simpl; [reflexivity|].
  destruct (p x) eqn:E.
  - rewrite H, E. simpl. exact IH.
  - rewrite E. simpl. now rewrite IH.
Qed.

Lemma same_pair_as_key c x :
  same_pair_as c x = true
  <-> cart_key x = (InsertCartItem.userId c, InsertCartItem.menuItemId c).
Proof. apply MemCart.same_pair_spec. Qed.

(** With one row per pair and one row per id, the row of a pair is the row
    of its id. *)
Lemma pair_is_id c existing rows x :
  NoDup (map CartItem.id rows) -> one_row_per_pair rows ->
  In existing rows -> same_pair_as c existing = true -> In x rows ->
  (CartItem.id x =? CartItem.id existing)%Z = same_pair_as c x.
Proof.
  intros Hid Hpair Hex Hsame Hx.
  destruct (same_pair_as c x) eqn:E.
  - apply Z.eqb_eq. f_equal.
    apply (nodup_key_unique cart_key rows); auto.
    apply same_pair_as_key in E. apply same_pair_as_key in Hsame.
    congruence.
  - apply Z.eqb_neq. intros Hk.
    assert (x = existing)
      by (apply (nodup_key_unique CartItem.id rows); auto).
    congruence.
Qed.

Lemma mem_add_then_remove c s :
  cart_wf s ->
  exists r,
    fst (MemStorage.addToCart c s) = Some r
    /\ fst (MemStorage.removeFromCart (CartItem.id r)
              (InsertCartItem.userId c) (snd (MemStorage.addToCart c s)))
       = true
    /\ JsMap.values
         (MemStorage.cartItems
            (snd (MemStorage.removeFromCart (CartItem.id r)
                    (InsertCartItem.userId c)
                    (snd (MemStorage.addToCart c s)))))
       = filter (fun x => negb (same_pair_as c x))
                (JsMap.values (MemStorage.cartItems s)).
Proof.
  intros Hwf. assert (Kc := CartRemoval.cart_wf_keyed s Hwf).
  assert (Hids : NoDup (map CartItem.id
                                (JsMap.values (MemStorage.cartItems s))))
    by (rewrite (Simulation.keyed_ids CartItem.id _ _ Kc); apply Kc).
  destruct (find (same_pair_as c) (JsMap.values (MemStorage.cartItems s)))
    as [existing|] eqn:Hfind.
  - apply find_some in Hfind. destruct Hfind as [Hin Hsame].
    assert (Hkey := proj1 (same_pair_as_key c existing) Hsame).
    rewrite (MemCart.mem_addToCart_merges c existing s Hwf Hin Hkey).
    cbn zeta. eexists. split; [reflexivity|].
    cbn [fst snd CartItem.id]. unfold MemStorage.removeFromCart.
    cbn [MemStorage.cartItems MemStorage.with_cartItems].
    unfold JsMap.has. rewrite get_set_same.
    cbn [CartItem.userId].
    assert (Hu : CartItem.userId existing = InsertCartItem.userId c)
      by (unfold cart_key in Hkey; congruence).
    replace (CartItem.userId existing =? InsertCartItem.userId c)%Z
      with true by (symmetry; now apply Z.eqb_eq).
    cbn [negb fst snd MemStorage.cartItems MemStorage.with_cartItems].
    split; [reflexivity|].
    assert (Hget := Simulation.keyed_get_row CartItem.id _ _ _ Kc Hin).
    set (f := with_quantity (js_add (CartItem.quantity existing)
                                    (InsertCartItem.quantity c))).
    assert (Kset : keyed CartItem.id (MemStorage.cartItemIdCounter s)
                     (JsMap.set (CartItem.id existing) (f existing)
                        (MemStorage.cartItems s)))
      by (eapply keyed_set_existing; eauto).
    change (JsMap.values
              (JsMap.delete (CartItem.id existing)
                 (JsMap.set (CartItem.id existing) (f existing)
                    (MemStorage.cartItems s)))
            = filter (fun x => negb (same_pair_as c x))
                (JsMap.values (MemStorage.cartItems s))).
    rewrite (values_delete CartItem.id _ _ _ Kset).
    rewrite (values_set_update CartItem.id _ _ f existing _ Kc Hget).
    rewrite delete_update_same by reflexivity.
    unfold Sql.delete. apply filter_ext_in. intros x Hx. f_equal.
    apply (pair_is_id c existing (JsMap.values (MemStorage.cartItems s)));
      try assumption.
    apply Hwf.
  - assert (Hnone := find_none _ _ Hfind).
    unfold MemStorage.addToCart. fold (same_pair_as c). rewrite Hfind.
    eexists. split; [reflexivity|].
    cbn [fst snd CartItem.id]. unfold MemStorage.removeFromCart.
    cbn [MemStorage.cartItems]. unfold JsMap.has. rewrite get_set_same.
    cbn [CartItem.userId]. rewrite Z.eqb_refl.
    cbn [negb fst snd MemStorage.cartItems MemStorage.with_cartItems].
    split; [reflexivity|].
    set (new := CartItem.mk (MemStorage.cartItemIdCounter s)
                  (InsertCartItem.userId c) (InsertCartItem.menuItemId c)
                  (InsertCartItem.quantity c)).
    destruct (keyed_set_fresh CartItem.id (MemStorage.cartItemIdCounter s)
                new (MemStorage.cartItems s) Kc eq_refl) as [Kset Hv].
    rewrite (values_delete CartItem.id _ _ _ Kset), Hv.
    unfold Sql.delete. rewrite filter_app. cbn [filter new CartItem.id].
    rewrite Z.eqb_refl. cbn [negb]. rewrite app_nil_r.
    apply filter_ext_in. intros x Hx. rewrite (Hnone x Hx). cbn [negb].
    apply negb_true_iff, Z.eqb_neq.
    apply (keyed_values_below _ _ _ _ Kc) in Hx. lia.
Qed.

Lemma db_add_then_remove c d r :
  db_cart_wf d ->
  fst (DatabaseStorage.addToCart c d) = Js.Ok (Some r) ->
  DatabaseStorage.cartItems
    (snd (DatabaseStorage.removeFromCart (CartItem.id r)
            (InsertCartItem.userId c) (snd (DatabaseStorage.addToCart c d))))
  = filter (fun x => negb (same_pair_as c x)) (DatabaseStorage.cartItems d).
Proof.
  intros (Hids & Hbelow & Hpair). unfold DatabaseStorage.addToCart.
  fold (same_pair_as c).
  destruct (Sql.first (Sql.select (same_pair_as c)
                                   (DatabaseStorage.cartItems d)))
    as [existing|] eqn:Hfirst.
  - apply DbCart.first_select_Some in Hfirst. destruct Hfirst as [Hin Hsame].
    assert (Hu : CartItem.userId existing = InsertCartItem.userId c).
    { apply same_pair_as_key in Hsame. unfold cart_key in Hsame. congruence. }
    unfold DatabaseStorage.updateCartItemQuantity.
    destruct (js_add _ _) as [q|]; [|discriminate].
    cbn [fst snd]. intros Hr.
    rewrite (DbCart.first_returning_id _ _ existing _ Hids Hin Hu) in Hr.
    injection Hr as <-. cbn [CartItem.id].
    unfold DatabaseStorage.removeFromCart.
    cbn [snd DatabaseStorage.cartItems DatabaseStorage.with_cartItems].
    rewrite delete_update_same by reflexivity.
    unfold Sql.delete. apply filter_ext_in. intros x Hx. f_equal.
    rewrite <- (pair_is_id c existing (DatabaseStorage.cartItems d) x)
      by assumption.
    destruct (Z.eqb_spec (CartItem.id x) (CartItem.id existing)) as [E|E];
      [|reflexivity].
    assert (x = existing)
      by (apply (nodup_key_unique CartItem.id (DatabaseStorage.cartItems d));
          auto).
    subst x. rewrite Hu. simpl. apply Z.eqb_refl.
  - assert (Hnone := DbCart.first_select_None _ _ Hfirst).
    cbn [fst snd]. intros [= <-]. cbn [CartItem.id].
    unfold DatabaseStorage.removeFromCart.
    cbn [snd DatabaseStorage.cartItems DatabaseStorage.with_cartItems].
    unfold Sql.delete. rewrite filter_app.
    cbn [filter CartItem.id CartItem.userId]. rewrite !Z.eqb_refl.
    cbn [andb negb]. rewrite app_nil_r.
    apply filter_ext_in. intros x Hx. rewrite (Hnone x Hx). cbn [negb].
    apply negb_true_iff, andb_false_iff. left. apply Z.eqb_neq.
    rewrite Forall_forall in Hbelow. specialize (Hbelow x Hx). lia.
Qed.

(** X7.  Removing the row that [addToCart] returned undoes the pair, not
    the addition: after [addToCart] and [removeFromCart] of the returned
    id for the same user, the cart holds the rows it held before except
    those of the pair, so a quantity that was merged into goes with it.
    [MemStorage.addToCart] always returns a row and the removal answers
    [true]. *)
Theorem add_then_remove_drops_pair (ops db_ops : list op)
    (c : InsertCartItem.t) :
  let s := MemStorage.run ops MemStorage.init in
  let d := DatabaseStorage.run db_ops DatabaseStorage.empty in
  (exists r,
     fst (MemStorage.addToCart c s) = Some r
     /\ fst (MemStorage.removeFromCart (CartItem.id r)
               (InsertCartItem.userId c) (snd (MemStorage.addToCart c s)))
        = true
     /\ JsMap.values
          (MemStorage.cartItems
             (snd (MemStorage.removeFromCart (CartItem.id r)
                     (InsertCartItem.userId c)
                     (snd (MemStorage.addToCart c s)))))
        = filter (fun x => negb (same_pair_as c x))
                 (JsMap.values (MemStorage.cartItems s)))
  /\ (forall r,
        fst (DatabaseStorage.addToCart c d) = Js.Ok (Some r) ->
        DatabaseStorage.cartItems
          (snd (DatabaseStorage.removeFromCart (CartItem.id r)
                  (InsertCartItem.userId c)
                  (snd (DatabaseStorage.addToCart c d))))
        = filter (fun x => negb (same_pair_as c x))
                 (DatabaseStorage.cartItems d)).
Proof.
  intros s d. split.
  - apply mem_add_then_remove, MemCart.mem_reachable_wf.
  - intros r. apply db_add_then_remove, DbCart.db_reachable_wf.
Qed.

Lemma add_then_remove_drops_pair_witness :
  let s := MemStorage.run [AddToCart Sample.two] MemStorage.init in
  let d := DatabaseStorage.run [AddToCart Sample.two]
             DatabaseStorage.empty in
  JsMap.values
    (MemStorage.cartItems
       (snd (MemStorage.removeFromCart 1 1
               (snd (MemStorage.addToCart Sample.three s))))) = []
  /\ DatabaseStorage.cartItems
       (snd (DatabaseStorage.removeFromCart 1 1
               (snd (DatabaseStorage.addToCart Sample.three d)))) = [].
Proof.
  intros s d.
  destruct (add_then_remove_drops_pair [AddToCart Sample.two]
              [AddToCart Sample.two] Sample.three)
    as [(r & Hr & _ & Hv) Hdb].
  vm_compute in Hr. injection Hr as <-. split.
  - etransitivity; [exact Hv|]. vm_compute. reflexivity.
  - etransitivity;
      [apply (Hdb (CartItem.mk 1 1 1 (Some 5%Z))); vm_compute; reflexivity|].
    vm_compute. reflexivity.
Defined.

End AddRemove.

(** ** The status of one order *)

Module OrderUpdate.

Import Bridge JsMapFacts ListFacts.

Lemma first_select_update_same {A} (p : A -> bool) (f : A -> A) (t : list A) :
  (forall x, p (f x) = p x) ->
  Sql.first (Sql.select p (Sql.update p f t))
  = option_map f (Sql.first (Sql.select p t)).
Proof.
  intros H. rewrite MenuUpdate.select_update by assumption.
  rewrite MenuUpdate.update_all. apply MenuUpdate.first_map_select.
Qed.

Lemma select_update_other {A} (q p : A -> bool) (f : A -> A) (t : list A) :
  (forall x, q (f x) = q x) -> (forall x, q x = true -> p x = false) ->
  Sql.select q (Sql.update p f t) = Sql.select q t.
Proof.
  intros Hq Hp. rewrite MenuUpdate.select_update by assumption.
  apply MenuUpdate.update_no_match. intros x Hx.
  apply filter_In in Hx. apply Hp. tauto.
Qed.

Lemma db_order_after_update id id' status d :
  DatabaseStorage.getOrderById id'
    (snd (DatabaseStorage.updateOrderStatus id status d))
  = if (id' =? id)%Z
    then option_map (DatabaseStorage.set_status status)
           (DatabaseStorage.getOrderById id d)
    else DatabaseStorage.getOrderById id' d.
Proof.
  unfold DatabaseStorage.getOrderById, DatabaseStorage.updateOrderStatus.
  cbn [snd DatabaseStorage.orders DatabaseStorage.with_orders].
  destruct (Z.eqb_spec id' id) as [->|Hne].
  - now apply first_select_update_same.
  - rewrite select_update_other; [reflexivity|reflexivity|].
    intros x Hx. apply Z.eqb_eq in Hx. apply Z.eqb_neq. congruence.
Qed.

(** X8.  [updateOrderStatus] changes the status of the order with the
    given id and nothing else.  When no order has the id it returns
    [undefined] and the state is as it was; otherwise it returns the stored
    order with the new status, all other fields kept, the id finds that
    order afterwards, every other id finds what it found before, and users,
    menu and carts are unchanged. *)
Theorem updateOrderStatus_frame (s : MemStorage.state)
    (d : DatabaseStorage.state) (id id' : Z) (status : OrderStatus.t) :
  let s' := snd (MemStorage.updateOrderStatus id status s) in
  let d' := snd (DatabaseStorage.updateOrderStatus id status d) in
  (fst (MemStorage.updateOrderStatus id status s)
   = option_map (DatabaseStorage.set_status status)
       (MemStorage.getOrderById id s)
   /\ MemStorage.getOrderById id' s'
      = (if (id' =? id)%Z
         then option_map (DatabaseStorage.set_status status)
                (MemStorage.getOrderById id s)
         else MemStorage.getOrderById id' s)
   /\ (MemStorage.getOrderById id s = None -> s' = s)
   /\ MemStorage.users s' = MemStorage.users s
   /\ MemStorage.menuItems s' = MemStorage.menuItems s
   /\ MemStorage.cartItems s' = MemStorage.cartItems s)
  /\ (fst (DatabaseStorage.updateOrderStatus id status d)
      = option_map (DatabaseStorage.set_status status)
          (DatabaseStorage.getOrderById id d)
      /\ DatabaseStorage.getOrderById id' d'
         = (if (id' =? id)%Z
            then option_map (DatabaseStorage.set_status status)
                   (DatabaseStorage.getOrderById id d)
            else DatabaseStorage.getOrderById id' d)
      /\ (DatabaseStorage.getOrderById id d = None -> d' = d)
      /\ DatabaseStorage.users d' = DatabaseStorage.users d
      /\ DatabaseStorage.menuItems d' = DatabaseStorage.menuItems d
      /\ DatabaseStorage.cartItems d' = DatabaseStorage.cartItems d).
Proof.
  intros s' d'. split.
  - subst s'. unfold MemStorage.updateOrderStatus, MemStorage.getOrderById.
    destruct (JsMap.get id (MemStorage.orders s)) as [old|] eqn:E;
      cbn [fst snd option_map MemStorage.orders MemStorage.users
           MemStorage.menuItems MemStorage.cartItems MemStorage.with_orders].
    + split; [reflexivity|]. split; [|split; [discriminate|repeat split]].
      destruct (Z.eqb_spec id' id) as [->|Hne];
        [apply get_set_same|now apply get_set_other].
    + split; [reflexivity|]. split; [|repeat split].
      destruct (Z.eqb_spec id' id) as [->|Hne]; [exact E|reflexivity].
  - split; [apply MenuUpdate.first_returning|].
    split; [apply db_order_after_update|]. split; [|repeat split].
    intros Hnone. subst d'. unfold DatabaseStorage.updateOrderStatus.
    cbn [snd]. rewrite MenuUpdate.update_no_match.
    + destruct d; reflexivity.
    + intros x Hx. apply (DbCart.first_select_None _ _ Hnone x Hx).
Qed.

End OrderUpdate.

(** ** The ids of [DatabaseStorage] *)

Module DbIds.

Import Bridge JsMapFacts ListFacts.

Lemma ids_below_weaken {R} (idf : R -> Z) c c' (t : list R) :
  (c <= c')%Z -> ids_below idf c t -> ids_below idf c' t.
Proof.
  intros Hle [Hnd Hall]. split; [assumption|].
  eapply Forall_impl; [|exact Hall]. simpl. intros. lia.
Qed.

Lemma ids_below_snoc {R} (idf : R -> Z) c (t : list R) r :
  idf r = c -> ids_below idf c t -> ids_below idf (c + 1) (t ++ [r]).
Proof.
  intros Hr [Hnd Hall]. split.
  - rewrite map_app. simpl. apply NoDup_snoc; [assumption|].
    intros Hin. apply in_map_iff in Hin as (x & E & Hx).
    rewrite Forall_forall in Hall. specialize (Hall x Hx). lia.
  - apply Forall_app. split.
    + eapply Forall_impl; [|exact Hall]. simpl. intros. lia.
    + constructor; [lia|constructor].
Qed.

Lemma ids_below_update {R} (idf : R -> Z) c p (f : R -> R) (t : list R) :
  (forall x, idf (f x) = idf x) ->
  ids_below idf c t -> ids_below idf c (Sql.update p f t).
Proof.
  intros Hf [Hnd Hall]. unfold Sql.update. split.
  - now rewrite map_ext_update.
  - apply Forall_map. eapply Forall_impl; [|exact Hall]. simpl.
    intros a Ha. destruct (p a); [rewrite Hf|]; exact Ha.
Qed.

Lemma ids_below_delete {R} (idf : R -> Z) c p (t : list R) :
  ids_below idf c t -> ids_below idf c (Sql.delete p t).
Proof.
  intros [Hnd Hall]. unfold Sql.delete. split.
  - now apply NoDup_map_filter.
  - rewrite Forall_forall in *. intros x Hx. apply filter_In in Hx.
    apply Hall. tauto.
Qed.

(** The cart statements leave the other tables and sequences alone. *)
Definition db_same_but_cart (d d' : DatabaseStorage.state) : Prop :=
  DatabaseStorage.users d' = DatabaseStorage.users d
  /\ DatabaseStorage.menuItems d' = DatabaseStorage.menuItems d
  /\ DatabaseStorage.orders d' = DatabaseStorage.orders d
  /\ DatabaseStorage.users_id_seq d' = DatabaseStorage.users_id_seq d
  /\ DatabaseStorage.menu_items_id_seq d' = DatabaseStorage.menu_items_id_seq d
  /\ DatabaseStorage.orders_id_seq d' = DatabaseStorage.orders_id_seq d.

Lemma db_cart_ops_frame o d :
  cart_user o <> None -> db_same_but_cart d (DatabaseStorage.step o d).
Proof.
  intros H. destruct o; cbn [cart_user] in H; try congruence;
    cbn [DatabaseStorage.step].
  - unfold DatabaseStorage.addToCart, DatabaseStorage.updateCartItemQuantity.
    destruct (Sql.first _); [destruct (js_add _ _)|]; repeat split.
  - repeat split.
  - unfold DatabaseStorage.updateCartItemQuantity.
    destruct quantity; repeat split.
  - repeat split.
Qed.

Lemma db_step_wf_all o d : db_wf d -> db_wf (DatabaseStorage.step o d).
Proof.
  intros (Hu & Hn & Hm & Hc & Ho).
  assert (Hc' := DbCart.db_step_wf o d Hc).
  destruct (cart_user o) eqn:Ecart.
  { destruct (db_cart_ops_frame o d) as (Eu & Em & Eo & Su & Sm & So);
      [congruence|].
    unfold db_wf. rewrite Eu, Em, Eo, Su, Sm, So. auto. }
  assert (Hname : forall u0,
            existsb (fun x => String.eqb (User.username x)
                                         (InsertUser.username u0))
                    (DatabaseStorage.users d) = false ->
            ~ In (InsertUser.username u0)
                 (map User.username (DatabaseStorage.users d))).
  { intros u0 E Hin. apply in_map_iff in Hin as (x & Ex & Hx).
    assert (existsb (fun x => String.eqb (User.username x)
                                         (InsertUser.username u0))
              (DatabaseStorage.users d) = true); [|congruence].
    apply existsb_exists. exists x. split; [assumption|].
    now apply String.eqb_eq. }
  unfold db_wf. split; [|split; [|split; [|split; [exact Hc'|]]]];
    clear Hc'; destruct o; cbn [cart_user] in Ecart; try discriminate;
    cbn [DatabaseStorage.step]; try assumption;
    unfold DatabaseStorage.createUser, DatabaseStorage.createMenuItem,
      DatabaseStorage.updateMenuItem, DatabaseStorage.deleteMenuItem,
      DatabaseStorage.createOrder, DatabaseStorage.updateOrderStatus;
    try (destruct (existsb _ (DatabaseStorage.users d)) eqn:E);
    cbn [snd DatabaseStorage.users DatabaseStorage.menuItems
         DatabaseStorage.orders DatabaseStorage.users_id_seq
         DatabaseStorage.menu_items_id_seq DatabaseStorage.orders_id_seq
         DatabaseStorage.with_menuItems DatabaseStorage.with_orders];
    try assumption;
    first [ now apply ids_below_snoc
          | now apply ids_below_update
          | now apply ids_below_delete
          | (eapply ids_below_weaken; [|eassumption]; lia)
          | (rewrite map_app; simpl; apply NoDup_snoc;
             [assumption|now apply Hname]) ].
Qed.

Lemma db_empty_wf_all : db_wf DatabaseStorage.empty.
Proof.
  unfold db_wf, ids_below. cbn.
  repeat split; try constructor.
Qed.

Lemma db_run_wf_all ops : forall d,
  db_wf d -> db_wf (DatabaseStorage.run ops d).
Proof.
  unfold DatabaseStorage.run. induction ops as [|o r IH]; simpl; intros d H;
    auto.
  apply IH. now apply db_step_wf_all.
Qed.

Lemma db_reachable_wf_all ops :
  db_wf (DatabaseStorage.run ops DatabaseStorage.empty).
Proof. apply db_run_wf_all, db_empty_wf_all. Qed.

End DbIds.

(** ** Create, then read, in [DatabaseStorage] *)

Module DbRoundTrip.

Import Bridge JsMapFacts ListFacts DbIds.

Lemma first_select_snoc_new {A} (p : A -> bool) (t : list A) (r : A) :
  (forall x, In x t -> p x = false) -> p r = true ->
  Sql.first (Sql.select p (t ++ [r])) = Some r.
Proof.
  intros Hold Hnew. unfold Sql.first, Sql.select. rewrite filter_app.
  replace (filter p t) with (@nil A).
  - simpl. now rewrite Hnew.
  - symmetry. induction t as [|x t IH]; [reflexivity|]. simpl.
    rewrite (Hold x (or_introl eq_refl)). apply IH.
    intros y Hy. apply Hold. now right.
Qed.

Lemma below_no_match {R} (idf : R -> Z) c (t : list R) :
  ids_below idf c t -> forall x, In x t -> (idf x =? c)%Z = false.
Proof.
  intros [_ Hall] x Hx. rewrite Forall_forall in Hall.
  specialize (Hall x Hx). apply Z.eqb_neq. lia.
Qed.

Lemma existsb_name_false u (t : list User.t) :
  existsb (fun x => String.eqb (User.username x) (InsertUser.username u)) t
  = false ->
  forall x, In x t ->
    String.eqb (User.username x) (InsertUser.username u) = false.
Proof.
  intros E x Hx. destruct (String.eqb _ _) eqn:Ex; [|reflexivity].
  assert (existsb (fun x => String.eqb (User.username x)
                                       (InsertUser.username u)) t = true);
    [|congruence].
  apply existsb_exists. eauto.
Qed.

(** An accepted user is appended, and the id and the name find it. *)
Lemma db_createUser_accepted u d :
  ids_below User.id (DatabaseStorage.users_id_seq d)
            (DatabaseStorage.users d) ->
  existsb (fun x => String.eqb (User.username x) (InsertUser.username u))
          (DatabaseStorage.users d) = false ->
  exists r,
    DatabaseStorage.createUser u d
    = (Js.Ok r,
       DatabaseStorage.mkState (DatabaseStorage.users d ++ [r])
         (DatabaseStorage.menuItems d) (DatabaseStorage.cartItems d)
         (DatabaseStorage.orders d) (DatabaseStorage.users_id_seq d + 1)
         (DatabaseStorage.menu_items_id_seq d)
         (DatabaseStorage.cart_items_id_seq d)
         (DatabaseStorage.orders_id_seq d))
    /\ User.username r = InsertUser.username u
    /\ User.password r = InsertUser.password u
    /\ DatabaseStorage.getUser (User.id r)
         (snd (DatabaseStorage.createUser u d)) = Some r
    /\ DatabaseStorage.getUserByUsername (InsertUser.username u)
         (snd (DatabaseStorage.createUser u d)) = Some r.
Proof.
  intros Hu E. assert (Hno := existsb_name_false u _ E).
  unfold DatabaseStorage.createUser. rewrite E. eexists.
  split; [reflexivity|]. split; [reflexivity|]. split; [reflexivity|].
  cbn [snd]. split.
  - unfold DatabaseStorage.getUser. cbn [DatabaseStorage.users User.id].
    apply first_select_snoc_new;
      [apply (below_no_match User.id _ _ Hu)|apply Z.eqb_refl].
  - unfold DatabaseStorage.getUserByUsername. cbn [DatabaseStorage.users].
    apply first_select_snoc_new; [exact Hno|apply String.eqb_refl].
Qed.

(** X9.  The [users] table of [DatabaseStorage] never holds two users of
    the same name.  [createUser] with a name that is taken is rejected and
    stores nothing; with a new name it appends the user, whom the returned
    id and the name then find. *)
Theorem db_usernames_unique (ops : list op) (u : InsertUser.t) :
  let d := DatabaseStorage.run ops DatabaseStorage.empty in
  let d' := snd (DatabaseStorage.createUser u d) in
  NoDup (map User.username (DatabaseStorage.users d))
  /\ match fst (DatabaseStorage.createUser u d) with
     | Js.Throw =>
         (exists x, In x (DatabaseStorage.users d)
                    /\ User.username x = InsertUser.username u)
         /\ DatabaseStorage.users d' = DatabaseStorage.users d
     | Js.Ok r =>
         (forall x, In x (DatabaseStorage.users d) ->
                    User.username x <> InsertUser.username u)
         /\ DatabaseStorage.users d' = DatabaseStorage.users d ++ [r]
         /\ DatabaseStorage.getUser (User.id r) d' = Some r
         /\ DatabaseStorage.getUserByUsername (InsertUser.username u) d'
            = Some r
     end.
Proof.
  intros d d'. destruct (db_reachable_wf_all ops) as (Hu & Hn & _).
  fold d in Hu, Hn. split; [exact Hn|]. subst d'.
  destruct (existsb (fun x => String.eqb (User.username x)
                                         (InsertUser.username u))
                    (DatabaseStorage.users d)) eqn:E.
  - unfold DatabaseStorage.createUser. rewrite E. cbn [fst snd].
    split; [|reflexivity]. apply existsb_exists in E.
    destruct E as (x & Hx & Ex). exists x. split; [assumption|].
    now apply String.eqb_eq.
  - destruct (db_createUser_accepted u d Hu E)
      as (r & Hc & _ & _ & Hget & Hname).
    rewrite Hc in *. cbn [fst snd] in *.
    split; [|split; [reflexivity|split; assumption]].
    intros x Hx Ex. apply (existsb_name_false u _ E) in Hx.
    apply String.eqb_neq in Hx. contradiction.
Qed.

(** X10.  In [DatabaseStorage] a created menu item or order is found
    under the id that the create returned, whatever was created, updated
    or deleted before. *)
Theorem db_create_then_get (ops : list op) (m : InsertMenuItem.t) (now : Z)
    (o : InsertOrder.t) :
  let d := DatabaseStorage.run ops DatabaseStorage.empty in
  (let r := fst (DatabaseStorage.createMenuItem m d) in
   DatabaseStorage.getMenuItemById (MenuItem.id r)
     (snd (DatabaseStorage.createMenuItem m d)) = Some r)
  /\ (let r := fst (DatabaseStorage.createOrder now o d) in
      DatabaseStorage.getOrderById (Order.id r)
        (snd (DatabaseStorage.createOrder now o d)) = Some r).
Proof.
  intros d. destruct (db_reachable_wf_all ops) as (_ & _ & Hm & _ & Ho).
  fold d in Hm, Ho. split; cbn zeta.
  - unfold DatabaseStorage.getMenuItemById, DatabaseStorage.createMenuItem.
    cbn [fst snd DatabaseStorage.menuItems MenuItem.id].
    apply first_select_snoc_new;
      [apply (below_no_match MenuItem.id _ _ Hm)|apply Z.eqb_refl].
  - unfold DatabaseStorage.getOrderById, DatabaseStorage.createOrder.
    cbn [fst snd DatabaseStorage.orders Order.id].
    apply first_select_snoc_new;
      [apply (below_no_match Order.id _ _ Ho)|apply Z.eqb_refl].
Qed.

End DbRoundTrip.

(** ** Seeding the database *)

Module DbSeed.

Import Bridge JsMapFacts ListFacts DbIds.
Import Js (result, Ok, Throw).

Lemma createUser_menu u d :
  DatabaseStorage.menuItems (snd (DatabaseStorage.createUser u d))
  = DatabaseStorage.menuItems d.
Proof.
  unfold DatabaseStorage.createUser. destruct (existsb _ _); reflexivity.
Qed.

Lemma seeded_menu_length items : forall d,
  List.length
    (DatabaseStorage.menuItems
       (fold_left (fun s item => snd (DatabaseStorage.createMenuItem item s))
                  items d))
  = (List.length (DatabaseStorage.menuItems d) + List.length items)%nat.
Proof.
  induction items as [|i r IH]; intros d; cbn [fold_left List.length];
    [lia|].
  rewrite IH. unfold DatabaseStorage.createMenuItem.
  cbn [snd DatabaseStorage.menuItems]. rewrite length_app. simpl. lia.
Qed.

Lemma seeded_users items : forall d,
  DatabaseStorage.users
    (fold_left (fun s item => snd (DatabaseStorage.createMenuItem item s))
               items d)
  = DatabaseStorage.users d.
Proof.
  induction items as [|i r IH]; intros d; cbn [fold_left]; [reflexivity|].
  now rewrite IH.
Qed.

(** X11.  [seedInitialData] seeds a database whose menu table is empty
    and no other.  A run that succeeded makes the next run a no-op; a
    database with a menu is left as it is; and when the menu is empty but
    a user "admin" exists, the insert of the admin user is rejected and
    no menu item is seeded. *)
Theorem db_seed_once (d : DatabaseStorage.state) :
  (fst (DatabaseStorage.seedInitialData d) = Ok tt ->
   DatabaseStorage.seedInitialData (snd (DatabaseStorage.seedInitialData d))
   = (Ok tt, snd (DatabaseStorage.seedInitialData d)))
  /\ (DatabaseStorage.menuItems d <> [] ->
      DatabaseStorage.seedInitialData d = (Ok tt, d))
  /\ (DatabaseStorage.menuItems d = [] ->
      (exists x, In x (DatabaseStorage.users d)
                 /\ User.username x = "admin"%string) ->
      fst (DatabaseStorage.seedInitialData d) = Throw
      /\ DatabaseStorage.menuItems (snd (DatabaseStorage.seedInitialData d))
         = [])
  /\ (DatabaseStorage.menuItems d = [] ->
      (forall x, In x (DatabaseStorage.users d) ->
                 User.username x <> "admin"%string) ->
      fst (DatabaseStorage.seedInitialData d) = Ok tt
      /\ List.length
           (DatabaseStorage.menuItems
              (snd (DatabaseStorage.seedInitialData d))) = 8%nat
      /\ List.length
           (DatabaseStorage.users (snd (DatabaseStorage.seedInitialData d)))
         = S (List.length (DatabaseStorage.users d))).
Proof.
  assert (Hfull : forall d0, DatabaseStorage.menuItems d0 <> [] ->
            DatabaseStorage.seedInitialData d0 = (Ok tt, d0)).
  { intros d0 H. unfold DatabaseStorage.seedInitialData.
    destruct (DatabaseStorage.menuItems d0); [contradiction|reflexivity]. }
  split; [|split; [apply Hfull|split]].
  - intros Hok. apply Hfull. revert Hok.
    unfold DatabaseStorage.seedInitialData.
    destruct (DatabaseStorage.menuItems d) eqn:Em; cbn [List.length Nat.eqb].
    + destruct (DatabaseStorage.createUser Seed.admin d) as [[r|] d1] eqn:Ec;
        [|discriminate].
      intros _ Hnil. cbn [snd] in Hnil.
      apply (f_equal (@List.length _)) in Hnil.
      rewrite seeded_menu_length in Hnil.
      change (List.length Seed.dbMenuItemsData) with 8%nat in Hnil.
      simpl in Hnil. lia.
    + intros _. cbn [snd]. congruence.
  - intros Em (x & Hx & Ex). unfold DatabaseStorage.seedInitialData.
    rewrite Em. cbn [List.length Nat.eqb].
    unfold DatabaseStorage.createUser.
    replace (existsb _ (DatabaseStorage.users d)) with true.
    + cbn [fst snd DatabaseStorage.menuItems]. auto.
    + symmetry. apply existsb_exists. exists x. split; [assumption|].
      cbn [InsertUser.username Seed.admin]. now apply String.eqb_eq.
  - intros Em Hno. unfold DatabaseStorage.seedInitialData.
    rewrite Em. cbn [List.length Nat.eqb].
    unfold DatabaseStorage.createUser.
    replace (existsb _ (DatabaseStorage.users d)) with false.
    + cbn [fst snd]. split; [reflexivity|]. split.
      * rewrite seeded_menu_length. cbn [DatabaseStorage.menuItems].
        now rewrite Em.
      * rewrite seeded_users. cbn [DatabaseStorage.users].
        rewrite length_app. simpl. lia.
    + symmetry. apply Simulation.existsb_false. intros x Hx.
      apply String.eqb_neq. cbn [InsertUser.username Seed.admin].
      now apply Hno.
Qed.

Lemma db_seed_once_witness :
  let d := snd (DatabaseStorage.seedInitialData DatabaseStorage.empty) in
  fst (DatabaseStorage.seedInitialData DatabaseStorage.empty) = Ok tt
  /\ List.length (DatabaseStorage.menuItems d) = 8%nat
  /\ List.length (DatabaseStorage.users d) = 1%nat
  /\ DatabaseStorage.seedInitialData d = (Ok tt, d).
Proof.
  intros d.
  destruct (db_seed_once DatabaseStorage.empty) as (H1 & _ & _ & H4).
  destruct H4 as (G1 & G2 & G3); [reflexivity | intros x [] |].
  split; [exact G1|]. split; [exact G2|]. split; [exact G3|].
  apply H1. exact G1.
Defined.

End DbSeed.

(** ** Cart documents and their users in [MongoStorage] *)

Module MongoOwnership.

Import Mongoose MongoStorage MongoHoare ListFacts.
Import Js (result, Ok, Throw).
Local Open Scope mongo_scope.

Definition cart_ids (l : list CartItemDocument.t) : Prop :=
  NoDup (map CartItemDocument._id l).

Lemma ids_update_first p q l :
  map CartItemDocument._id (update_first p (set_quantity q) l)
  = map CartItemDocument._id l.
Proof.
  induction l as [|d r IH]; simpl; auto.
  destruct (p d); simpl; [reflexivity|now rewrite IH].
Qed.

Lemma In_update_first {D} (p : D -> bool) (f : D -> D) (l : list D) d :
  In d l -> p d = false -> In d (update_first p f l).
Proof.
  induction l as [|x r IH]; simpl; [tauto|].
  intros [->|Hin] Hp.
  - rewrite Hp. now left.
  - destruct (p x); [now right|]. right. now apply IH.
Qed.

Lemma In_delete_first {D} (p : D -> bool) (l : list D) d :
  In d l -> p d = false -> In d (delete_first p l).
Proof.
  induction l as [|x r IH]; simpl; [tauto|].
  intros [->|Hin] Hp.
  - rewrite Hp. now left.
  - destruct (p x); [assumption|]. right. now apply IH.
Qed.

Lemma save_fresh_id doc l :
  existsb (fun d => (CartItemDocument._id d =? CartItemDocument._id doc)%N) l
  = false ->
  cart_ids l -> cart_ids (l ++ [doc]).
Proof.
  intros E H. unfold cart_ids in *. rewrite map_app. simpl.
  apply NoDup_snoc; [assumption|].
  intros Hin. apply in_map_iff in Hin as (x & Ex & Hx).
  assert (existsb (fun d => (CartItemDocument._id d
                             =? CartItemDocument._id doc)%N) l = true);
    [|congruence].
  apply existsb_exists. exists x. split; [assumption|].
  now apply N.eqb_eq.
Qed.

(** The store holds the users [us] and the cart document [d], and no two
    cart documents share an [_id]. *)
Definition holds (us : list UserDocument.t) (d : CartItemDocument.t)
    (w : world) : Prop :=
  users w = us /\ In d (cartItems w) /\ cart_ids (cartItems w).

Lemma holds_stable us d : stable (holds us d).
Proof. intros c f w H. exact H. Qed.

(** Documents of the same collection with the same [_id] are the same. *)
Lemma same_id_same_doc l (x y : CartItemDocument.t) :
  cart_ids l -> In x l -> In y l ->
  CartItemDocument._id x = CartItemDocument._id y -> x = y.
Proof. apply AddRemove.nodup_key_unique. Qed.

Lemma other_id us d w x :
  holds us d w -> In x (cartItems w) ->
  CartItemDocument.userId x <> CartItemDocument.userId d ->
  (CartItemDocument._id d =? CartItemDocument._id x)%N = false.
Proof.
  intros (_ & Hd & Hids) Hx Hne. apply N.eqb_neq. intros E.
  apply Hne. f_equal. symmetry. now apply (same_id_same_doc (cartItems w)).
Qed.

Section Methods.
Variable castNumber : Z -> option ObjectId.t.

(** The documents of a user, as [CartItem.find({ userId })] returns
    them. *)
Lemma find_userId_triple us d o :
  triple (holds us d)
    (call CartItems find (CartItem_find_userId o))
    (fun a w => (forall x, In x a ->
                   In x (cartItems w) /\ CartItemDocument.userId x = o)
                /\ holds us d w)
    (holds us d).
Proof.
  apply triple_call; [apply holds_stable|auto|].
  intros w Hw. simpl. split; [|exact Hw].
  intros x Hx. apply filter_In in Hx. destruct Hx as [Hin Hp].
  split; [assumption|]. now apply N.eqb_eq.
Qed.

Lemma delete_triple us d x :
  triple (fun w => holds us d w /\ In x (cartItems w)
                   /\ CartItemDocument.userId x <> CartItemDocument.userId d)
    (CartItem_findByIdAndDelete (CartItemDocument._id x))
    (fun _ => holds us d) (holds us d).
Proof.
  unfold CartItem_findByIdAndDelete, call. intros w (Hw & Hx & Hne).
  assert (Hp := other_id us d w x Hw Hx Hne).
  destruct Hw as (Hu & Hd & Hids).
  destruct (faults w) as [|[] fs]; cbn; unfold holds; cbn;
    repeat split; auto;
    first [ now apply In_delete_first
          | now apply MongoKeeps.NoDup_delete_first ].
Qed.

Lemma update_triple us d x quantity :
  triple (fun w => holds us d w /\ In x (cartItems w)
                   /\ CartItemDocument.userId x <> CartItemDocument.userId d)
    (CartItem_findByIdAndUpdate (CartItemDocument._id x) quantity)
    (fun _ => holds us d) (holds us d).
Proof.
  unfold CartItem_findByIdAndUpdate, call. intros w (Hw & Hx & Hne).
  assert (Hp := other_id us d w x Hw Hx Hne).
  destruct Hw as (Hu & Hd & Hids).
  destruct quantity as [q|];
    destruct (faults w) as [|[] fs]; cbn; unfold holds, cart_ids; cbn;
    repeat split; auto;
    first [ now apply In_update_first
          | now rewrite ids_update_first ].
Qed.

Lemma remove_keeps us d id userId :
  (forall user, user_with_numeric_id userId us = Some user ->
     CartItemDocument.userId d <> UserDocument._id user) ->
  triple (holds us d) (removeFromCart id userId) (fun _ => holds us d)
         (holds us d).
Proof.
  intros Hother. assert (Hst := holds_stable us d). unfold removeFromCart.
  apply triple_try with (Mid := holds us d); [|apply triple_ret; auto].
  apply triple_bind with (Mid := fun a w => a = us /\ holds us d w).
  { unfold User_find. apply triple_call; auto.
    intros w Hw. simpl. split; [apply Hw|exact Hw]. }
  intros allUsers. apply triple_pure. intros ->.
  destruct (user_with_numeric_id userId us) as [user|] eqn:Euser;
    [|apply triple_throw; auto].
  specialize (Hother user eq_refl).
  eapply triple_bind; [apply find_userId_triple|].
  intros a. cbv beta.
  destruct (List.find _ a) as [item|] eqn:Efind;
    [|apply triple_ret; tauto].
  apply find_some in Efind. destruct Efind as [Hin _].
  apply triple_bind with (Mid := fun _ => holds us d);
    [|intros ?; apply triple_ret; auto].
  eapply triple_weaken; [| | |apply (delete_triple us d item)]; auto.
  intros w (Ha & Hw). destruct (Ha item Hin) as [Hi Ho].
  split; [assumption|]. split; [assumption|]. congruence.
Qed.

Lemma update_keeps us d id userId quantity :
  (forall user, user_with_numeric_id userId us = Some user ->
     CartItemDocument.userId d <> UserDocument._id user) ->
  triple (holds us d) (updateCartItemQuantity id userId quantity)
         (fun _ => holds us d) (holds us d).
Proof.
  intros Hother. assert (Hst := holds_stable us d).
  unfold updateCartItemQuantity.
  apply triple_try with (Mid := holds us d); [|apply triple_ret; auto].
  apply triple_bind with (Mid := fun a w => a = us /\ holds us d w).
  { unfold User_find. apply triple_call; auto.
    intros w Hw. simpl. split; [apply Hw|exact Hw]. }
  intros allUsers. apply triple_pure. intros ->.
  destruct (user_with_numeric_id userId us) as [user|] eqn:Euser;
    [|apply triple_throw; auto].
  specialize (Hother user eq_refl).
  eapply triple_bind; [apply find_userId_triple|].
  intros a. cbv beta.
  set (Mid := fun w : world =>
                (forall x, In x a ->
                   In x (cartItems w)
                   /\ CartItemDocument.userId x = UserDocument._id user)
                /\ holds us d w).
  assert (HstMid : stable Mid) by (intros c f w H; exact H).
  apply triple_bind with (Mid := fun _ => Mid) (J := holds us d).
  { unfold populate_menuItemId. destruct a.
    - apply triple_ret. auto.
    - apply triple_call; [assumption|unfold Mid; tauto|].
      apply triple_ret. auto. }
  intros _.
  destruct (List.find _ a) as [item|] eqn:Efind;
    [|apply triple_ret; unfold Mid; tauto].
  apply find_some in Efind. destruct Efind as [Hin _].
  apply triple_bind with (Mid := fun _ => holds us d);
    [|intros ?; apply triple_ret; auto].
  eapply triple_weaken; [| | |apply (update_triple us d item)]; auto.
  intros w (Ha & Hw). destruct (Ha item Hin) as [Hi Ho].
  split; [assumption|]. split; [assumption|]. congruence.
Qed.

Lemma clear_keeps us d userId :
  (forall user, user_with_numeric_id userId us = Some user ->
     CartItemDocument.userId d <> UserDocument._id user) ->
  triple (holds us d) (clearCart userId) (fun _ => holds us d)
         (holds us d).
Proof.
  intros Hother. assert (Hst := holds_stable us d). unfold clearCart.
  apply triple_try with (Mid := holds us d); [|apply triple_ret; auto].
  apply triple_bind with (Mid := fun a w => a = us /\ holds us d w).
  { unfold User_find. apply triple_call; auto.
    intros w Hw. simpl. split; [apply Hw|exact Hw]. }
  intros allUsers. apply triple_pure. intros ->.
  destruct (user_with_numeric_id userId us) as [user|] eqn:Euser;
    [|apply triple_throw; auto].
  specialize (Hother user eq_refl).
  apply triple_bind with (Mid := fun _ => holds us d);
    [|intros ?; apply triple_ret; auto].
  unfold CartItem_deleteMany. apply triple_call; auto.
  intros w (Hu & Hd & Hids). unfold holds, cart_ids. cbn.
  repeat split; auto.
  - apply filter_In. split; [assumption|].
    apply negb_true_iff, N.eqb_neq. assumption.
  - now apply NoDup_map_filter.
Qed.

Lemma add_keeps us d e c :
  (forall user,
     user_with_numeric_id (InsertCartItem.userId c) us = Some user ->
     CartItemDocument.userId d <> UserDocument._id user) ->
  triple (holds us d) (addToCart e c) (fun _ => holds us d) (holds us d).
Proof.
  intros Hother. assert (Hst := holds_stable us d). unfold addToCart.
  apply triple_try with (Mid := holds us d); [|apply triple_throw; auto].
  apply triple_bind with (Mid := fun a w => a = us /\ holds us d w).
  { unfold User_find. apply triple_call; auto.
    intros w Hw. simpl. split; [apply Hw|exact Hw]. }
  intros allUsers. apply triple_pure. intros ->.
  destruct (user_with_numeric_id _ us) as [user|] eqn:Euser;
    [|apply triple_throw; auto].
  specialize (Hother user eq_refl).
  apply triple_bind with (Mid := fun _ => holds us d).
  { unfold MenuItem_find. apply triple_call; auto. intros w Hw. exact Hw. }
  intros allMenuItems.
  destruct (List.find _ allMenuItems) as [menuItem|];
    [|apply triple_throw; auto].
  apply triple_bind
    with (Mid := fun a w =>
                   (forall x, a = Some x ->
                      In x (cartItems w)
                      /\ CartItemDocument.userId x = UserDocument._id user)
                   /\ holds us d w).
  { unfold CartItem_findOne. apply triple_call; auto.
    intros w Hw. simpl. split; [|exact Hw].
    intros x Hx. apply find_some in Hx. destruct Hx as [Hin Hp].
    split; [assumption|].
    apply andb_true_iff in Hp. destruct Hp as [Hp _]. now apply N.eqb_eq. }
  intros [existing|].
  - apply triple_bind with (Mid := fun _ => holds us d).
    + eapply triple_weaken; [| | |apply (update_triple us d existing)]; auto.
      intros w (Ha & Hw). destruct (Ha existing eq_refl) as [Hi Ho].
      split; [assumption|]. split; [assumption|]. congruence.
    + intros [updated|]; [apply triple_ret|apply triple_throw]; auto.
  - apply triple_bind with (Mid := fun _ => holds us d);
      [|intros ?; apply triple_ret; auto].
    unfold CartItem_save.
    apply triple_call;
      [intros c0 f0 w0 H; exact H | intros w0 H; apply H |].
    intros w (_ & Hu & Hd & Hids). simpl.
    destruct (existsb _ (cartItems w)) eqn:E; unfold holds; cbn;
      repeat split; auto.
    + apply in_or_app. now left.
    + now apply save_fresh_id.
Qed.

Lemma ids_keeps_update id quantity :
  MongoKeeps.keeps cartItems cart_ids (CartItem_findByIdAndUpdate id quantity).
Proof.
  apply MongoKeeps.keeps_call; [now intros ? ? ?|].
  destruct quantity as [q|]; [|apply MongoKeeps.keeps_throw].
  intros w H. simpl. unfold cart_ids. now rewrite ids_update_first.
Qed.

Lemma ids_keeps_delete id :
  MongoKeeps.keeps cartItems cart_ids (CartItem_findByIdAndDelete id).
Proof.
  apply MongoKeeps.keeps_call; [now intros ? ? ?|]. intros w H. simpl.
  now apply MongoKeeps.NoDup_delete_first.
Qed.

Lemma ids_keeps_deleteMany userId :
  MongoKeeps.keeps cartItems cart_ids (CartItem_deleteMany userId).
Proof.
  apply MongoKeeps.keeps_call; [now intros ? ? ?|]. intros w H. simpl.
  now apply NoDup_map_filter.
Qed.

Lemma ids_keeps_save doc :
  MongoKeeps.keeps cartItems cart_ids (CartItem_save doc).
Proof.
  apply MongoKeeps.keeps_call; [now intros ? ? ?|]. intros w H. simpl.
  destruct (existsb _ (cartItems w)) eqn:E; simpl; [assumption|].
  now apply save_fresh_id.
Qed.

Ltac ids_all :=
  repeat first
    [ apply ids_keeps_update
    | apply ids_keeps_delete
    | apply ids_keeps_deleteMany
    | apply ids_keeps_save
    | apply MongoKeeps.getMenuItemById_keeps; [now intros ? ? ? | reflexivity]
    | MongoKeeps.keeps_step ].

Lemma step_keeps_ids e o w :
  cart_ids (cartItems w) -> cart_ids (cartItems (step castNumber e o w)).
Proof.
  intros H. destruct o; simpl; try assumption;
    match goal with
    | |- cart_ids (cartItems (snd (?m w))) =>
        revert w H; change (MongoKeeps.keeps cartItems cart_ids m)
    end.
  - unfold getUser. ids_all.
  - unfold getUserByUsername. ids_all.
  - unfold createUser. ids_all.
  - unfold getAllMenuItems. ids_all.
  - ids_all.
  - unfold getMenuItemsByCategory. ids_all.
  - unfold createMenuItem. ids_all.
  - unfold updateMenuItem. ids_all.
  - unfold deleteMenuItem. ids_all.
  - unfold getCartItems. ids_all.
  - unfold addToCart. ids_all.
  - unfold removeFromCart. ids_all.
  - unfold updateCartItemQuantity. ids_all.
  - unfold clearCart. ids_all.
  - unfold createOrder. ids_all.
  - unfold getOrderById. ids_all.
  - unfold getOrdersByUserId. ids_all.
  - unfold getAllOrders. ids_all.
  - unfold updateOrderStatus. ids_all.
Qed.

Lemma run_keeps_ids ops : forall w,
  cart_ids (cartItems w) -> cart_ids (cartItems (run castNumber ops w)).
Proof.
  unfold run. induction ops as [|[e o] r IH]; simpl; intros w H; auto.
  apply IH. now apply step_keeps_ids.
Qed.

(** X12.  In [MongoStorage] a cart request of a user leaves the cart
    documents of the other users in place and unchanged, whatever store
    call fails.  The request acts for the first stored user whose numeric
    id is the given one; a cart document whose [userId] is not that user's
    identifier is still in the collection afterwards. *)
Theorem mongo_cart_ownership (faults : list bool)
    (ops : list (env * op)) (e : env) (o : op) (u : Z)
    (d : CartItemDocument.t) :
  let w := run castNumber ops (MongoStorage.empty faults) in
  cart_user o = Some u ->
  In d (cartItems w) ->
  (forall user, user_with_numeric_id u (users w) = Some user ->
     CartItemDocument.userId d <> UserDocument._id user) ->
  In d (cartItems (step castNumber e o w)).
Proof.
  intros w Ho Hd Hother.
  assert (Hw : holds (users w) d w).
  { split; [reflexivity|]. split; [assumption|].
    apply run_keeps_ids. constructor. }
  destruct o; cbn [cart_user] in Ho; try discriminate;
    injection Ho as Ho; rewrite <- Ho in Hother; clear Ho; cbn [step].
  - assert (T := add_keeps (users w) d e cartItem Hother w Hw).
    destruct (addToCart e cartItem w) as [[r|] w']; apply T.
  - assert (T := remove_keeps (users w) d id userId Hother w Hw).
    destruct (removeFromCart id userId w) as [[r|] w']; apply T.
  - assert (T := update_keeps (users w) d id userId quantity Hother w Hw).
    destruct (updateCartItemQuantity id userId quantity w) as [[r|] w'];
      apply T.
  - assert (T := clear_keeps (users w) d userId Hother w Hw).
    destruct (clearCart userId w) as [[r|] w']; apply T.
Qed.

End Methods.

Lemma mongo_cart_ownership_witness :
  let w := run Sample.no_cast Fixtures.two_users (MongoStorage.empty []) in
  In Fixtures.alice_cart
     (cartItems (step Sample.no_cast Sample.env3 (ClearCart 0x439014) w)).
Proof.
  intros w.
  apply (mongo_cart_ownership Sample.no_cast [] Fixtures.two_users
           Sample.env3 (ClearCart 0x439014) 0x439014 Fixtures.alice_cart).
  - reflexivity.
  - vm_compute. left. reflexivity.
  - intros user Hu. vm_compute in Hu. injection Hu as <-.
    vm_compute. discriminate.
Defined.

End MongoOwnership.

(** ** The reading methods of [MongoStorage] *)

Module MongoReads.

Import Mongoose MongoStorage MongoKeeps ListFacts.
Import Js (result, Ok, Throw).
Local Open Scope mongo_scope.

Lemma try_ret_returns {A} (m : M A) (a : A) w :
  exists r, fst (try_catch m (ret a) w) = Ok r.
Proof.
  unfold try_catch, ret. destruct (m w) as [[r|] w']; simpl; eauto.
Qed.

Lemma keeps_pure {A} (m : M A) (a : A) :
  (forall w0, keeps collections (fun x => x = collections w0) m) ->
  pure_read (try_catch m (ret a)).
Proof.
  intros H w. split; [|apply try_ret_returns].
  apply (keeps_try collections (fun x => x = collections w) m (ret a));
    [apply H|apply keeps_ret|reflexivity].
Qed.

Section Methods.
Variable castNumber : Z -> option ObjectId.t.

(** X13.  The reading methods of [MongoStorage] read only, and they
    always answer: whatever store call fails, each of the nine below (all
    but [getCartItemsWithDetails]) returns a value, it never throws, and
    leaves the four collections as they were. *)
Theorem mongo_reads_are_pure (id : Z) (name : string) :
  pure_read (getUser id)
  /\ pure_read (getUserByUsername name)
  /\ pure_read getAllMenuItems
  /\ pure_read (getMenuItemById id)
  /\ pure_read (getMenuItemsByCategory name)
  /\ pure_read (getCartItems castNumber id)
  /\ pure_read (getOrderById id)
  /\ pure_read (getOrdersByUserId id)
  /\ pure_read getAllOrders.
Proof.
  repeat match goal with |- _ /\ _ => split end;
    apply keeps_pure; intros w0; keeps_all.
Qed.

End Methods.

End MongoReads.

(** ** [createUser] and [getUser] in [MongoStorage] *)

Module MongoUsers.

Import Mongoose MongoStorage ListFacts.
Import Js (result, Ok, Throw).
Local Open Scope mongo_scope.

Lemma call_quiet {A} c f (body : M A) w :
  faults w = [] -> call c f body w = body (logged c f w).
Proof. intros H. apply Fallbacks.call_ok. now rewrite H. Qed.

Lemma find_all_false {A} (p : A -> bool) (l : list A) :
  (forall x, In x l -> p x = false) -> List.find p l = None.
Proof.
  induction l as [|x r IH]; intros H; [reflexivity|]. simpl.
  rewrite (H x (or_introl eq_refl)). apply IH. intros y Hy. apply H.
  now right.
Qed.

Lemma numeric_as_mod (o : ObjectId.t) :
  objectIdToNumericId (o mod 2 ^ 24)%N = objectIdToNumericId o.
Proof.
  rewrite !IdFacts.objectIdToNumericId_spec. f_equal.
  apply N.Div0.mod_mod.
Qed.

(** X14.  [MongoStorage.createUser] followed by [getUser] of the
    returned id returns the created user, when no store call fails and no
    stored user has an identifier with the same last six hexadecimal
    digits as the driver's new one. *)
Theorem mongo_createUser_then_getUser (e : env) (u : InsertUser.t)
    (w : world) :
  faults w = [] ->
  (forall d, In d (users w) ->
     objectIdToNumericId (UserDocument._id d)
     <> objectIdToNumericId (new_id e)) ->
  let doc :=
    UserDocument.mk (new_id e) (InsertUser.username u)
      (InsertUser.password u) (InsertUser.name u) (InsertUser.email u)
      (InsertUser.isAdmin u) in
  let r := convertUserDocToType doc in
  fst (createUser e u w) = Ok r
  /\ users (snd (createUser e u w)) = users w ++ [doc]
  /\ fst (getUser (User.id r) (snd (createUser e u w))) = Ok (Some r).
Proof.
  intros Hf Hnew doc r.
  assert (Hsave : existsb (fun d => (UserDocument._id d =? new_id e)%N)
                    (users w) = false).
  { apply Simulation.existsb_false. intros x Hx. apply N.eqb_neq.
    intros E. apply (Hnew x Hx). now rewrite E. }
  assert (Hc : createUser e u w
               = (Ok r, with_users (users w ++ [doc]) (logged Users save w))).
  { unfold createUser, try_catch, Mongoose.bind, User_save.
    rewrite call_quiet by assumption.
    cbn [users logged UserDocument._id]. fold doc. rewrite Hsave.
    reflexivity. }
  rewrite Hc. cbn [fst snd]. split; [reflexivity|]. split; [reflexivity|].
  set (w1 := with_users (users w ++ [doc]) (logged Users save w)).
  assert (Hf1 : faults w1 = []) by (cbn; now rewrite Hf).
  assert (Hfind : user_with_numeric_id (User.id r) (users w1) = Some doc).
  { unfold user_with_numeric_id. cbn [users w1 with_users].
    rewrite MemUsers.find_snoc.
    replace (List.find _ (users w)) with (@None UserDocument.t).
    - cbn [User.id r convertUserDocToType UserDocument._id doc].
      now rewrite Z.eqb_refl.
    - symmetry. apply find_all_false. intros x Hx. apply Z.eqb_neq.
      apply (Hnew x Hx). }
  assert (Hcast := IdFacts.cast_stringId_numeric (new_id e)).
  change (objectIdToNumericId (new_id e)) with (User.id r) in Hcast.
  destruct (List.find (fun d => (UserDocument._id d
                                 =? new_id e mod 2 ^ 24)%N) (users w1))
    as [found|] eqn:Efound.
  - assert (found = doc).
    { apply find_some in Efound. destruct Efound as [Hin Hp].
      apply N.eqb_eq in Hp. cbn [users w1 with_users] in Hin.
      apply in_app_or in Hin. destruct Hin as [Hin|[<-|[]]]; [|reflexivity].
      exfalso. apply (Hnew found Hin). rewrite Hp. apply numeric_as_mod. }
    subst found.
    unfold getUser, try_catch, Mongoose.bind, User_findById.
    rewrite call_quiet by assumption.
    unfold Mongoose.bind, castId. rewrite Hcast. unfold ret.
    cbn [users logged]. cbn [users w1 with_users] in Efound.
    cbn [users w1 with_users]. rewrite Efound. reflexivity.
  - rewrite (Fallbacks.getUser_falls_back (User.id r) w1 _ Hf1 Hcast Efound).
    cbn [fst]. now rewrite Hfind.
Qed.

Lemma mongo_createUser_then_getUser_witness :
  let w := snd (createUser Sample.env1 Sample.alice (MongoStorage.empty [])) in
  let r := convertUserDocToType Fixtures.bob_doc in
  fst (createUser Fixtures.env4 Fixtures.bob w) = Ok r
  /\ users (snd (createUser Fixtures.env4 Fixtures.bob w))
     = users w ++ [Fixtures.bob_doc]
  /\ fst (getUser (User.id r) (snd (createUser Fixtures.env4 Fixtures.bob w)))
     = Ok (Some r).
Proof.
  intros w r.
  apply (mongo_createUser_then_getUser Fixtures.env4 Fixtures.bob w).
  - reflexivity.
  - intros d Hd. vm_compute in Hd. destruct Hd as [<-|[]].
    vm_compute. discriminate.
Defined.

End MongoUsers.

(** ** What [clearCart] and [removeFromCart] of [MongoStorage] report *)

Module MongoCartReports.

Import Mongoose MongoStorage ListFacts.
Import Js (result, Ok, Throw).
Local Open Scope mongo_scope.

(** X15.  [MongoStorage.clearCart] answers [true] only when it has
    removed the cart documents of the first stored user with the given
    numeric id, and exactly those; when it answers [false] (no such user,
    or a store call failed) the cart collection is as it was.  It never
    throws.  When no call fails it answers whether such a user exists. *)
Theorem mongo_clearCart_reports (userId : Z) (w : world) :
  match clearCart userId w with
  | (Ok true, w') =>
      exists user,
        user_with_numeric_id userId (users w) = Some user
        /\ cartItems w'
           = filter (fun d => negb (CartItemDocument.userId d
                                    =? UserDocument._id user)%N)
                    (cartItems w)
  | (Ok false, w') => cartItems w' = cartItems w
  | (Throw, _) => False
  end
  /\ (faults w = [] ->
      fst (clearCart userId w)
      = Ok (match user_with_numeric_id userId (users w) with
            | Some _ => true
            | None => false
            end)).
Proof.
  unfold clearCart, try_catch, Mongoose.bind, User_find, CartItem_deleteMany,
    call, ret, throw.
  destruct (user_with_numeric_id userId (users w)) as [user|] eqn:Eu.
  - split.
    + destruct (faults w) as [|[] [|[] fs]]; cbn [users faults tl fst snd];
        rewrite ?Eu; cbn; try reflexivity; exists user; split; reflexivity.
    + intros ->. cbn [users faults tl fst snd]. rewrite Eu. reflexivity.
  - split.
    + destruct (faults w) as [|[] fs]; cbn [users faults tl fst snd];
        rewrite ?Eu; reflexivity.
    + intros ->. cbn [users faults tl fst snd]. rewrite Eu. reflexivity.
Qed.

(** X16.  [MongoStorage.removeFromCart] answers [true] only when it has
    deleted a cart document of the first stored user with the given numeric
    user id, namely one whose numeric id is the given id; when it answers
    [false] the cart collection is as it was.  It never throws. *)
Theorem mongo_removeFromCart_reports (id userId : Z) (w : world) :
  match removeFromCart id userId w with
  | (Ok true, w') =>
      exists user item,
        user_with_numeric_id userId (users w) = Some user
        /\ In item (cartItems w)
        /\ CartItemDocument.userId item = UserDocument._id user
        /\ objectIdToNumericId (CartItemDocument._id item) = id
        /\ cartItems w'
           = delete_first
               (fun d => (CartItemDocument._id d
                          =? CartItemDocument._id item)%N)
               (cartItems w)
  | (Ok false, w') => cartItems w' = cartItems w
  | (Throw, _) => False
  end.
Proof.
  unfold removeFromCart, try_catch, Mongoose.bind, User_find,
    CartItem_find_userId, CartItem_findByIdAndDelete, call, ret, throw.
  destruct (user_with_numeric_id userId (users w)) as [user|] eqn:Eu.
  - destruct (List.find
                (fun item =>
                   (objectIdToNumericId (CartItemDocument._id item) =? id)%Z)
                (filter (fun d => (CartItemDocument.userId d
                                   =? UserDocument._id user)%N)
                        (cartItems w))) as [item|] eqn:Ei.
    + assert (Hitem := Ei). apply find_some in Hitem.
      destruct Hitem as [Hin Hp]. apply filter_In in Hin.
      destruct Hin as [Hin Hu]. apply N.eqb_eq in Hu. apply Z.eqb_eq in Hp.
      destruct (faults w) as [|[] [|[] [|[] fs]]];
        cbn [users cartItems faults tl fst snd];
        rewrite ?Eu; cbn [users cartItems faults tl fst snd];
        rewrite ?Ei; cbn; try reflexivity;
        exists user, item; repeat split; assumption.
    + destruct (faults w) as [|[] [|[] fs]];
        cbn [users cartItems faults tl fst snd];
        rewrite ?Eu; cbn [users cartItems faults tl fst snd];
        rewrite ?Ei; reflexivity.
  - destruct (faults w) as [|[] fs]; cbn [users faults tl fst snd];
      rewrite ?Eu; reflexivity.
Qed.

End MongoCartReports.

(** ** Password hashes *)

Module PasswordFacts.

Import Js (result, Ok, Throw).
Local Open Scope string_scope.

Lemma occurs_app c s1 s2 :
  occurs c (s1 ++ s2) = occurs c s1 || occurs c s2.
Proof.
  induction s1 as [|x r IH]; simpl; [reflexivity|].
  now rewrite IH, orb_assoc.
Qed.

Lemma hex_char_no_dot d : Ascii.eqb (Js.hex_char d) "." = false.
Proof.
  destruct d as [|p]; [reflexivity|].
  do 4 (destruct p as [p|p|]; try reflexivity).
Qed.

Lemma hex_digits_no_dot k : forall n, occurs "." (Js.hex_digits k n) = false.
Proof.
  induction k as [|k IH]; intros n; [reflexivity|].
  cbn [Js.hex_digits]. rewrite occurs_app, IH. simpl.
  now rewrite hex_char_no_dot.
Qed.

Lemma toHex_no_dot buf : occurs "." (Buffer.toHex buf) = false.
Proof.
  induction buf as [|b r IH]; [reflexivity|].
  cbn [Buffer.toHex]. now rewrite occurs_app, hex_digits_no_dot, IH.
Qed.

Lemma split_none sep s : occurs sep s = false -> Auth.split sep s = [s].
Proof.
  induction s as [|c r IH]; [reflexivity|]. simpl.
  intros H. apply orb_false_iff in H. destruct H as [Hc Hr].
  rewrite Hc, (IH Hr). reflexivity.
Qed.

Lemma split_at sep h r :
  occurs sep h = false ->
  Auth.split sep (h ++ String sep r) = h :: Auth.split sep r.
Proof.
  induction h as [|c h IH]; simpl.
  - intros _. now rewrite Ascii.eqb_refl.
  - intros H. apply orb_false_iff in H. destruct H as [Hc Hr].
    rewrite Hc, (IH Hr). reflexivity.
Qed.

Lemma hex_digits_2 n :
  Js.hex_digits 2 n
  = String (Js.hex_char ((n / 16) mod 16))
      (String (Js.hex_char (n mod 16)) EmptyString).
Proof. reflexivity. Qed.

Lemma fromHex_toHex buf : Buffer.fromHex (Buffer.toHex buf) = buf.
Proof.
  induction buf as [|b r IH]; [reflexivity|].
  cbn [Buffer.toHex]. rewrite hex_digits_2.
  cbn [append Buffer.fromHex].
  assert (Hb := Byte.to_N_bounded b).
  rewrite !HexFacts.hex_value_hex_char
    by (apply N.mod_upper_bound; discriminate).
  replace ((Byte.to_N b / 16) mod 16 * 16 + Byte.to_N b mod 16)%N
    with (Byte.to_N b).
  - now rewrite Byte.of_to_N, IH.
  - rewrite N.mod_small by (apply N.Div0.div_lt_upper_bound; lia).
    rewrite (N.div_mod (Byte.to_N b) 16) at 1 by discriminate. lia.
Qed.

Lemma eqb_same buf : Buffer.eqb buf buf = true.
Proof.
  induction buf as [|b r IH]; [reflexivity|]. simpl.
  rewrite IH, andb_true_r. now apply Byte.byte_dec_lb.
Qed.

Section Scrypt.
Variable scrypt : string -> string -> nat -> Buffer.t.

Lemma stored_parts random password :
  Auth.split "." (Auth.hashPassword scrypt random password)
  = [Buffer.toHex (scrypt password (Buffer.toHex random) 64);
     Buffer.toHex random].
Proof.
  unfold Auth.hashPassword. cbn zeta.
  change ("." ++ Buffer.toHex random)
    with (String "." (Buffer.toHex random)).
  rewrite split_at by apply toHex_no_dot.
  now rewrite split_none by apply toHex_no_dot.
Qed.

Lemma compare_hashed random password supplied :
  Auth.comparePasswords scrypt supplied
    (Auth.hashPassword scrypt random password)
  = Buffer.timingSafeEqual
      (scrypt password (Buffer.toHex random) 64)
      (scrypt supplied (Buffer.toHex random) 64).
Proof.
  unfold Auth.comparePasswords. rewrite stored_parts.
  cbn [hd nth_error]. now rewrite fromHex_toHex.
Qed.

Lemma compare_same random password :
  Auth.comparePasswords scrypt password
    (Auth.hashPassword scrypt random password) = Ok true.
Proof.
  rewrite compare_hashed. unfold Buffer.timingSafeEqual.
  now rewrite Nat.eqb_refl, eqb_same.
Qed.

(** X17.  A password checks against its own hash: whatever bytes the
    generator returned, [comparePasswords] of a password and the string
    that [hashPassword] made of it is [true].  Another password checks
    exactly when [scrypt] gives it the same key under the stored salt;
    [scrypt] returns as many bytes as it is asked for. *)
Theorem password_round_trip (random : Buffer.t) (password supplied : string) :
  (forall p s n, List.length (scrypt p s n) = n) ->
  Auth.comparePasswords scrypt password
    (Auth.hashPassword scrypt random password) = Ok true
  /\ Auth.comparePasswords scrypt supplied
       (Auth.hashPassword scrypt random password)
     = Ok (Buffer.eqb (scrypt password (Buffer.toHex random) 64)
                      (scrypt supplied (Buffer.toHex random) 64)).
Proof.
  intros Hlen. split; [apply compare_same|].
  rewrite compare_hashed. unfold Buffer.timingSafeEqual.
  now rewrite !Hlen, Nat.eqb_refl.
Qed.

Lemma split_cons sep s : exists h t, Auth.split sep s = h :: t.
Proof.
  destruct s as [|c r]; simpl; [eauto|].
  destruct (Ascii.eqb c sep); [eauto|].
  destruct (Auth.split sep r); eauto.
Qed.

Lemma compare_no_dot supplied stored :
  occurs "." stored = false ->
  Auth.comparePasswords scrypt supplied stored = Throw.
Proof.
  intros H. unfold Auth.comparePasswords. now rewrite split_none.
Qed.

(** X18.  [comparePasswords] does not answer [false] for a stored
    password that is not of the form that [hashPassword] writes: it
    throws.  It throws when the stored string has no "." (there is no salt
    to give [scrypt]), and when the part before the first "." does not
    decode to as many bytes as [scrypt] returns. *)
Theorem comparePasswords_throws (supplied stored hashed rest : string) :
  (forall p s n, List.length (scrypt p s n) = n) ->
  (occurs "." stored = false ->
   Auth.comparePasswords scrypt supplied stored = Throw)
  /\ (occurs "." hashed = false ->
      List.length (Buffer.fromHex hashed) <> 64%nat ->
      Auth.comparePasswords scrypt supplied (hashed ++ "." ++ rest) = Throw).
Proof.
  intros Hlen. split; [apply compare_no_dot|].
  intros Hh Hn. unfold Auth.comparePasswords.
  change ("." ++ rest) with (String "." rest).
  rewrite split_at by assumption.
  destruct (split_cons "." rest) as (h & t & ->).
  cbn [hd nth_error]. unfold Buffer.timingSafeEqual. rewrite Hlen.
  apply Nat.eqb_neq in Hn. now rewrite Hn.
Qed.

End Scrypt.

(** The stand-in for [scrypt] returns as many bytes as it is asked for. *)
Lemma fixture_scrypt_length p s n :
  List.length (Fixtures.scrypt p s n) = n.
Proof.
  unfold Fixtures.scrypt.
  rewrite length_firstn, length_app, repeat_length. lia.
Qed.

Lemma password_round_trip_witness :
  Auth.comparePasswords Fixtures.scrypt "hunter2"
    (Auth.hashPassword Fixtures.scrypt Fixtures.random "hunter2") = Ok true
  /\ Auth.comparePasswords Fixtures.scrypt "hunter3"
       (Auth.hashPassword Fixtures.scrypt Fixtures.random "hunter2")
     = Ok false.
Proof.
  destruct (password_round_trip Fixtures.scrypt Fixtures.random
              "hunter2" "hunter3" fixture_scrypt_length) as [H1 H2].
  split; [exact H1|]. rewrite H2. vm_compute. reflexivity.
Defined.

Lemma comparePasswords_throws_witness :
  Auth.comparePasswords Fixtures.scrypt "admin123" "admin123" = Throw
  /\ Auth.comparePasswords Fixtures.scrypt "admin123" "abcd.5a00ff10"
     = Throw.
Proof.
  destruct (comparePasswords_throws Fixtures.scrypt "admin123" "admin123"
              "abcd" "5a00ff10" fixture_scrypt_length) as [H1 H2].
  split.
  - apply H1. reflexivity.
  - apply H2; [reflexivity|]. vm_compute. discriminate.
Defined.

End PasswordFacts.

(** ** Registering and logging in *)

Module Login.

Import Js (result, Ok, Throw).
Import Bridge JsMapFacts ListFacts MemIds DbIds PasswordFacts.
Local Open Scope string_scope.
Local Open Scope list_scope.

(** The users of [MemStorage] and of [DatabaseStorage] are only ever
    added to, at the end. *)
Lemma mem_users_grow o s :
  mem_wf s ->
  exists more,
    JsMap.values (MemStorage.users (MemStorage.step o s))
    = JsMap.values (MemStorage.users s) ++ more.
Proof.
  intros (Ku & _).
  assert (Hsame : forall s', same_but_cart s s' ->
            exists more,
              JsMap.values (MemStorage.users s')
              = JsMap.values (MemStorage.users s) ++ more).
  { intros s' (Eu & _). exists []. now rewrite Eu, app_nil_r. }
  destruct o; cbn [MemStorage.step];
    try (exists []; now rewrite app_nil_r).
  - destruct (keyed_set_fresh User.id (MemStorage.userIdCounter s)
                (fst (MemStorage.createUser user s))
                (MemStorage.users s) Ku eq_refl) as [_ Hv].
    eexists. exact Hv.
  - unfold MemStorage.updateMenuItem. destruct (JsMap.get _ _);
      exists []; now rewrite app_nil_r.
  - apply Hsame, MemFrame.mem_addToCart_frame.
  - apply Hsame, MemFrame.mem_removeFromCart_frame.
  - apply Hsame, MemFrame.mem_updateCartItemQuantity_frame.
  - apply Hsame, MemFrame.mem_clearCart_frame.
  - unfold MemStorage.updateOrderStatus. destruct (JsMap.get _ _);
      exists []; now rewrite app_nil_r.
Qed.

Lemma mem_run_users_grow ops : forall s,
  mem_wf s ->
  exists more,
    JsMap.values (MemStorage.users (MemStorage.run ops s))
    = JsMap.values (MemStorage.users s) ++ more.
Proof.
  unfold MemStorage.run. induction ops as [|o r IH]; simpl; intros s Hwf.
  - exists []. now rewrite app_nil_r.
  - destruct (mem_users_grow o s Hwf) as (m1 & E1).
    destruct (IH _ (mem_step_wf_all o s Hwf)) as (m2 & E2).
    exists (m1 ++ m2). now rewrite E2, E1, app_assoc.
Qed.

Lemma db_users_grow o d :
  exists more,
    DatabaseStorage.users (DatabaseStorage.step o d)
    = DatabaseStorage.users d ++ more.
Proof.
  destruct (cart_user o) eqn:Ec.
  - destruct (db_cart_ops_frame o d) as (Eu & _); [congruence|].
    exists []. now rewrite Eu, app_nil_r.
  - destruct o; cbn [cart_user] in Ec; try discriminate;
      cbn [DatabaseStorage.step];
      try (exists []; now rewrite app_nil_r).
    unfold DatabaseStorage.createUser. destruct (existsb _ _); cbn [snd].
    + exists []. now rewrite app_nil_r.
    + eexists. reflexivity.
Qed.

Lemma db_run_users_grow ops : forall d,
  exists more,
    DatabaseStorage.users (DatabaseStorage.run ops d)
    = DatabaseStorage.users d ++ more.
Proof.
  unfold DatabaseStorage.run. induction ops as [|o r IH]; simpl; intros d.
  - exists []. now rewrite app_nil_r.
  - destruct (db_users_grow o d) as (m1 & E1).
    destruct (IH (DatabaseStorage.step o d)) as (m2 & E2).
    exists (m1 ++ m2). now rewrite E2, E1, app_assoc.
Qed.

Section Scrypt.
Variable scrypt : string -> string -> nat -> Buffer.t.

(** X19.  Nobody can log in as the seeded administrator.  The
    constructor of [MemStorage] and [seedInitialData] of
    [DatabaseStorage] store the user "admin" with the password in the
    clear; whatever requests follow and whatever password is supplied, the
    verify callback finds that user and ends in an error, because
    [comparePasswords] throws on a stored password that has no salt. *)
Theorem seeded_admin_cannot_log_in (ops db_ops : list op)
    (password : string) :
  let s := MemStorage.run ops MemStorage.init in
  let d := DatabaseStorage.run db_ops
             (snd (DatabaseStorage.seedInitialData DatabaseStorage.empty)) in
  Auth.verify scrypt Auth.mem_getUserByUsername "admin" password s
  = (Auth.Error, s)
  /\ Auth.verify scrypt Auth.db_getUserByUsername "admin" password d
     = (Auth.Error, d).
Proof.
  intros s d. split.
  - destruct (mem_run_users_grow ops _ mem_init_wf_all) as (more & E).
    fold s in E.
    unfold Auth.verify, Auth.mem_getUserByUsername,
      MemStorage.getUserByUsername.
    rewrite E.
    replace (find _ (JsMap.values (MemStorage.users MemStorage.init) ++ more))
      with (Some (fst (MemStorage.createUser Seed.admin MemStorage.blank)))
      by reflexivity.
    cbn [fst MemStorage.createUser User.password InsertUser.password
         Seed.admin].
    now rewrite compare_no_dot.
  - destruct (db_run_users_grow db_ops
                (snd (DatabaseStorage.seedInitialData DatabaseStorage.empty)))
      as (more & E).
    fold d in E.
    unfold Auth.verify, Auth.db_getUserByUsername,
      DatabaseStorage.getUserByUsername, Sql.first, Sql.select.
    rewrite E.
    replace (hd_error
               (filter _
                  (DatabaseStorage.users
                     (snd (DatabaseStorage.seedInitialData
                             DatabaseStorage.empty)) ++ more)))
      with (Some (User.mk 1 "admin" "admin_password" (Js.val "Admin User")
                    (Js.val "admin@quickbite.com") (Js.val true)))
      by reflexivity.
    cbn [User.password].
    now rewrite compare_no_dot.
Qed.


(** The exact lookup of [MongoStorage] when no store call fails. *)
Lemma mongo_lookup name w :
  Mongoose.faults w = [] ->
  MongoStorage.getUserByUsername name w
  = (Ok (option_map MongoStorage.convertUserDocToType
           (List.find
              (fun d => String.eqb (UserDocument.username d) name)
              (Mongoose.users w))),
     Mongoose.logged Mongoose.Users Mongoose.findOne w).
Proof.
  intros Hf.
  unfold MongoStorage.getUserByUsername, Mongoose.try_catch, Mongoose.bind,
    MongoStorage.User_findOne_username.
  rewrite MongoUsers.call_quiet by assumption. reflexivity.
Qed.

(** X21.  With [MongoStorage], the backend that server/storage.ts
    exports, a user who registers can log in: when no store call fails and
    the driver's new identifier is not in use, [/api/register] either
    answers "Username already exists" for a name that a stored user has,
    or stores the user with the hashed password, and the verify callback
    then accepts the name with the password sent and returns that user. *)
Theorem mongo_register_then_login (random : Buffer.t) (body : InsertUser.t)
    (e : MongoStorage.env) (w : Mongoose.world) :
  Mongoose.faults w = [] ->
  (forall d, In d (Mongoose.users w) ->
     UserDocument._id d <> MongoStorage.new_id e) ->
  match Auth.register scrypt MongoStorage.getUserByUsername
          (MongoStorage.createUser e) random body w with
  | (Auth.Created user, w1) =>
      User.password user
      = Auth.hashPassword scrypt random (InsertUser.password body)
      /\ User.isAdmin user = InsertUser.isAdmin body
      /\ fst (Auth.verify scrypt MongoStorage.getUserByUsername
                (InsertUser.username body) (InsertUser.password body) w1)
         = Auth.Accept user
  | (Auth.UsernameExists, w1) =>
      Mongoose.users w1 = Mongoose.users w
      /\ exists d, In d (Mongoose.users w)
                   /\ UserDocument.username d = InsertUser.username body
  | (Auth.Failed, _) => False
  end.
Proof.
  intros Hf Hnew. unfold Auth.register.
  rewrite (mongo_lookup _ w Hf).
  destruct (List.find _ (Mongoose.users w)) as [existing|] eqn:E;
    cbn [option_map].
  - split; [reflexivity|]. apply find_some in E. destruct E as [Hin Hp].
    exists existing. split; [assumption|]. now apply String.eqb_eq.
  - set (w0 := Mongoose.logged Mongoose.Users Mongoose.findOne w).
    assert (Hf0 : Mongoose.faults w0 = []) by (cbn; now rewrite Hf).
    set (body' := InsertUser.mk (InsertUser.username body)
                    (Auth.hashPassword scrypt random
                       (InsertUser.password body))
                    (InsertUser.name body) (InsertUser.email body)
                    (InsertUser.isAdmin body)).
    set (doc := UserDocument.mk (MongoStorage.new_id e)
                  (InsertUser.username body')
                  (InsertUser.password body') (InsertUser.name body')
                  (InsertUser.email body') (InsertUser.isAdmin body')).
    assert (Hsave : existsb (fun d => (UserDocument._id d
                                       =? MongoStorage.new_id e)%N)
                      (Mongoose.users w0) = false).
    { apply Simulation.existsb_false. intros x Hx. apply N.eqb_neq.
      now apply Hnew. }
    assert (Hc : MongoStorage.createUser e body' w0
                 = (Ok (MongoStorage.convertUserDocToType doc),
                    Mongoose.with_users (Mongoose.users w0 ++ [doc])
                      (Mongoose.logged Mongoose.Users Mongoose.save w0))).
    { unfold MongoStorage.createUser, Mongoose.try_catch, Mongoose.bind,
        MongoStorage.User_save.
      rewrite MongoUsers.call_quiet by assumption.
      cbn [Mongoose.users Mongoose.logged UserDocument._id]. fold doc.
      rewrite Hsave. reflexivity. }
    rewrite Hc. split; [reflexivity|]. split; [reflexivity|].
    unfold Auth.verify. rewrite mongo_lookup by (cbn; now rewrite Hf).
    cbn [Mongoose.users Mongoose.with_users Mongoose.logged w0].
    rewrite MemUsers.find_snoc, E.
    cbn [UserDocument.username doc InsertUser.username body'].
    rewrite String.eqb_refl. cbn [option_map].
    cbn [User.password MongoStorage.convertUserDocToType
         UserDocument.password doc InsertUser.password body'].
    now rewrite compare_same.
Qed.

End Scrypt.

Lemma mongo_register_then_login_witness :
  let w := snd (MongoStorage.createUser Sample.env1 Sample.alice
                  (MongoStorage.empty [])) in
  match Auth.register Fixtures.scrypt MongoStorage.getUserByUsername
          (MongoStorage.createUser Fixtures.env4) Fixtures.random
          Fixtures.bob w with
  | (Auth.Created user, w1) =>
      User.password user
      = Auth.hashPassword Fixtures.scrypt Fixtures.random "hunter2"
      /\ User.isAdmin user = Js.undefined
      /\ fst (Auth.verify Fixtures.scrypt MongoStorage.getUserByUsername
                "bob" "hunter2" w1)
         = Auth.Accept user
  | (Auth.UsernameExists, w1) =>
      Mongoose.users w1 = Mongoose.users w
      /\ exists d, In d (Mongoose.users w)
                   /\ UserDocument.username d = "bob"
  | (Auth.Failed, _) => False
  end.
Proof.
  intros w.
  apply (mongo_register_then_login Fixtures.scrypt Fixtures.random
           Fixtures.bob Fixtures.env4 w).
  - reflexivity.
  - intros d Hd. vm_compute in Hd. destruct Hd as [<-|[]].
    vm_compute. discriminate.
Defined.

End Login.

(** ** Numeric ids that find nothing in [MongoStorage] *)

Module MongoMisses.

Import Mongoose MongoStorage MongoHoare ListFacts.
Import Js (result, Ok, Throw).
Local Open Scope mongo_scope.

(** A numeric id is cast to an identifier below 2^24. *)
Lemma cast_small (id : Z) :
  (0 <= id < 2 ^ 24)%Z ->
  ObjectId.cast (stringId id) = Some (Z.to_N id) /\ (Z.to_N id < 2 ^ 24)%N.
Proof.
  intros Hid. split.
  - rewrite IdFacts.stringId_toString.
    + apply IdFacts.cast_toString. unfold ObjectId.valid.
      change (2 ^ 96)%N with (Z.to_N (2 ^ 96)). apply Z2N.inj_lt; lia.
    + split; [lia|]. eapply Z.lt_trans; [apply Hid|reflexivity].
  - change (2 ^ 24)%N with (Z.to_N (2 ^ 24)). apply Z2N.inj_lt; lia.
Qed.

Lemma update_first_none {D} (p : D -> bool) (f : D -> D) (l : list D) :
  (forall x, In x l -> p x = false) -> update_first p f l = l.
Proof.
  induction l as [|x r IH]; intros H; [reflexivity|]. simpl.
  rewrite (H x (or_introl eq_refl)). f_equal. apply IH.
  intros y Hy. apply H. now right.
Qed.

Lemma delete_first_none {D} (p : D -> bool) (l : list D) :
  (forall x, In x l -> p x = false) -> delete_first p l = l.
Proof.
  induction l as [|x r IH]; intros H; [reflexivity|]. simpl.
  rewrite (H x (or_introl eq_refl)). f_equal. apply IH.
  intros y Hy. apply H. now right.
Qed.

Lemma small_is_no_driver_id {D} (idf : D -> ObjectId.t) (o : ObjectId.t)
    (l : list D) :
  (o < 2 ^ 24)%N -> (forall d, In d l -> (2 ^ 24 <= idf d)%N) ->
  forall x, In x l -> (idf x =? o)%N = false.
Proof.
  intros Ho H x Hx. apply N.eqb_neq. specialize (H x Hx). lia.
Qed.

(** X22.  [MongoStorage] cannot edit what the driver has named.  When
    the stored menu items and orders have identifiers as the driver makes
    them (not below 2^24), then for every numeric id that the application
    hands out, [updateMenuItem] returns [undefined], [deleteMenuItem]
    returns [false] and [updateOrderStatus] returns [undefined], and the
    collections stay as they were, whether or not a store call fails. *)
Theorem mongo_edits_miss (id : Z) (m : InsertMenuItem.t)
    (status : OrderStatus.t) (w : world) :
  (0 <= id < 2 ^ 24)%Z ->
  (forall d, In d (menuItems w) -> (2 ^ 24 <= MenuItemDocument._id d)%N) ->
  (forall d, In d (orders w) -> (2 ^ 24 <= OrderDocument._id d)%N) ->
  (fst (updateMenuItem id m w) = Ok None
   /\ menuItems (snd (updateMenuItem id m w)) = menuItems w)
  /\ (fst (deleteMenuItem id w) = Ok false
      /\ menuItems (snd (deleteMenuItem id w)) = menuItems w)
  /\ (fst (updateOrderStatus id status w) = Ok None
      /\ orders (snd (updateOrderStatus id status w)) = orders w).
Proof.
  intros Hid Hm Ho. destruct (cast_small id Hid) as [Hc Hs].
  assert (Pm := small_is_no_driver_id MenuItemDocument._id _ _ Hs Hm).
  assert (Po := small_is_no_driver_id OrderDocument._id _ _ Hs Ho).
  unfold updateMenuItem, deleteMenuItem, updateOrderStatus, try_catch,
    Mongoose.bind, MenuItem_findByIdAndUpdate, MenuItem_findByIdAndDelete,
    Order_findByIdAndUpdate, call, castId, Mongoose.bind, ret.
  rewrite Hc.
  destruct (faults w) as [|[] fs];
    cbn [fst snd menuItems orders with_menuItems with_orders];
    rewrite ?(MongoUsers.find_all_false _ _ Pm),
      ?(MongoUsers.find_all_false _ _ Po),
      ?(update_first_none _ _ _ Pm), ?(update_first_none _ _ _ Po),
      ?(delete_first_none _ _ Pm);
    repeat split.
Qed.

Lemma mongo_edits_miss_witness :
  let w := Fixtures.menu_and_order in
  (fst (updateMenuItem 0x439012 Sample.pizza w) = Ok None
   /\ menuItems (snd (updateMenuItem 0x439012 Sample.pizza w)) = menuItems w)
  /\ (fst (deleteMenuItem 0x439012 w) = Ok false
      /\ menuItems (snd (deleteMenuItem 0x439012 w)) = menuItems w)
  /\ (fst (updateOrderStatus 0x439013 OrderStatus.delivered w) = Ok None
      /\ orders (snd (updateOrderStatus 0x439013 OrderStatus.delivered w))
         = orders w).
Proof.
  intros w.
  assert (Hm : forall d, In d (menuItems w) ->
                 (2 ^ 24 <= MenuItemDocument._id d)%N).
  { intros d Hd. vm_compute in Hd. destruct Hd as [<-|[]].
    vm_compute. discriminate. }
  assert (Ho : forall d, In d (orders w) ->
                 (2 ^ 24 <= OrderDocument._id d)%N).
  { intros d Hd. vm_compute in Hd. destruct Hd as [<-|[]].
    vm_compute. discriminate. }
  destruct (mongo_edits_miss 0x439012 Sample.pizza OrderStatus.delivered w)
    as (H1 & H2 & _); [lia|exact Hm|exact Ho|].
  destruct (mongo_edits_miss 0x439013 Sample.pizza OrderStatus.delivered w)
    as (_ & _ & H3); [lia|exact Hm|exact Ho|].
  split; [exact H1|]. split; [exact H2|exact H3].
Defined.

(** The users are [us], and every cart document refers to one of them. *)
Definition cart_refs (us : list UserDocument.t) (w : world) : Prop :=
  users w = us
  /\ forall d, In d (cartItems w) ->
       exists u, In u us /\ CartItemDocument.userId d = UserDocument._id u.

Lemma cart_refs_stable us : stable (cart_refs us).
Proof. intros c f w H. exact H. Qed.

Lemma In_updated {D} (p : D -> bool) (f : D -> D) (l : list D) x :
  List.find p l = Some x -> In (f x) (update_first p f l).
Proof.
  induction l as [|y r IH]; simpl; [discriminate|].
  destruct (p y); [intros [= ->]; now left|].
  intros H. right. now apply IH.
Qed.

Lemma In_update_first_inv p q (l : list CartItemDocument.t) d :
  In d (update_first p (set_quantity q) l) ->
  exists x, In x l /\ CartItemDocument.userId d = CartItemDocument.userId x.
Proof.
  induction l as [|y r IH]; simpl; [tauto|].
  destruct (p y); simpl.
  - intros [E|H]; [exists y; subst d; auto|exists d; auto].
  - intros [E|H]; [exists y; subst d; auto|].
    destruct (IH H) as (x & Hx & E). exists x. auto.
Qed.

Lemma addToCart_stores e c us :
  triple (cart_refs us) (addToCart e c)
    (fun r w => cart_refs us w
                /\ exists d, In d (cartItems w)
                             /\ convertCartItemDocToType d = r)
    (cart_refs us).
Proof.
  assert (Hst := cart_refs_stable us). unfold addToCart.
  apply triple_try with (Mid := cart_refs us); [|apply triple_throw; auto].
  apply triple_bind with (Mid := fun a w => a = us /\ cart_refs us w).
  { unfold User_find. apply triple_call; auto.
    intros w Hw. simpl. split; [apply Hw|exact Hw]. }
  intros allUsers. apply triple_pure. intros ->.
  destruct (user_with_numeric_id _ us) as [user|] eqn:Euser;
    [|apply triple_throw; auto].
  assert (Huser : In user us) by (apply find_some in Euser; tauto).
  apply triple_bind with (Mid := fun _ => cart_refs us).
  { unfold MenuItem_find. apply triple_call; auto. intros w Hw. exact Hw. }
  intros allMenuItems.
  destruct (List.find _ allMenuItems) as [menuItem|];
    [|apply triple_throw; auto].
  apply triple_bind with (Mid := fun _ => cart_refs us).
  { unfold CartItem_findOne. apply triple_call; auto.
    intros w Hw. exact Hw. }
  intros [existing|].
  - apply triple_bind
      with (Mid := fun a w =>
                     cart_refs us w
                     /\ forall d, a = Some d -> In d (cartItems w)).
    + unfold CartItem_findByIdAndUpdate. apply triple_call; auto.
      intros w (Hu & Hrefs). cbn. split; [split; [exact Hu|]|].
      * intros d Hd. apply In_update_first_inv in Hd.
        destruct Hd as (x & Hx & E). rewrite E. now apply Hrefs.
      * intros d Hd.
        destruct (List.find _ (cartItems w)) as [x|] eqn:Ex;
          [|discriminate].
        injection Hd as <-. now apply In_updated.
    + intros [updated|]; [|apply triple_throw; tauto].
      apply triple_ret. intros w (Hw & Hin). split; [exact Hw|].
      exists updated. split; [now apply Hin|reflexivity].
  - apply triple_bind
      with (Mid := fun a w => cart_refs us w /\ In a (cartItems w)).
    + unfold CartItem_save. apply triple_call; auto.
      intros w (Hu & Hrefs). simpl.
      destruct (existsb _ (cartItems w)); cbn; [split; assumption|].
      split; [split; [exact Hu|]|apply in_or_app; right; now left].
      intros d Hd. apply in_app_or in Hd. destruct Hd as [Hd|[<-|[]]].
      * now apply Hrefs.
      * exists user. split; [assumption|reflexivity].
    + intros saved. apply triple_ret. intros w (Hw & Hin).
      split; [exact Hw|]. exists saved. split; [assumption|reflexivity].
Qed.

Lemma filter_none {D} (p : D -> bool) (l : list D) :
  (forall x, In x l -> p x = false) -> filter p l = [].
Proof.
  induction l as [|x r IH]; intros H; [reflexivity|]. simpl.
  rewrite (H x (or_introl eq_refl)). apply IH.
  intros y Hy. apply H. now right.
Qed.

Section Methods.
Variable castNumber : Z -> option ObjectId.t.

Lemma getCartItems_misses userId w :
  (0 <= userId < 2 ^ 24)%Z ->
  (forall u, In u (users w) -> (2 ^ 24 <= UserDocument._id u)%N) ->
  (forall o, castNumber userId = Some o ->
     forall u, In u (users w) -> UserDocument._id u <> o) ->
  (forall d, In d (cartItems w) ->
     exists u, In u (users w)
               /\ CartItemDocument.userId d = UserDocument._id u) ->
  fst (getCartItems castNumber userId w) = Ok [].
Proof.
  intros Hid Hdriver Hcast Hrefs.
  destruct (cast_small userId Hid) as [Hc Hs].
  assert (H1 : filter (fun d => (CartItemDocument.userId d
                                 =? Z.to_N userId)%N) (cartItems w) = []).
  { apply filter_none. intros y Hy. apply N.eqb_neq.
    destruct (Hrefs y Hy) as (u & Hu & Eu).
    specialize (Hdriver u Hu). lia. }
  assert (H2 : forall o, castNumber userId = Some o ->
            filter (fun d => (CartItemDocument.userId d =? o)%N)
                   (cartItems w) = []).
  { intros o Ho. apply filter_none. intros y Hy. apply N.eqb_neq.
    destruct (Hrefs y Hy) as (u & Hu & Eu).
    rewrite Eu. now apply (Hcast o Ho u Hu). }
  unfold getCartItems, try_catch, Mongoose.bind, CartItem_find,
    CartItem_find_userId, call, castId, Mongoose.bind, ret, throw.
  rewrite Hc.
  destruct (castNumber userId) as [o2|] eqn:E2.
  - specialize (H2 o2 eq_refl).
    destruct (faults w) as [|[] [|[] [|[] fs]]];
      cbn [fst snd cartItems faults tl]; rewrite ?H1;
      cbn [fst snd cartItems faults tl]; rewrite ?H2; reflexivity.
  - destruct (faults w) as [|[] [|[] fs]];
      cbn [fst snd cartItems faults tl]; rewrite ?H1; reflexivity.
Qed.

(** X23.  [MongoStorage.getCartItems] does not return what [addToCart]
    stored.  [addToCart] files a cart document under the identifier of the
    user; [getCartItems] asks for the documents filed under the numeric id
    padded with zeros, then under the number itself.  When the users have
    identifiers as the driver makes them and the number is not cast to
    the identifier of a stored user, [getCartItems] for the user of an
    [addToCart] returns the empty list right after it, although the
    document that [addToCart] returned is in the collection. *)
Theorem mongo_cart_not_read_back (e : env) (c : InsertCartItem.t)
    (w : world) :
  (0 <= InsertCartItem.userId c < 2 ^ 24)%Z ->
  (forall u, In u (users w) -> (2 ^ 24 <= UserDocument._id u)%N) ->
  (forall o, castNumber (InsertCartItem.userId c) = Some o ->
     forall u, In u (users w) -> UserDocument._id u <> o) ->
  (forall d, In d (cartItems w) ->
     exists u, In u (users w)
               /\ CartItemDocument.userId d = UserDocument._id u) ->
  let w' := snd (addToCart e c w) in
  fst (getCartItems castNumber (InsertCartItem.userId c) w') = Ok []
  /\ (forall r, fst (addToCart e c w) = Ok r ->
        exists d, In d (cartItems w') /\ convertCartItemDocToType d = r).
Proof.
  intros Hid Hdriver Hcast Hrefs w'.
  assert (Hw : cart_refs (users w) w) by (split; [reflexivity|assumption]).
  assert (T := addToCart_stores e c (users w) w Hw).
  subst w'. destruct (addToCart e c w) as [[r|] w1]; cbn [fst snd].
  - destruct T as ((Hu & Hr1) & Hd). split.
    + apply getCartItems_misses; rewrite ?Hu; assumption.
    + intros r' [= <-]. exact Hd.
  - destruct T as (Hu & Hr1). split; [|discriminate].
    apply getCartItems_misses; rewrite ?Hu; assumption.
Qed.

End Methods.

Lemma mongo_cart_not_read_back_witness :
  let w := run Sample.no_cast Sample.mongo_ops (MongoStorage.empty []) in
  let w' := snd (addToCart Sample.env3 Sample.mongo_two w) in
  fst (getCartItems Sample.no_cast 0x439011 w') = Ok []
  /\ (forall r, fst (addToCart Sample.env3 Sample.mongo_two w) = Ok r ->
        exists d, In d (cartItems w') /\ convertCartItemDocToType d = r).
Proof.
  intros w.
  apply (mongo_cart_not_read_back Sample.no_cast Sample.env3
           Sample.mongo_two w).
  - change (InsertCartItem.userId Sample.mongo_two) with 0x439011%Z. lia.
  - intros u Hu. vm_compute in Hu. destruct Hu as [<-|[]].
    vm_compute. discriminate.
  - intros o Ho. discriminate Ho.
  - intros d Hd. vm_compute in Hd. destruct Hd as [<-|[]].
    exists Sample.alice_doc. split; [vm_compute; left|]; reflexivity.
Defined.

End MongoMisses.
